(** * actionSHARK: the paginating fetcher and the Mongo mapper

    A shallow embedding of
      - [src/actionSHARK/github.py]  (module [SHARK_github] below),
      - [src/actionshark/github.py]  (module [shark_github] below),
      - [src/actionshark/mongo.py]   (module [shark_mongo] below),
    over a small model of the Python values, exceptions and library calls
    the three files use.

    Conventions of the model:
      - decoded JSON values and the Python values copied from them are one
        type [json]; [JNull] is Python's [None].  JSON numbers with a
        fraction or an exponent are outside the model;
      - a dict is an association list in insertion order, looked up by its
        first binding of the key;
      - a Python [str] is a [string] of ASCII characters;
      - a Python exception is a value of [exn]; [sys.exit(n)] is the
        outcome [Exits n];
      - [requests.get], [time.sleep], the logger and the injected sink are
        recorded as [event]s of a trace; the HTTP server is a script of
        responses, handed out one per request, and a request the script
        has no response for waits (the outcome [Blocks]); the network
        itself does not fail;
      - [datetime.fromtimestamp] and [datetime.now] are the local time of
        the platform, a function [localtime] of the world that raises out
        of its range; [mk_world] gives the platform of a zone whose offset
        from UTC never changes.

    The models come first, then concrete inputs, then the facts: about the
    library calls, the mapper, the two fetchers, and then the properties
    of the specification (modules [FetchFacts] and [OrderFacts], and
    [MongoFacts] for the mapper) and further properties of the code
    (modules [StoreFacts], [PagingFacts], [TrackingFacts], [WiringFacts]
    and [EdgeFacts]). *)

From Stdlib Require Import ZArith List String Ascii Bool Lia.
From Stdlib Require Import DecimalString.
Import ListNotations.
Set Warnings "-register-all".
Open Scope string_scope.
Open Scope list_scope.
Open Scope Z_scope.

(* ================================================================== *)
(** * Python values *)
(* ================================================================== *)

Module Py.

Inductive json : Type :=
| JNull
| JBool (b : bool)
| JInt (z : Z)
| JStr (s : string)
| JList (l : list json)
| JObj (kv : list (string * json)).

Inductive exn : Type :=
| TypeError
| ValueError
| KeyError
| AttributeError
| DoesNotExist
| MultipleObjectsReturned
| ValidationError
| OverflowError
| OSError.

(** The result of an expression that may raise. *)
Inductive result (A : Type) : Type :=
| Ok (a : A)
| Err (e : exn).
Arguments Ok {A} a.
Arguments Err {A} e.

Definition rbind {A B} (r : result A) (k : A -> result B) : result B :=
  match r with
  | Ok a => k a
  | Err e => Err e
  end.

Declare Scope result_scope.
Delimit Scope result_scope with result.
Notation "'let?' x ':=' r 'in' k" := (rbind r (fun x => k))
  (at level 10, x name, r at level 100, k at level 200) : result_scope.

(** ** Truth value, [len], [int], [str] of an int *)

(** [bool(x)], the test of [if x] and [not x]. *)
Definition truthy (j : json) : bool :=
  match j with
  | JNull => false
  | JBool b => b
  | JInt z => negb (z =? 0)
  | JStr s => negb (String.eqb s "")
  | JList l => match l with [] => false | _ :: _ => true end
  | JObj kv => match kv with [] => false | _ :: _ => true end
  end.

(** [len(x)]: defined on strings, lists and dicts, a [TypeError] on the rest. *)
Definition py_len (j : json) : result Z :=
  match j with
  | JStr s => Ok (Z.of_nat (String.length s))
  | JList l => Ok (Z.of_nat (List.length l))
  | JObj kv => Ok (Z.of_nat (List.length kv))
  | JNull | JBool _ | JInt _ => Err TypeError
  end.

(** [str(n)] for an int, as an f-string formats it. *)
Definition str_of_int (z : Z) : string := NilZero.string_of_int (Z.to_int z).

(** The white space [int] skips around a literal: tab to carriage return,
    and the space. *)
Definition is_space (c : ascii) : bool :=
  let n := nat_of_ascii c in
  ((9 <=? n) && (n <=? 13))%nat || (n =? 32)%nat.

Definition digit_of (c : ascii) : option Z :=
  let n := nat_of_ascii c in
  if ((48 <=? n) && (n <=? 57))%nat then Some (Z.of_nat (n - 48)) else None.

Definition is_digit (c : ascii) : bool :=
  match digit_of c with Some _ => true | None => false end.

Fixpoint lstrip (l : list ascii) : list ascii :=
  match l with
  | c :: l' => if is_space c then lstrip l' else l
  | [] => []
  end.

Definition strip (l : list ascii) : list ascii :=
  rev (lstrip (rev (lstrip l))).

(** The digits of an int literal: decimal digits, with single underscores
    allowed between two digits.  [prev_digit] says whether the character
    before was a digit; [acc] is the value read so far. *)
Fixpoint int_digits (l : list ascii) (prev_digit : bool) (acc : Z) : option Z :=
  match l with
  | [] => if prev_digit then Some acc else None
  | c :: l' =>
      match digit_of c with
      | Some d => int_digits l' true (10 * acc + d)
      | None =>
          if (Ascii.eqb c "_" && prev_digit)%bool
          then int_digits l' false acc
          else None
      end
  end.

(** [int(s)] for a string, base 10. *)
Definition int_of_str (s : string) : result Z :=
  let body := strip (list_ascii_of_string s) in
  let '(neg, ds) :=
    match body with
    | "-"%char :: r => (true, r)
    | "+"%char :: r => (false, r)
    | _ => (false, body)
    end in
  match int_digits ds false 0 with
  | Some n => Ok (if neg then - n else n)
  | None => Err ValueError
  end.

(** [int(x)]. *)
Definition py_int (j : json) : result Z :=
  match j with
  | JNull => Err TypeError
  | JBool b => Ok (if b then 1 else 0)
  | JInt z => Ok z
  | JStr s => int_of_str s
  | JList _ | JObj _ => Err TypeError
  end.

(** ** Dicts *)

Fixpoint assoc {A} (k : string) (kv : list (string * A)) : option A :=
  match kv with
  | [] => None
  | (k', v) :: kv' => if String.eqb k k' then Some v else assoc k kv'
  end.

(** [d[k] = v]: the binding is replaced in place, or appended. *)
Fixpoint dict_set {A} (k : string) (v : A) (kv : list (string * A))
  : list (string * A) :=
  match kv with
  | [] => [(k, v)]
  | (k', v') :: kv' =>
      if String.eqb k k' then (k, v) :: kv' else (k', v') :: dict_set k v kv'
  end.

(** [obj.get(k)]: [None] for a missing key; an [AttributeError] when [obj]
    is not a dict. *)
Definition py_get (obj : json) (k : string) : result json :=
  match obj with
  | JObj kv => Ok (match assoc k kv with Some v => v | None => JNull end)
  | _ => Err AttributeError
  end.

(** [obj[k]] for a string key [k]: a [KeyError] for a missing key of a dict,
    a [TypeError] on every other value (a list or a string wants an integer
    index, the rest is not subscriptable). *)
Definition py_getitem (obj : json) (k : string) : result json :=
  match obj with
  | JObj kv => match assoc k kv with Some v => Ok v | None => Err KeyError end
  | _ => Err TypeError
  end.

(** [for x in v]: the elements of a list, the keys of a dict, the characters
    of a string; a [TypeError] on the rest. *)
Definition py_iter (v : json) : result (list json) :=
  match v with
  | JList l => Ok l
  | JObj kv => Ok (map (fun p => JStr (fst p)) kv)
  | JStr s => Ok (map (fun c => JStr (String c EmptyString)) (list_ascii_of_string s))
  | JNull | JBool _ | JInt _ => Err TypeError
  end.

(** ** Strings *)

(** [s[:-n]] for [n >= 0]: [s] without its last [n] characters; with [n = 0]
    the slice is [s[:0]], the empty string. *)
Definition drop_last (n : nat) (s : string) : string :=
  match n with
  | O => ""
  | _ => substring 0 (String.length s - n) s
  end.

Definition lower_char (c : ascii) : ascii :=
  let n := nat_of_ascii c in
  if ((65 <=? n) && (n <=? 90))%nat then ascii_of_nat (n + 32) else c.

Definition lower (s : string) : string :=
  string_of_list_ascii (map lower_char (list_ascii_of_string s)).

End Py.

(* ================================================================== *)
(** * [datetime]: [strptime] and the arithmetic of naive datetimes *)
(* ================================================================== *)

Module Datetime.
Import Py.

(** A [datetime.datetime]; [tzinfo] is the fixed offset from UTC as whole
    seconds and microseconds, [None] for a naive datetime. *)
Record datetime : Type := mk_datetime {
  year : Z;
  month : Z;
  day : Z;
  hour : Z;
  minute : Z;
  second : Z;
  microsecond : Z;
  tzinfo : option (Z * Z)
}.

(** ** A backtracking matcher for the regular expressions of [_strptime] *)

(** [strptime] turns a format into a regular expression and takes its first
    match at the start of the data.  [re_match] lists the matches of an
    expression in the order a backtracking matcher tries them, each as the
    matched text and the rest of the input. *)
Inductive re : Type :=
| Eps
| Chr (p : ascii -> bool)
| Seq (a b : re)
| Alt (a b : re)
| Opt (a : re).

Fixpoint re_match (r : re) (s : list ascii) : list (list ascii * list ascii) :=
  match r with
  | Eps => [([], s)]
  | Chr p =>
      match s with
      | c :: s' => if p c then [([c], s')] else []
      | [] => []
      end
  | Seq a b =>
      flat_map (fun m1 =>
        map (fun m2 => (fst m1 ++ fst m2, snd m2)) (re_match b (snd m1)))
        (re_match a s)
  | Alt a b => re_match a s ++ re_match b s
  | Opt a => re_match a s ++ [([], s)]
  end.

Definition in_range (lo hi : ascii) : ascii -> bool :=
  fun c => ((nat_of_ascii lo <=? nat_of_ascii c)
            && (nat_of_ascii c <=? nat_of_ascii hi))%nat.

(** A character of the format, matched without regard to case. *)
Definition ichar (c : ascii) : re :=
  Chr (fun x => Ascii.eqb (lower_char x) (lower_char c)).
Definition xchar (c : ascii) : re := Chr (Ascii.eqb c).
Definition digit : re := Chr is_digit.
Definition range (lo hi : ascii) : re := Chr (in_range lo hi).

Fixpoint seqs (l : list re) : re :=
  match l with
  | [] => Eps
  | [r] => r
  | r :: l' => Seq r (seqs l')
  end.

Fixpoint alts (l : list re) : re :=
  match l with
  | [] => Chr (fun _ => false)
  | [r] => r
  | r :: l' => Alt r (alts l')
  end.

Definition word (s : string) : re := seqs (map ichar (list_ascii_of_string s)).

(** [x{1,n+1}], greedy. *)
Fixpoint upto (n : nat) (x : re) : re :=
  match n with
  | O => x
  | S n' => Seq x (Opt (upto n' x))
  end.

(** The white space of [\s]. *)
Definition is_uspace (c : ascii) : bool :=
  let n := nat_of_ascii c in
  ((9 <=? n) && (n <=? 13))%nat || (n =? 32)%nat
  || ((28 <=? n) && (n <=? 31))%nat.

(** The matches of [\s+], the longest first. *)
Fixpoint spaces_from (taken : list ascii) (s : list ascii)
  : list (list ascii * list ascii) :=
  match s with
  | c :: s' =>
      if is_uspace c
      then spaces_from (taken ++ [c]) s' ++ [(taken ++ [c], s')]
      else []
  | [] => []
  end.

Definition a_weekday : list string :=
  ["mon"; "tue"; "wed"; "thu"; "fri"; "sat"; "sun"].
Definition a_month : list string :=
  ["jan"; "feb"; "mar"; "apr"; "may"; "jun";
   "jul"; "aug"; "sep"; "oct"; "nov"; "dec"].

(** The zone names [%Z] accepts: [utc], [gmt] and the names of the local
    zone, which are left out here (the [Date] header of an HTTP response is
    in GMT). *)
Definition zone_names : list string := ["utc"; "gmt"].

(** The expression of a directive, as [_strptime.TimeRE] has it in the C
    locale. *)
Definition directive (d : ascii) : option re :=
  match d with
  | "Y"%char => Some (seqs [digit; digit; digit; digit])
  | "m"%char => Some (alts [Seq (xchar "1") (range "0" "2");
                            Seq (xchar "0") (range "1" "9");
                            range "1" "9"])
  | "d"%char => Some (alts [Seq (xchar "3") (range "0" "1");
                            Seq (range "1" "2") digit;
                            Seq (xchar "0") (range "1" "9");
                            range "1" "9";
                            Seq (xchar " ") (range "1" "9")])
  | "H"%char => Some (alts [Seq (xchar "2") (range "0" "3");
                            Seq (range "0" "1") digit;
                            digit])
  | "M"%char => Some (alts [Seq (range "0" "5") digit; digit])
  | "S"%char => Some (alts [Seq (xchar "6") (range "0" "1");
                            Seq (range "0" "5") digit;
                            digit])
  | "f"%char => Some (upto 5 (range "0" "9"))
  | "z"%char =>
      Some (Alt
        (seqs [Alt (xchar "+") (xchar "-"); digit; digit; Opt (xchar ":");
               range "0" "5"; digit;
               Opt (seqs [Opt (xchar ":"); range "0" "5"; digit;
                          Opt (Seq (xchar ".") (upto 5 digit))])])
        (xchar "Z"))
  | "a"%char => Some (alts (map word a_weekday))
  | "b"%char => Some (alts (map word a_month))
  | "Z"%char => Some (alts (map word zone_names))
  | _ => None
  end.

Inductive tok : Type :=
| TLit (c : ascii)
| TSpace
| TDir (d : ascii).

(** The format cut into literal characters, runs of white space and
    directives; [None] for a stray [%]. *)
Fixpoint tokens (fmt : list ascii) (in_space : bool) : option (list tok) :=
  match fmt with
  | [] => Some []
  | "%"%char :: d :: fmt' =>
      option_map (cons (TDir d)) (tokens fmt' false)
  | "%"%char :: [] => None
  | c :: fmt' =>
      if is_uspace c
      then if in_space then tokens fmt' true
           else option_map (cons TSpace) (tokens fmt' true)
      else option_map (cons (TLit c)) (tokens fmt' false)
  end.

(** The groups of a match: the text each directive matched. *)
Definition found_dict := list (ascii * list ascii).

Fixpoint match_tokens (ts : list tok) (s : list ascii)
  : option (list (found_dict * list ascii)) :=
  match ts with
  | [] => Some [([], s)]
  | t :: ts' =>
      let this : option (list (found_dict * list ascii)) :=
        match t with
        | TLit c => Some (map (fun m => ([], snd m)) (re_match (ichar c) s))
        | TSpace => Some (map (fun m => ([], snd m)) (spaces_from [] s))
        | TDir d =>
            option_map
              (fun r => map (fun m => ([(d, fst m)], snd m)) (re_match r s))
              (directive d)
        end in
      match this with
      | None => None
      | Some ms =>
          fold_right
            (fun m acc =>
               match match_tokens ts' (snd m), acc with
               | Some tl, Some rest =>
                   Some (map (fun m' => (fst m ++ fst m', snd m')) tl ++ rest)
               | _, _ => None
               end)
            (Some []) ms
      end
  end.

Fixpoint group (d : ascii) (f : found_dict) : option (list ascii) :=
  match f with
  | [] => None
  | (d', m) :: f' => if Ascii.eqb d d' then Some m else group d f'
  end.

(** [int(found_dict[d])], or [default] when the format has no [d]. *)
Definition int_group (d : ascii) (default : Z) (f : found_dict) : result Z :=
  match group d f with
  | Some m => int_of_str (string_of_list_ascii m)
  | None => Ok default
  end.

Fixpoint index_of (s : string) (l : list string) (i : Z) : option Z :=
  match l with
  | [] => None
  | x :: l' => if String.eqb s x then Some i else index_of s l' (i + 1)
  end.

(** [l[a:b]] for [0 <= a <= b]. *)
Definition slice (a b : nat) (l : list ascii) : list ascii :=
  firstn (b - a) (skipn a l).

Fixpoint zeros (n : nat) : list ascii :=
  match n with
  | O => []
  | S n' => "0"%char :: zeros n'
  end.

(** The digits of a fraction padded on the right to six, read as an int. *)
Definition micro_of (m : list ascii) : result Z :=
  int_of_str (string_of_list_ascii (m ++ zeros (6 - List.length m))).

Definition is_colon (o : option ascii) : bool :=
  match o with Some c => Ascii.eqb c ":" | None => false end.

(** The offset of a [%z] match, in seconds and microseconds. *)
Definition gmtoff_of (z0 : list ascii) : result (Z * Z) :=
  if list_eq_dec ascii_dec z0 ["Z"%char] then Ok (0, 0) else
  let z1 : result (list ascii) :=
    if is_colon (nth_error z0 3) then
      let z := firstn 3 z0 ++ skipn 4 z0 in
      if (5 <? List.length z)%nat then
        if is_colon (nth_error z 5)
        then Ok (firstn 5 z ++ skipn 6 z)
        else Err ValueError
      else Ok z
    else Ok z0 in
  (let? z := z1 in
   let? hours := int_of_str (string_of_list_ascii (slice 1 3 z)) in
   let? minutes := int_of_str (string_of_list_ascii (slice 3 5 z)) in
   let? seconds :=
     match slice 5 7 z with
     | [] => Ok 0
     | s => int_of_str (string_of_list_ascii s)
     end in
   let? fraction := micro_of (skipn 8 z) in
   let gmtoff := hours * 3600 + minutes * 60 + seconds in
   match z with
   | "-"%char :: _ => Ok (- gmtoff, - fraction)
   | _ => Ok (gmtoff, fraction)
   end)%result.

Definition is_leap (y : Z) : bool :=
  ((y mod 4 =? 0) && (negb (y mod 100 =? 0) || (y mod 400 =? 0)))%bool.

Definition days_in_month (y m : Z) : Z :=
  if m =? 2 then (if is_leap y then 29 else 28)
  else if (m =? 4) || (m =? 6) || (m =? 9) || (m =? 11) then 30
  else 31.

(** The checks of the [datetime] and [timezone] constructors. *)
Definition valid_datetime (d : datetime) : bool :=
  ((1 <=? year d) && (year d <=? 9999)
   && (1 <=? month d) && (month d <=? 12)
   && (1 <=? day d) && (day d <=? days_in_month (year d) (month d))
   && (0 <=? hour d) && (hour d <=? 23)
   && (0 <=? minute d) && (minute d <=? 59)
   && (0 <=? second d) && (second d <=? 59)
   && (0 <=? microsecond d) && (microsecond d <=? 999999)
   && match tzinfo d with
      | None => true
      | Some (s, us) =>
          Z.abs (s * 1000000 + us) <? 86400 * 1000000
      end)%bool.

(** The datetime of the groups of a match. *)
Definition of_found (f : found_dict) : result datetime :=
  (let? y := int_group "Y" 1900 f in
   let? m :=
     match group "b" f with
     | Some b =>
         match index_of (lower (string_of_list_ascii b)) a_month 1 with
         | Some i => Ok i
         | None => Err ValueError
         end
     | None => int_group "m" 1 f
     end in
   let? d := int_group "d" 1 f in
   let? H := int_group "H" 0 f in
   let? M := int_group "M" 0 f in
   let? S := int_group "S" 0 f in
   let? us :=
     match group "f" f with
     | Some s => micro_of s
     | None => Ok 0
     end in
   let? tz :=
     match group "z" f with
     | Some z => let? off := gmtoff_of z in Ok (Some off)
     | None => Ok None
     end in
   let r := mk_datetime y m d H M S us tz in
   if valid_datetime r then Ok r else Err ValueError)%result.

(** [datetime.strptime(data, fmt)]: the first match of the format's
    expression must cover the whole of [data]; a [ValueError] otherwise. *)
Definition strptime (data fmt : string) : result datetime :=
  match tokens (list_ascii_of_string fmt) false with
  | None => Err ValueError
  | Some ts =>
      match match_tokens ts (list_ascii_of_string data) with
      | Some ((f, []) :: _) => of_found f
      | _ => Err ValueError
      end
  end.

(** ** Naive datetimes on a line of seconds *)

(** Days from 1970-01-01 to the civil date [y]-[m]-[d]. *)
Definition days_from_civil (y m d : Z) : Z :=
  let y' := if m <=? 2 then y - 1 else y in
  let era := y' / 400 in
  let yoe := y' - era * 400 in
  let doy := (153 * (if 2 <? m then m - 3 else m + 9) + 2) / 5 + d - 1 in
  let doe := yoe * 365 + yoe / 4 - yoe / 100 + doy in
  era * 146097 + doe - 719468.

(** A naive datetime with no microseconds as the seconds it stands after
    1970-01-01 00:00:00 on its own clock. *)
Definition to_seconds (d : datetime) : Z :=
  days_from_civil (year d) (month d) (day d) * 86400
  + hour d * 3600 + minute d * 60 + second d.

(** [(a - b).seconds] for naive datetimes [a] and [b] given in seconds: the
    difference is normalised to days and [0 <= seconds < 86400], and
    [.seconds] reads the second part only. *)
Definition timedelta_seconds (a b : Z) : Z := (a - b) mod 86400.

(** The last second of [datetime.max], 9999-12-31 23:59:59. *)
Definition max_seconds : Z := 253402300799.

(** [d + timedelta(hours=1)] for a naive datetime [d] given in seconds: an
    [OverflowError] when the sum is past [datetime.max]. *)
Definition plus_one_hour (d : Z) : result Z :=
  if d + 3600 <=? max_seconds then Ok (d + 3600) else Err OverflowError.

(** [datetime.fromtimestamp(t)] of CPython on a 64-bit Linux in a zone of
    the fixed offset [utcoffset], as the seconds the naive local datetime
    stands after 1970-01-01 00:00:00: an [OverflowError] when [t] does not
    fit the platform's [time_t], an [OSError] when the year of the local
    time does not fit a C [int], a [ValueError] when the local datetime is
    not from 0001-01-02 00:00:00 to 9999-12-31 23:59:59 (the first day of
    year 1 is refused too: the call also converts the instant a day
    before). *)
Definition fixed_zone (utcoffset : Z) (t : Z) : result Z :=
  if (t <? - 2 ^ 63) || (2 ^ 63 - 1 <? t) then Err OverflowError
  else
    let l := t + utcoffset in
    if (l <? -67768040609740800) || (67768036191676799 <? l) then Err OSError
    else if (l <? -62135510400) || (max_seconds <? l) then Err ValueError
    else Ok l.

End Datetime.


(* ================================================================== *)
(** * [src/actionshark/mongo.py] *)
(* ================================================================== *)

Module shark_mongo.
Import Py Datetime.

(** An [ObjectId], the key a saved document gets. *)
Definition objectid := Z.

(** ** The document classes

    A field holds what the converter assigns to it: an int where the
    converter calls [int], a datetime or [None] where it calls
    [__parse_date], the raw value where it copies [obj.get(...)]. *)

Record Workflow : Type := mk_Workflow {
  workflow_id : Z;
  wf_name : json;
  wf_path : json;
  wf_state : json;
  wf_created_at : option datetime;
  wf_updated_at : option datetime;
  wf_repo_id : objectid;
  wf_repo_url : option string
}.

Record RunPullRequest : Type := mk_RunPullRequest {
  run_pull_request_id : json;
  pr_number : json;
  head_id : json;
  head_ref : json;
  head_name : json;
  base_id : json;
  base_ref : json;
  base_name : json
}.

Record JobStep : Type := mk_JobStep {
  step_name : json;
  step_status : json;
  step_conclusion : json;
  step_number : option Z;
  step_started_at : option datetime;
  step_completed_at : option datetime
}.

(** An element of an embedded list, as the sub-converter named by
    [sub_operation] returns it. *)
Inductive embedded : Type :=
| EJobStep (s : option JobStep)
| ERunPullRequest (p : option RunPullRequest).

Record Run : Type := mk_Run {
  run_id : Z;
  run_name : json;
  run_number : Z;
  run_event : json;
  run_status : json;
  run_conclusion : json;
  run_workflow_id : objectid;
  workflow_id_int : Z;
  pull_requests : list embedded;
  run_created_at : option datetime;
  run_updated_at : option datetime;
  run_run_attempt : Z;
  run_started_at : json;
  head_commit : json;
  head_repository : json
}.

Record Job : Type := mk_Job {
  job_id : Z;
  job_name : json;
  job_run_id : objectid;
  job_run_attempt : Z;
  job_status : json;
  job_conclusion : json;
  job_started_at : option datetime;
  job_completed_at : option datetime;
  steps : list embedded;
  runner_id : option Z;
  runner_name : json;
  runner_group_id : option Z;
  runner_group_name : json
}.

Record Artifact : Type := mk_Artifact {
  artifact_id : Z;
  art_name : json;
  size_in_bytes : Z;
  archive_download_url : json;
  expired : bool;
  art_created_at : option datetime;
  art_updated_at : option datetime;
  art_expires_at : option datetime
}.

Inductive document : Type :=
| DWorkflow (w : Workflow)
| DRun (r : Run)
| DJob (j : Job)
| DArtifact (a : Artifact).

(** ** The database: the saved documents of each collection with their
    keys, the [VCSSystem] documents (url and project id) another tool
    wrote, and the next key to hand out. *)
Record store : Type := mk_store {
  workflows : list (objectid * Workflow);
  runs : list (objectid * Run);
  jobs : list (objectid * Job);
  artifacts : list (objectid * Artifact);
  vcs_systems : list (string * objectid);
  next_id : objectid
}.

Inductive log : Type :=
| NoDocumentsOrAction
| ActionNotFound (action : string)
| FailedSaving (action : string) (id : json)
| SubOperationNotFound (sub_operation : string).

(** [self]: the fields of a [Mongo] the converters read. *)
Record Mongo : Type := mk_Mongo {
  db_name : option string;
  repo_url : option string
}.

(** [Cls.objects.get(key=v)]: the one match, [DoesNotExist] for none,
    [MultipleObjectsReturned] for more. *)
Definition objects_get {A} (matches : list A) : result A :=
  match matches with
  | [] => Err DoesNotExist
  | [x] => Ok x
  | _ :: _ :: _ => Err MultipleObjectsReturned
  end.

Definition __workflow_object_id (st : store) (v : Z) : result objectid :=
  (let? d := objects_get
               (filter (fun d => workflow_id (snd d) =? v) (workflows st)) in
   Ok (fst d))%result.

Definition __repo_object_id (st : store) (v : option string) : result objectid :=
  (let? d := objects_get
               (filter (fun d => match v with
                                 | Some u => String.eqb (fst d) u
                                 | None => false
                                 end) (vcs_systems st)) in
   Ok (snd d))%result.

Definition __run_object_id (st : store) (v : Z) : result objectid :=
  (let? d := objects_get (filter (fun d => run_id (snd d) =? v) (runs st)) in
   Ok (fst d))%result.

(** [__parse_date]: [None] for a false value, the parsed datetime for a
    string; [strptime] raises a [TypeError] on another true value. *)
Definition __parse_date (value : json) (is_millisecond : bool)
  : result (option datetime) :=
  if negb (truthy value) then Ok None
  else
    match value with
    | JStr s =>
        (let? d := strptime s (if is_millisecond
                               then "%Y-%m-%dT%H:%M:%S.%f%z"
                               else "%Y-%m-%dT%H:%M:%S%z") in
         Ok (Some d))%result
    | _ => Err TypeError
    end.

Fixpoint mapM {A B} (f : A -> result B) (l : list A) : result (list B) :=
  match l with
  | [] => Ok []
  | x :: l' =>
      (let? y := f x in
       let? ys := mapM f l' in
       Ok (y :: ys))%result
  end.

Definition __create_job_step (obj : json) : result (option JobStep) :=
  if negb (truthy obj) then Ok None
  else
    (let? name := py_get obj "name" in
     let? status := py_get obj "status" in
     let? conclusion := py_get obj "conclusion" in
     let? n := py_get obj "number" in
     let? number :=
       if negb (truthy n)
       then (let? i := py_int n in Ok (Some i))
       else Ok None in
     let? s := py_get obj "started_at" in
     let? started_at := __parse_date s true in
     let? c := py_get obj "completed_at" in
     let? completed_at := __parse_date c true in
     Ok (Some (mk_JobStep name status conclusion number
                 started_at completed_at)))%result.

Definition __create_run_pull_request (obj : json)
  : result (option RunPullRequest) :=
  if negb (truthy obj) then Ok None
  else
    (let? id := py_get obj "id" in
     let? number := py_get obj "number" in
     let? head := py_getitem obj "head" in
     let? head_ref := py_get head "ref" in
     let? head := py_getitem obj "head" in
     let? repo := py_getitem head "repo" in
     let? head_id := py_get repo "id" in
     let? head := py_getitem obj "head" in
     let? repo := py_getitem head "repo" in
     let? head_name := py_get repo "name" in
     let? base := py_getitem obj "base" in
     let? base_ref := py_get base "ref" in
     let? base := py_getitem obj "base" in
     let? repo := py_getitem base "repo" in
     let? base_id := py_get repo "id" in
     let? base := py_getitem obj "base" in
     let? repo := py_getitem base "repo" in
     let? base_name := py_get repo "name" in
     Ok (Some (mk_RunPullRequest id number head_id head_ref head_name
                 base_id base_ref base_name)))%result.

(** [__create_embedded_docs]: the sub-converter mapped over the sub-list.
    The second component is what it logs. *)
Definition __create_embedded_docs (sub_operation : option string)
    (sub_documents : json) : result (list embedded) * list log :=
  match sub_operation with
  | None => (Ok [], [])
  | Some op =>
      if String.eqb op "" || negb (truthy sub_documents) then (Ok [], [])
      else
        let f : option (json -> result embedded) :=
          if String.eqb op "job_step"
          then Some (fun d => rbind (__create_job_step d)
                                (fun s => Ok (EJobStep s)))
          else if String.eqb op "run_pull_request"
          then Some (fun d => rbind (__create_run_pull_request d)
                                (fun p => Ok (ERunPullRequest p)))
          else None in
        match f with
        | None => (Ok [], [SubOperationNotFound op])
        | Some f =>
            ((let? ds := py_iter sub_documents in mapM f ds)%result, [])
        end
  end.

Definition __create_workflow (self : Mongo) (st : store) (obj : json)
  : result (option document) :=
  if negb (truthy obj) then Ok None
  else
    (let? i := py_get obj "id" in
     let? workflow_id := py_int i in
     let? name := py_get obj "name" in
     let? path := py_get obj "path" in
     let? state := py_get obj "state" in
     let? c := py_get obj "created_at" in
     let? created_at := __parse_date c true in
     let? u := py_get obj "updated_at" in
     let? updated_at := __parse_date u true in
     let? repo_id := __repo_object_id st (repo_url self) in
     Ok (Some (DWorkflow
                 (mk_Workflow workflow_id name path state created_at
                    updated_at repo_id (repo_url self)))))%result.

Definition __create_run (self : Mongo) (st : store) (obj : json)
  : result (option document) :=
  if negb (truthy obj) then Ok None
  else
    (let? i := py_get obj "id" in
     let? run_id := py_int i in
     let? name := py_get obj "name" in
     let? n := py_get obj "run_number" in
     let? run_number := py_int n in
     let? event := py_get obj "event" in
     let? status := py_get obj "status" in
     let? conclusion := py_get obj "conclusion" in
     let? w := py_get obj "workflow_id" in
     let? w_int := py_int w in
     let? workflow_id := __workflow_object_id st w_int in
     let? w := py_get obj "workflow_id" in
     let? workflow_id_int := py_int w in
     let? prs := py_get obj "pull_requests" in
     let? pull_requests :=
       fst (__create_embedded_docs (Some "run_pull_request") prs) in
     let? c := py_get obj "created_at" in
     let? created_at := __parse_date c false in
     let? u := py_get obj "updated_at" in
     let? updated_at := __parse_date u false in
     let? a := py_get obj "run_attempt" in
     let? run_attempt := py_int a in
     let? run_started_at := py_get obj "run_started_at" in
     let? head_commit := py_get obj "head_commit" in
     let? head_repository := py_get obj "head_repository" in
     Ok (Some (DRun
                 (mk_Run run_id name run_number event status conclusion
                    workflow_id workflow_id_int pull_requests created_at
                    updated_at run_attempt run_started_at head_commit
                    head_repository))))%result.

(** [int(x) if x else None]. *)
Definition int_if_true (x : json) : result (option Z) :=
  if truthy x then (let? i := py_int x in Ok (Some i))%result else Ok None.

Definition __create_job (self : Mongo) (st : store) (obj : json)
  : result (option document) :=
  if negb (truthy obj) then Ok None
  else
    (let? i := py_get obj "id" in
     let? job_id := py_int i in
     let? name := py_get obj "name" in
     let? r := py_get obj "run_id" in
     let? r_int := py_int r in
     let? run_id := __run_object_id st r_int in
     let? a := py_get obj "run_attempt" in
     let? run_attempt := py_int a in
     let? status := py_get obj "status" in
     let? conclusion := py_get obj "conclusion" in
     let? s := py_get obj "started_at" in
     let? started_at := __parse_date s false in
     let? c := py_get obj "completed_at" in
     let? completed_at := __parse_date c false in
     let? ss := py_get obj "steps" in
     let? steps := fst (__create_embedded_docs (Some "job_step") ss) in
     let? ri := py_get obj "runner_id" in
     let? runner_id := int_if_true ri in
     let? runner_name := py_get obj "runner_name" in
     let? rg := py_get obj "runner_group_id" in
     let? runner_group_id := int_if_true rg in
     let? runner_group_name := py_get obj "runner_group_name" in
     Ok (Some (DJob
                 (mk_Job job_id name run_id run_attempt status conclusion
                    started_at completed_at steps runner_id runner_name
                    runner_group_id runner_group_name))))%result.

Definition __create_artifact (self : Mongo) (st : store) (obj : json)
  : result (option document) :=
  if negb (truthy obj) then Ok None
  else
    (let? i := py_get obj "id" in
     let? artifact_id := py_int i in
     let? name := py_get obj "name" in
     let? sz := py_get obj "size_in_bytes" in
     let? size_in_bytes := py_int sz in
     let? archive_download_url := py_get obj "archive_download_url" in
     let? e := py_get obj "expired" in
     let? c := py_get obj "created_at" in
     let? created_at := __parse_date c false in
     let? u := py_get obj "updated_at" in
     let? updated_at := __parse_date u false in
     let? x := py_get obj "expires_at" in
     let? expires_at := __parse_date x false in
     Ok (Some (DArtifact
                 (mk_Artifact artifact_id name size_in_bytes
                    archive_download_url (truthy e) created_at updated_at
                    expires_at))))%result.

(** [self.__operations]. *)
Definition __operations (self : Mongo) (action : string)
  : option (store -> json -> result (option document)) :=
  if String.eqb action "workflow" then Some (__create_workflow self)
  else if String.eqb action "run" then Some (__create_run self)
  else if String.eqb action "job" then Some (__create_job self)
  else if String.eqb action "artifact" then Some (__create_artifact self)
  else None.

Section Save.

(** The driver: whether [.save()] of a document goes through (its fields
    validate against the schema and the write succeeds). *)
Variable validate : document -> bool.

Definition insert (d : document) (st : store) : store :=
  let k := next_id st in
  match d with
  | DWorkflow w =>
      mk_store (workflows st ++ [(k, w)]) (runs st) (jobs st) (artifacts st)
        (vcs_systems st) (k + 1)
  | DRun r =>
      mk_store (workflows st) (runs st ++ [(k, r)]) (jobs st) (artifacts st)
        (vcs_systems st) (k + 1)
  | DJob j =>
      mk_store (workflows st) (runs st) (jobs st ++ [(k, j)]) (artifacts st)
        (vcs_systems st) (k + 1)
  | DArtifact a =>
      mk_store (workflows st) (runs st) (jobs st) (artifacts st ++ [(k, a)])
        (vcs_systems st) (k + 1)
  end.

(** [x.save()] for what a converter returned; [None] has no [save]. *)
Definition save (x : option document) (st : store) : result store :=
  match x with
  | None => Err AttributeError
  | Some d => if validate d then Ok (insert d st) else Err ValidationError
  end.

(** The body of the [try]: [func(document).save()]. *)
Definition convert_and_save
    (func : store -> json -> result (option document))
    (document : json) (st : store) : result store :=
  (let? x := func st document in save x st)%result.

(** The [for] loop of [save_documents]: the outcome, the database and the
    log lines when it ends. *)
Fixpoint save_loop (func : store -> json -> result (option document))
    (action : string) (documents : list json) (st : store)
  : result unit * store * list log :=
  match documents with
  | [] => (Ok tt, st, [])
  | document :: rest =>
      match convert_and_save func document st with
      | Ok st' => save_loop func action rest st'
      | Err _ =>
          (* except: the message is formatted with document["id"] *)
          match py_getitem document "id" with
          | Ok id =>
              let '(r, st', logs) := save_loop func action rest st in
              (r, st', FailedSaving action id :: logs)
          | Err e => (Err e, st, [])
          end
      end
  end.

Definition save_documents (self : Mongo) (documents : json)
    (action : option string) (st : store) : result unit * store * list log :=
  match action with
  | None => (Ok tt, st, [NoDocumentsOrAction])
  | Some action =>
      if negb (truthy documents) || String.eqb action ""
      then (Ok tt, st, [NoDocumentsOrAction])
      else
        match __operations self action with
        | None => (Ok tt, st, [ActionNotFound action])
        | Some func =>
            match py_iter documents with
            | Ok ds => save_loop func action ds st
            | Err e => (Err e, st, [])
            end
        end
  end.

End Save.

End shark_mongo.

(* ================================================================== *)
(** * The fetcher's surroundings: HTTP, the clock, the trace *)
(* ================================================================== *)

Module Http.
Import Py.

Record response : Type := mk_response {
  status_code : Z;
  reason : string;
  headers : list (string * string);
  content : option json          (* the decoded body; [None]: not JSON *)
}.

(** One request answered: the response, and what the local clock reads
    (in seconds since the epoch) when it has arrived. *)
Record exchange : Type := mk_exchange {
  reply : response;
  clock : Z
}.

(** [response.headers.get(name)]: the names of headers compare without
    regard to case. *)
Fixpoint header_get (name : string) (hs : list (string * string))
  : option string :=
  match hs with
  | [] => None
  | (k, v) :: hs' =>
      if String.eqb (lower k) (lower name) then Some v else header_get name hs'
  end.

(** [int(response.headers.get("X-RateLimit-Reset"))]. *)
Definition rate_limit_reset (r : response) : result Z :=
  py_int (match header_get "X-RateLimit-Reset" (headers r) with
          | Some v => JStr v
          | None => JNull
          end).

(** An optional string that is true: not [None] and not empty. *)
Definition nonempty (s : option string) : option string :=
  match s with
  | Some x => if String.eqb x "" then None else Some x
  | None => None
  end.

(** The item list of a decoded body: [body.get(checker)] when a checker is
    given, the body itself otherwise. *)
Definition items_of (checker : option string) (body : json) : result json :=
  match nonempty checker with
  | Some c => py_get body c
  | None => Ok body
  end.

(** [response.json()]. *)
Definition response_json (r : response) : result json :=
  match content r with
  | Some j => Ok j
  | None => Err ValueError
  end.

Inductive level : Type := DEBUG | ERROR.

(** What a run does to the outside, in order.  A log line is its message
    with [{}] for each formatted value, and the values. *)
Inductive event : Type :=
| Get (url : string) (request_headers : list (string * string))
| Sleep (seconds : Z)
| SaveMongo (items : json) (action : option string)
| Log (lvl : level) (message : string) (args : list json).

(** How a call ends: it returns, raises, exits the process, or waits for
    a response the script does not hold. *)
Inductive outcome (A : Type) : Type :=
| Returns (a : A)
| Raises (e : exn)
| Exits (code : Z)
| Blocks.
Arguments Returns {A} a.
Arguments Raises {A} e.
Arguments Exits {A} code.
Arguments Blocks {A}.

Definition is_get (e : event) : bool :=
  match e with Get _ _ => true | _ => false end.

Definition is_save (e : event) : bool :=
  match e with SaveMongo _ _ => true | _ => false end.

(** The URLs requested in a trace, in order. *)
Fixpoint requests (t : list event) : list string :=
  match t with
  | [] => []
  | Get u _ :: t' => u :: requests t'
  | _ :: t' => requests t'
  end.

(** The batches handed to the sink in a trace, in order. *)
Fixpoint saved (t : list event) : list (json * option string) :=
  match t with
  | [] => []
  | SaveMongo items action :: t' => (items, action) :: saved t'
  | _ :: t' => saved t'
  end.

(** The sleeps of a trace, in order. *)
Fixpoint sleeps (t : list event) : list Z :=
  match t with
  | [] => []
  | Sleep n :: t' => n :: sleeps t'
  | _ :: t' => sleeps t'
  end.

Section World.

(** The state of the injected sink. *)
Variable S : Type.

(** The sink: [save_mongo(items, action)] on the sink's state. *)
Definition sink : Type := json -> option string -> S -> result unit * S.

(** What is shared by every [GitHub] object of the process: the class
    attribute [__headers] (one dict, mutated in place), the local time of
    the platform, and the sink's state.

    [localtime t] is [datetime.fromtimestamp(t)]: the naive local datetime
    of the instant [t], as the seconds it stands after 1970-01-01 00:00:00
    on the local clock, that is [t] plus the offset from UTC in force at
    [t]; or what the call raises for an instant out of the platform's
    range or of the years of [datetime].  [datetime.now()] is
    [fromtimestamp] of the clock. *)
Record world : Type := mk_world_of {
  __headers : list (string * string);
  localtime : Z -> result Z;
  sink_state : S
}.

Definition set_headers (h : list (string * string)) (w : world) : world :=
  mk_world_of h (localtime w) (sink_state w).

Definition set_sink_state (s : S) (w : world) : world :=
  mk_world_of (__headers w) (localtime w) s.

(** The world of a process in a zone of the fixed offset [utcoffset]. *)
Definition mk_world (h : list (string * string)) (utcoffset : Z) (s : S)
  : world :=
  mk_world_of h (Datetime.fixed_zone utcoffset) s.

End World.

Arguments mk_world_of {S}.
Arguments mk_world {S}.
Arguments __headers {S}.
Arguments localtime {S}.
Arguments sink_state {S}.
Arguments set_headers {S}.
Arguments set_sink_state {S}.

(** The class body's [__headers = {"Accept": ...}]. *)
Definition initial_headers : list (string * string) :=
  [("Accept", "application/vnd.github.v3+json")].

Definition api_url : string := "https://api.github.com/".

(** [f"&page={page}"]. *)
Definition page_suffix (page : Z) : string :=
  String.append "&page=" (str_of_int page).

Definition cat (l : list string) : string := String.concat "" l.

End Http.

(* ================================================================== *)
(** * Methods as state transformers *)
(* ================================================================== *)

Module Effects.
Import Py Http.

Section Monads.

(** [Self]: the attributes of the object a method runs on;
    [S]: the state of the sink. *)
Variables Self S : Type.

Definition state : Type := (Self * world S)%type.

(** The part of a method between two requests: from a state to how it
    ends, the state then, and the events in between. *)
Definition Act (A : Type) : Type := state -> outcome A * state * list event.

Definition ret_act {A} (a : A) : Act A := fun st => (Returns a, st, []).

Definition bind_act {A B} (m : Act A) (k : A -> Act B) : Act B :=
  fun st =>
    match m st with
    | (Returns a, st', ev) =>
        let '(o, st'', ev') := k a st' in (o, st'', ev ++ ev')
    | (Raises e, st', ev) => (Raises e, st', ev)
    | (Exits c, st', ev) => (Exits c, st', ev)
    | (Blocks, st', ev) => (Blocks, st', ev)
    end.

Definition emit (e : event) : Act unit := fun st => (Returns tt, st, [e]).
Definition log (lvl : level) (message : string) (args : list json) : Act unit :=
  emit (Log lvl message args).
Definition raise {A} (e : exn) : Act A := fun st => (Raises e, st, []).
Definition sys_exit {A} (code : Z) : Act A := fun st => (Exits code, st, []).
Definition get_self : Act Self := fun st => (Returns (fst st), st, []).
Definition get_world : Act (world S) := fun st => (Returns (snd st), st, []).
Definition modify_self (f : Self -> Self) : Act unit :=
  fun st => (Returns tt, (f (fst st), snd st), []).
Definition modify_world (f : world S -> world S) : Act unit :=
  fun st => (Returns tt, (fst st, f (snd st)), []).

(** An expression that may raise. *)
Definition eval {A} (r : result A) : Act A :=
  match r with
  | Ok a => ret_act a
  | Err e => raise e
  end.

(** [save_mongo(items, action)]: the call is recorded, the sink runs on its
    state, and what it raises propagates. *)
Definition call_sink (save_mongo : sink S) (items : json)
    (action : option string) : Act unit :=
  fun st =>
    let '(r, s') := save_mongo items action (sink_state (snd st)) in
    let st' := (fst st, set_sink_state s' (snd st)) in
    match r with
    | Ok _ => (Returns tt, st', [SaveMongo items action])
    | Err e => (Raises e, st', [SaveMongo items action])
    end.

(** A method that sends requests: it also consumes the server's script. *)
Definition Req (A : Type) : Type :=
  list exchange -> state -> outcome A * state * list exchange * list event.

Definition ret_req {A} (a : A) : Req A := fun rs st => (Returns a, st, rs, []).

Definition bind_req {A B} (m : Req A) (k : A -> Req B) : Req B :=
  fun rs st =>
    match m rs st with
    | (Returns a, st', rs', ev) =>
        let '(o, st'', rs'', ev') := k a rs' st' in (o, st'', rs'', ev ++ ev')
    | (Raises e, st', rs', ev) => (Raises e, st', rs', ev)
    | (Exits c, st', rs', ev) => (Exits c, st', rs', ev)
    | (Blocks, st', rs', ev) => (Blocks, st', rs', ev)
    end.

Definition lift {A} (m : Act A) : Req A :=
  fun rs st => let '(o, st', ev) := m st in (o, st', rs, ev).

(** [requests.get(url, headers=...)]: the request is recorded and the next
    exchange of the script is its answer. *)
Definition requests_get (url : string) (hs : list (string * string))
  : Req exchange :=
  fun rs st =>
    match rs with
    | [] => (Blocks, st, [], [Get url hs])
    | x :: rs' => (Returns x, st, rs', [Get url hs])
    end.

(** [for x in l: body(x)]. *)
Fixpoint for_each {A} (l : list A) (body : A -> Req unit) : Req unit :=
  match l with
  | [] => ret_req tt
  | x :: l' => bind_req (body x) (fun _ => for_each l' body)
  end.

(** An outcome that is not a return, at another type. *)
Definition stops {A B} (o : outcome A) : outcome B :=
  match o with
  | Returns _ => Blocks
  | Raises e => Raises e
  | Exits c => Exits c
  | Blocks => Blocks
  end.

End Monads.

Arguments ret_act {Self S A}.
Arguments bind_act {Self S A B}.
Arguments emit {Self S}.
Arguments log {Self S}.
Arguments raise {Self S A}.
Arguments sys_exit {Self S A}.
Arguments get_self {Self S}.
Arguments get_world {Self S}.
Arguments modify_self {Self S}.
Arguments modify_world {Self S}.
Arguments eval {Self S A}.
Arguments call_sink {Self S}.
Arguments ret_req {Self S A}.
Arguments bind_req {Self S A B}.
Arguments lift {Self S A}.
Arguments requests_get {Self S}.
Arguments for_each {Self S A}.
Arguments stops {A B}.

Declare Scope act_scope.
Delimit Scope act_scope with act.
Notation "x <- m ;; k" := (bind_act m (fun x => k))
  (at level 61, m at next level, right associativity) : act_scope.
Notation "m ;; k" := (bind_act m (fun _ => k))
  (at level 61, right associativity) : act_scope.

Declare Scope req_scope.
Delimit Scope req_scope with req.
Notation "x <- m ;; k" := (bind_req m (fun x => k))
  (at level 61, m at next level, right associativity) : req_scope.
Notation "m ;; k" := (bind_req m (fun _ => k))
  (at level 61, right associativity) : req_scope.

End Effects.

(* ================================================================== *)
(** * [src/actionSHARK/github.py] *)
(* ================================================================== *)

Module SHARK_github.
Import Py Datetime Http Effects.

(** [actions_url], each template formatted with its parameters. *)
Definition workflow_url (owner repo : string) (per_page : Z) : string :=
  cat ["repos/"; owner; "/"; repo; "/actions/workflows?per_page=";
       str_of_int per_page].

Definition run_url (owner repo : string) (per_page : Z) : string :=
  cat ["repos/"; owner; "/"; repo; "/actions/runs?per_page=";
       str_of_int per_page].

Definition job_url (owner repo : string) (run_id : Z) (per_page : Z)
  : string :=
  cat ["repos/"; owner; "/"; repo; "/actions/runs/"; str_of_int run_id;
       "/jobs?per_page="; str_of_int per_page].

Definition artifact_url (owner repo : string) (per_page : Z) : string :=
  cat ["repos/"; owner; "/"; repo; "/actions/artifacts?per_page=";
       str_of_int per_page].

Section Fetcher.

Variable S : Type.

(** The attributes of a [GitHub] object.  [total_requests],
    [current_action] and [limit_handler_counter] start as the class's
    values ([0], [None], [0]) and become the object's own at the first
    assignment; [page] is not set by [__init__]. *)
Record GitHub : Type := mk_GitHub {
  __token : option string;
  save_mongo : sink S;
  owner : string;
  repo : string;
  per_page : Z;
  page : option Z;
  total_requests : Z;
  current_action : option string;
  limit_handler_counter : Z
}.

Definition set_page (p : Z) (g : GitHub) : GitHub :=
  mk_GitHub (__token g) (save_mongo g) (owner g) (repo g) (per_page g)
    (Some p) (total_requests g) (current_action g) (limit_handler_counter g).

Definition set_total_requests (n : Z) (g : GitHub) : GitHub :=
  mk_GitHub (__token g) (save_mongo g) (owner g) (repo g) (per_page g)
    (page g) n (current_action g) (limit_handler_counter g).

Definition set_current_action (a : string) (g : GitHub) : GitHub :=
  mk_GitHub (__token g) (save_mongo g) (owner g) (repo g) (per_page g)
    (page g) (total_requests g) (Some a) (limit_handler_counter g).

Definition set_limit_handler_counter (n : Z) (g : GitHub) : GitHub :=
  mk_GitHub (__token g) (save_mongo g) (owner g) (repo g) (per_page g)
    (page g) (total_requests g) (current_action g) n.

(** [GitHub(owner, repo, per_page, token, save_mongo)]. *)
Definition __init__ (owner repo : option string) (per_page : Z)
    (token : option string) (save_mongo : option (sink S)) (w : world S)
  : outcome GitHub * world S * list event :=
  match nonempty owner, nonempty repo, save_mongo with
  | Some owner, Some repo, Some save_mongo =>
      let w' :=
        match nonempty token with
        | Some t =>
            set_headers
              (dict_set "Authorization" (String.append "token " t)
                 (__headers w)) w
        | None => w
        end in
      (Returns (mk_GitHub (nonempty token) save_mongo owner repo per_page
                  None 0 None 0),
       w', [])
  | _, _, _ =>
      (Exits 1, w,
       [Log ERROR
          "Please make to sure to pass owner and repo names and save_mongo function."
          []])
  end.

Definition action_arg (a : option string) : json :=
  match a with Some s => JStr s | None => JNull end.

Definition authenticate_user : Req GitHub S bool :=
  (w <- lift get_world ;;
   basic_auth <- requests_get (String.append api_url "user") (__headers w) ;;
   lift (modify_self
           (fun g => set_total_requests (total_requests g + 1) g)) ;;
   if status_code (reply basic_auth) =? 401 then
     lift (log ERROR "Error authenticated using token" []) ;;
     lift (log ERROR "Authentication status_code:"
             [JInt (status_code (reply basic_auth))]) ;;
     lift (log ERROR "{}" [JStr (reason (reply basic_auth))]) ;;
     lift (log ERROR "{}" [JStr (String.append api_url "user")]) ;;
     ret_req false
   else
     lift (log DEBUG "Successfully authenticated using token" []) ;;
     ret_req true)%req.

(** The head of the loop of [paginating]: the page is appended to the URL
    and the request sent. *)
Definition paginating_send (github_url : string) : Act GitHub S string :=
  (self <- get_self ;;
   match page self with
   | None => raise AttributeError
   | Some p =>
       let github_url := String.append github_url (page_suffix p) in
       w <- get_world ;;
       emit (Get github_url (__headers w)) ;;
       ret_act github_url
   end)%act.

(** The rest of the loop's body, from the response on.  It returns the URL
    the next turn starts from, or [None] at a [break]. *)
Definition paginating_receive (checker : option string) (github_url : string)
    (x : exchange) : Act GitHub S (option string) :=
  (let response := reply x in
   modify_self (fun g => set_total_requests (total_requests g + 1) g) ;;
   if negb ((status_code response =? 200) || (status_code response =? 403))
   then
     log ERROR "Error in request status_code: {}"
       [JInt (status_code response)] ;;
     log ERROR "Error in request github_url: {}" [JStr github_url] ;;
     log ERROR "<Response [{}]>" [JInt (status_code response)] ;;
     sys_exit 1
   else if status_code response =? 403 then
     reset <- eval (rate_limit_reset response) ;;
     w <- get_world ;;
     reset_time <- eval (localtime w reset) ;;
     current_time <- eval (localtime w (clock x)) ;;
     let sleep_time := timedelta_seconds reset_time current_time in
     modify_self
       (fun g => set_limit_handler_counter (limit_handler_counter g + 1) g) ;;
     log DEBUG "Limit handler is triggered" [] ;;
     log DEBUG "Program will sleep for approximately {} seconds."
       [JInt sleep_time] ;;
     log DEBUG "Next Restart will be on {}" [JInt reset_time] ;;
     emit (Sleep sleep_time) ;;
     self <- get_self ;;
     log DEBUG "Continue with fetching {} from last GET request"
       [action_arg (current_action self)] ;;
     ret_act (Some github_url)
   else
     body <- eval (response_json response) ;;
     response_JSON <- eval (items_of checker body) ;;
     response_count <- eval (py_len response_JSON) ;;
     if negb (truthy response_JSON) then ret_act None
     else
       self <- get_self ;;
       call_sink (save_mongo self) response_JSON (current_action self) ;;
       match page self with
       | None => raise AttributeError
       | Some p =>
           let github_url :=
             drop_last (String.length (page_suffix p)) github_url in
           modify_self (set_page (p + 1)) ;;
           modify_self
             (fun g => set_total_requests (total_requests g + 1) g) ;;
           if response_count <? per_page self then ret_act None
           else ret_act (Some github_url)
       end)%act.

(** [while True]: one turn per exchange of the script. *)
Fixpoint paginating_loop (checker : option string) (rs : list exchange)
    (github_url : string) (st : state GitHub S)
  : outcome unit * state GitHub S * list exchange * list event :=
  match paginating_send github_url st with
  | (Returns url1, st1, ev1) =>
      match rs with
      | [] => (Blocks, st1, [], ev1)
      | x :: rs' =>
          match paginating_receive checker url1 x st1 with
          | (Returns (Some url2), st2, ev2) =>
              let '(o, st3, rs3, ev3) := paginating_loop checker rs' url2 st2 in
              (o, st3, rs3, ev1 ++ ev2 ++ ev3)
          | (Returns None, st2, ev2) => (Returns tt, st2, rs', ev1 ++ ev2)
          | (o, st2, ev2) => (stops o, st2, rs', ev1 ++ ev2)
          end
      end
  | (o, st1, ev1) => (stops o, st1, rs, ev1)
  end.

Definition paginating (github_url : string) (checker : option string)
  : Req GitHub S unit :=
  fun rs st => paginating_loop checker rs github_url st.

Definition get_workflows : Req GitHub S unit :=
  (lift (modify_self (set_current_action "workflow")) ;;
   lift (modify_self (set_page 1)) ;;
   self <- lift get_self ;;
   let url := workflow_url (owner self) (repo self) (per_page self) in
   let github_url := String.append api_url url in
   lift (log DEBUG "Start fetching workflows" []) ;;
   paginating github_url (Some "workflows") ;;
   lift (log DEBUG "Finish fetching workflows" []))%req.

Definition get_runs : Req GitHub S unit :=
  (lift (modify_self (set_current_action "run")) ;;
   lift (modify_self (set_page 1)) ;;
   self <- lift get_self ;;
   let url := run_url (owner self) (repo self) (per_page self) in
   let github_url := String.append api_url url in
   lift (log DEBUG "Start fetching runs" []) ;;
   paginating github_url (Some "workflow_runs") ;;
   lift (log DEBUG "Finish fetching runs" []))%req.

Definition get_jobs (run_id : option Z) : Req GitHub S unit :=
  (match run_id with
   | Some r =>
       if r =? 0 then
         lift (log ERROR
                 "Please make to sure to pass the owner, repo name, and run id."
                 []) ;;
         lift (sys_exit 1)
       else
         lift (modify_self (set_current_action "job")) ;;
         lift (modify_self (set_page 1)) ;;
         self <- lift get_self ;;
         let url := job_url (owner self) (repo self) r (per_page self) in
         let github_url := String.append api_url url in
         paginating github_url (Some "jobs")
   | None =>
       lift (log ERROR
               "Please make to sure to pass the owner, repo name, and run id."
               []) ;;
       lift (sys_exit 1)
   end)%req.

Definition get_artifacts : Req GitHub S unit :=
  (lift (modify_self (set_current_action "artifact")) ;;
   lift (modify_self (set_page 1)) ;;
   self <- lift get_self ;;
   let url := artifact_url (owner self) (repo self) (per_page self) in
   let github_url := String.append api_url url in
   lift (log DEBUG "Start fetching artifacts" []) ;;
   paginating github_url (Some "artifacts") ;;
   lift (log DEBUG "Finish fetching artifacts" []))%req.

Definition __finishing_message : Act GitHub S unit :=
  (self <- get_self ;;
   log DEBUG "Number of requests: {}" [JInt (total_requests self)] ;;
   log DEBUG "Number of stopping: {}" [JInt (limit_handler_counter self)] ;;
   log DEBUG "Finished fetching actions." [])%act.

(** The head of [run]: [if self.__token: if not self.authenticate_user():
    sys.exit(1)], then [if not self.__token: logger.debug(...)]. *)
Definition verify_token : Req GitHub S unit :=
  (self <- lift get_self ;;
   match nonempty (__token self) with
   | Some _ =>
       ok <- authenticate_user ;;
       if negb ok then lift (sys_exit 1) else ret_req tt
   | None => lift (log DEBUG "Proceding without token" [])
   end)%req.

(** [run(runs_object)]; [runs_object.objects()] reads the run ids out of
    the sink's state as it is then. *)
Definition run (runs_object : option (S -> list (option Z)))
  : Req GitHub S unit :=
  (verify_token ;;
   get_workflows ;;
   get_artifacts ;;
   get_runs ;;
   match runs_object with
   | None =>
       lift (log ERROR "Run object is not passed" []) ;;
       lift (log ERROR "Run object is needed to get Jobs" []) ;;
       lift __finishing_message ;;
       lift (sys_exit 1)
   | Some objects =>
       lift (log DEBUG "Collecting run ids" []) ;;
       w <- lift get_world ;;
       let run_ids := objects (sink_state w) in
       lift (log DEBUG "Start fetching jobs" []) ;;
       for_each run_ids get_jobs ;;
       lift (log DEBUG "Finish fetching jobs" []) ;;
       lift __finishing_message
   end)%req.

End Fetcher.

Arguments mk_GitHub {S}.
Arguments __token {S}.
Arguments save_mongo {S}.
Arguments owner {S}.
Arguments repo {S}.
Arguments per_page {S}.
Arguments page {S}.
Arguments total_requests {S}.
Arguments current_action {S}.
Arguments limit_handler_counter {S}.
Arguments set_page {S}.
Arguments set_total_requests {S}.
Arguments set_current_action {S}.
Arguments set_limit_handler_counter {S}.
Arguments __init__ {S}.
Arguments authenticate_user {S}.
Arguments paginating_send {S}.
Arguments paginating_receive {S}.
Arguments paginating_loop {S}.
Arguments paginating {S}.
Arguments get_workflows {S}.
Arguments get_runs {S}.
Arguments get_jobs {S}.
Arguments get_artifacts {S}.
Arguments verify_token {S}.
Arguments run {S}.

End SHARK_github.

(* ================================================================== *)
(** * [src/actionshark/github.py] *)
(* ================================================================== *)

Module shark_github.
Import Py Datetime Http Effects.

(** What [get_jobs] and [get_artifacts] are called with: [run] passes the
    [id] of a stored Run document, an [ObjectId], written here by its
    hexadecimal text. *)
Inductive run_ref : Type :=
| RefNone
| RefInt (z : Z)
| RefObjectId (hex : string).

Definition ref_truthy (r : run_ref) : bool :=
  match r with
  | RefNone => false
  | RefInt z => negb (z =? 0)
  | RefObjectId _ => true
  end.

Definition ref_str (r : run_ref) : string :=
  match r with
  | RefNone => "None"
  | RefInt z => str_of_int z
  | RefObjectId hex => hex
  end.

(** [actions_url], each template formatted with its parameters. *)
Definition workflows_url (owner repo : string) (per_page : Z) : string :=
  cat ["repos/"; owner; "/"; repo; "/actions/workflows?per_page=";
       str_of_int per_page].

Definition runs_url (owner repo : string) (per_page : Z) : string :=
  cat ["repos/"; owner; "/"; repo; "/actions/runs?per_page=";
       str_of_int per_page].

Definition jobs_url (owner repo : string) (run_id : run_ref) (per_page : Z)
  : string :=
  cat ["repos/"; owner; "/"; repo; "/actions/runs/"; ref_str run_id;
       "/jobs?per_page="; str_of_int per_page].

Definition artifacts_url (owner repo : string) (run_id : run_ref)
    (per_page : Z) : string :=
  cat ["repos/"; owner; "/"; repo; "/actions/runs/"; ref_str run_id;
       "/artifacts?per_page="; str_of_int per_page].

Section Fetcher.

Variable S : Type.

Record GitHub : Type := mk_GitHub {
  __token : option string;
  save_mongo : sink S;
  owner : string;
  repo : string;
  per_page : Z;
  page : Z;
  sleep_betw_requests : Z;
  total_requests : Z;
  current_action : option string;
  limit_handler_counter : Z
}.

Definition set_page (p : Z) (g : GitHub) : GitHub :=
  mk_GitHub (__token g) (save_mongo g) (owner g) (repo g) (per_page g)
    p (sleep_betw_requests g) (total_requests g) (current_action g)
    (limit_handler_counter g).

Definition set_total_requests (n : Z) (g : GitHub) : GitHub :=
  mk_GitHub (__token g) (save_mongo g) (owner g) (repo g) (per_page g)
    (page g) (sleep_betw_requests g) n (current_action g)
    (limit_handler_counter g).

Definition set_current_action (a : string) (g : GitHub) : GitHub :=
  mk_GitHub (__token g) (save_mongo g) (owner g) (repo g) (per_page g)
    (page g) (sleep_betw_requests g) (total_requests g) (Some a)
    (limit_handler_counter g).

Definition set_limit_handler_counter (n : Z) (g : GitHub) : GitHub :=
  mk_GitHub (__token g) (save_mongo g) (owner g) (repo g) (per_page g)
    (page g) (sleep_betw_requests g) (total_requests g) (current_action g) n.

(** [GitHub(owner, repo, per_page, token, save_mongo, sleep_interval)]. *)
Definition __init__ (owner repo : option string) (per_page : Z)
    (token : option string) (save_mongo : option (sink S))
    (sleep_interval : Z) (w : world S)
  : outcome GitHub * world S * list event :=
  match nonempty owner, nonempty repo, save_mongo with
  | Some owner, Some repo, Some save_mongo =>
      let w' :=
        match nonempty token with
        | Some t =>
            set_headers
              (dict_set "Authorization" (String.append "token " t)
                 (__headers w)) w
        | None => w
        end in
      (Returns (mk_GitHub (nonempty token) save_mongo owner repo per_page
                  1 sleep_interval 0 None 0),
       w', [])
  | _, _, _ =>
      (Exits 1, w,
       [Log ERROR
          "Please make to sure to pass owner and repo names and save_mongo function."
          []])
  end.

Definition action_arg (a : option string) : json :=
  match a with Some s => JStr s | None => JNull end.

Definition authenticate_user : Req GitHub S bool :=
  (w <- lift get_world ;;
   basic_auth <- requests_get (String.append api_url "user") (__headers w) ;;
   lift (modify_self
           (fun g => set_total_requests (total_requests g + 1) g)) ;;
   if status_code (reply basic_auth) =? 401 then
     lift (log ERROR "Error authenticated using token" []) ;;
     lift (log ERROR "Authentication status_code:"
             [JInt (status_code (reply basic_auth))]) ;;
     lift (log ERROR "{}" [JStr (reason (reply basic_auth))]) ;;
     lift (log ERROR "{}" [JStr (String.append api_url "user")]) ;;
     ret_req false
   else
     lift (log DEBUG "Successfully authenticated using token" []) ;;
     ret_req true)%req.

Definition paginating_send (github_url : string) : Act GitHub S string :=
  (self <- get_self ;;
   let github_url := String.append github_url (page_suffix (page self)) in
   w <- get_world ;;
   emit (Get github_url (__headers w)) ;;
   ret_act github_url)%act.

(** The loop's body from the response on.  This class has no [get_limit]:
    the call in the branch of a 403 raises an [AttributeError]. *)
Definition paginating_receive (checker : option string) (github_url : string)
    (x : exchange) : Act GitHub S (option string) :=
  (let response := reply x in
   modify_self (fun g => set_total_requests (total_requests g + 1) g) ;;
   if negb (status_code response =? 200) && negb (status_code response =? 403)
   then
     log ERROR "Error in request status_code: {}"
       [JInt (status_code response)] ;;
     log ERROR "Error in request github_url: {}" [JStr github_url] ;;
     log ERROR "<Response [{}]>" [JInt (status_code response)] ;;
     sys_exit 1
   else if status_code response =? 403 then
     reset <- eval (rate_limit_reset response) ;;
     w <- get_world ;;
     reset_time <- eval (localtime w reset) ;;
     date <- eval (match header_get "Date" (headers response) with
                   | Some v => strptime v "%a, %d %b %Y %H:%M:%S %Z"
                   | None => Err TypeError
                   end) ;;
     let current_time := to_seconds date in
     let sleep_time := timedelta_seconds current_time reset_time in
     modify_self
       (fun g => set_limit_handler_counter (limit_handler_counter g + 1) g) ;;
     log DEBUG "Limit handler is triggered" [] ;;
     log DEBUG "Program will sleep for approximately {} seconds."
       [JInt sleep_time] ;;
     restart <- eval (plus_one_hour reset_time) ;;
     log DEBUG "Next Restart will be on {}" [JInt restart] ;;
     emit (Sleep sleep_time) ;;
     (* self.get_limit() *)
     raise AttributeError
   else
     body <- eval (response_json response) ;;
     response_JSON <- eval (items_of checker body) ;;
     response_count <- eval (py_len response_JSON) ;;
     if negb (truthy response_JSON) then ret_act None
     else
       self <- get_self ;;
       call_sink (save_mongo self) response_JSON (current_action self) ;;
       if response_count <? per_page self then ret_act None
       else
         let github_url :=
           drop_last (String.length (page_suffix (page self))) github_url in
         modify_self (set_page (page self + 1)) ;;
         modify_self
           (fun g => set_total_requests (total_requests g + 1) g) ;;
         ret_act (Some github_url))%act.

Fixpoint paginating_loop (checker : option string) (rs : list exchange)
    (github_url : string) (st : state GitHub S)
  : outcome unit * state GitHub S * list exchange * list event :=
  match paginating_send github_url st with
  | (Returns url1, st1, ev1) =>
      match rs with
      | [] => (Blocks, st1, [], ev1)
      | x :: rs' =>
          match paginating_receive checker url1 x st1 with
          | (Returns (Some url2), st2, ev2) =>
              let '(o, st3, rs3, ev3) := paginating_loop checker rs' url2 st2 in
              (o, st3, rs3, ev1 ++ ev2 ++ ev3)
          | (Returns None, st2, ev2) => (Returns tt, st2, rs', ev1 ++ ev2)
          | (o, st2, ev2) => (stops o, st2, rs', ev1 ++ ev2)
          end
      end
  | (o, st1, ev1) => (stops o, st1, rs, ev1)
  end.

Definition paginating (github_url : string) (checker : option string)
  : Req GitHub S unit :=
  fun rs st => paginating_loop checker rs github_url st.

Definition get_workflows : Req GitHub S unit :=
  (lift (modify_self (set_current_action "workflows")) ;;
   lift (modify_self (set_page 1)) ;;
   self <- lift get_self ;;
   let url := workflows_url (owner self) (repo self) (per_page self) in
   let github_url := String.append api_url url in
   lift (log DEBUG "Start fetching workflows" []) ;;
   paginating github_url (Some "workflows") ;;
   lift (log DEBUG "Finish fetching workflows" []))%req.

Definition get_runs : Req GitHub S unit :=
  (lift (modify_self (set_current_action "runs")) ;;
   lift (modify_self (set_page 1)) ;;
   self <- lift get_self ;;
   let url := runs_url (owner self) (repo self) (per_page self) in
   let url := String.append url "&exclude_pull_requests=False" in
   let github_url := String.append api_url url in
   lift (log DEBUG "Start fetching runs" []) ;;
   paginating github_url (Some "workflow_runs") ;;
   lift (log DEBUG "Finish fetching runs" []))%req.

Definition get_jobs (run_id : run_ref) : Req GitHub S unit :=
  (if negb (ref_truthy run_id) then
     lift (log ERROR
             "Please make to sure to pass the owner, repo name, and run id."
             []) ;;
     lift (sys_exit 1)
   else
     lift (modify_self (set_current_action "jobs")) ;;
     lift (modify_self (set_page 1)) ;;
     self <- lift get_self ;;
     let url := jobs_url (owner self) (repo self) run_id (per_page self) in
     let github_url := String.append api_url url in
     paginating github_url (Some "jobs"))%req.

Definition get_artifacts (run_id : run_ref) : Req GitHub S unit :=
  (if negb (ref_truthy run_id) then
     lift (log ERROR
             "Please make to sure to pass both the owner and repo names."
             []) ;;
     lift (sys_exit 1)
   else
     lift (modify_self (set_current_action "artifacts")) ;;
     lift (modify_self (set_page 1)) ;;
     self <- lift get_self ;;
     let url :=
       artifacts_url (owner self) (repo self) run_id (per_page self) in
     let github_url := String.append api_url url in
     paginating github_url (Some "artifacts"))%req.

(** The head of [run]: [if self.__token: if not
    self.authenticate_user(verbose=True): sys.exit(1)], then [if not
    self.__token: logger.debug(...)].  [authenticate_user] takes no
    argument [verbose]: the call raises a [TypeError] before the method's
    body runs. *)
Definition verify_token : Req GitHub S unit :=
  (self <- lift get_self ;;
   match nonempty (__token self) with
   | Some _ => lift (raise TypeError)
   | None => lift (log DEBUG "Proceding without token" [])
   end)%req.

(** [run(runs_object)].  [runs_object.objects()] reads the ids of the
    stored runs out of the sink's state as it is then. *)
Definition run (runs_object : option (S -> list string))
  : Req GitHub S unit :=
  (verify_token ;;
   get_workflows ;;
   get_runs ;;
   match runs_object with
   | None => ret_req tt
   | Some objects =>
       lift (log DEBUG "Collecting run ids" []) ;;
       w <- lift get_world ;;
       let run_ids := map RefObjectId (objects (sink_state w)) in
       lift (log DEBUG "Start fetching jobs" []) ;;
       for_each run_ids get_jobs ;;
       lift (log DEBUG "Finish fetching jobs" []) ;;
       lift (log DEBUG "Start fetching artifacts" []) ;;
       for_each run_ids get_artifacts ;;
       lift (log DEBUG "Finish fetching artifacts" [])
   end)%req.

End Fetcher.

Arguments mk_GitHub {S}.
Arguments __token {S}.
Arguments save_mongo {S}.
Arguments owner {S}.
Arguments repo {S}.
Arguments per_page {S}.
Arguments page {S}.
Arguments sleep_betw_requests {S}.
Arguments total_requests {S}.
Arguments current_action {S}.
Arguments limit_handler_counter {S}.
Arguments set_page {S}.
Arguments set_total_requests {S}.
Arguments set_current_action {S}.
Arguments set_limit_handler_counter {S}.
Arguments __init__ {S}.
Arguments authenticate_user {S}.
Arguments paginating_send {S}.
Arguments paginating_receive {S}.
Arguments paginating_loop {S}.
Arguments paginating {S}.
Arguments get_workflows {S}.
Arguments get_runs {S}.
Arguments get_jobs {S}.
Arguments get_artifacts {S}.
Arguments verify_token {S}.
Arguments run {S}.

End shark_github.

(* ================================================================== *)
(** * Properties of traces and of runs *)
(* ================================================================== *)

Module Traces.
Import Py Http Effects.

(** [u] is [b] followed by something. *)
Definition starts_with (b u : string) : Prop :=
  exists t, u = String.append b t.

Definition is_prefix {A} (l1 l2 : list A) : Prop := exists r, l2 = l1 ++ r.

(** [follows plan urls]: the requested [urls] are, in order, one group per
    base URL of [plan], each group not empty and made of URLs that start
    with its base. *)
Inductive follows : list string -> list string -> Prop :=
| follows_nil : follows [] []
| follows_cons (b : string) (plan us rest : list string) :
    us <> [] -> Forall (starts_with b) us -> follows plan rest ->
    follows (b :: plan) (us ++ rest).

(** No event of the trace is a request. *)
Definition quiet (ev : list event) : Prop :=
  Forall (fun e => is_get e = false) ev.

(** Every request of the trace carries the headers [h]. *)
Definition gets_with (h : list (string * string)) (ev : list event) : Prop :=
  Forall (fun e => match e with
                   | Get _ h' => h' = h
                   | _ => True
                   end) ev.

(** Every request of the trace carries the header [Authorization: token
    t]. *)
Definition sends_token (t : string) (ev : list event) : Prop :=
  Forall (fun e => match e with
                   | Get _ hs =>
                       assoc "Authorization" hs
                       = Some (String.append "token " t)
                   | _ => True
                   end) ev.

(** The plans [p1 ++ p2] with [p1] of [P1] and [p2] of [P2]. *)
Definition app_set (P1 P2 : list string -> Prop) : list string -> Prop :=
  fun p => exists p1 p2, P1 p1 /\ P2 p2 /\ p = p1 ++ p2.

Section Runs.

Variables Self S : Type.

Definition r_out {A} (r : outcome A * state Self S * list exchange * list event)
  : outcome A := fst (fst (fst r)).
Definition r_state {A}
    (r : outcome A * state Self S * list exchange * list event)
  : state Self S := snd (fst (fst r)).
Definition r_rest {A}
    (r : outcome A * state Self S * list exchange * list event)
  : list exchange := snd (fst r).
Definition r_events {A}
    (r : outcome A * state Self S * list exchange * list event)
  : list event := snd r.

(** What stays true of the object, and the headers of the class. *)
Variable inv : Self -> Prop.
Variable h : list (string * string).

Definition ok_state (st : state Self S) : Prop :=
  inv (fst st) /\ __headers (snd st) = h.

(** [sat m P]: from a good state, whatever the script, [m] ends in a good
    state, its requests carry [h], and they follow the beginning [done] of
    a plan of [P], the whole of it when [m] returns. *)
Definition sat {A} (m : Req Self S A) (P : list string -> Prop) : Prop :=
  forall rs st, ok_state st ->
    ok_state (r_state (m rs st))
    /\ gets_with h (r_events (m rs st))
    /\ exists done plan,
         P plan /\ is_prefix done plan
         /\ follows done (requests (r_events (m rs st)))
         /\ (forall a, r_out (m rs st) = Returns a -> done = plan).

(** The requests of a run follow the plan: the beginning [done] of it,
    all of it when the run returns. *)
Definition in_order {A}
    (r : outcome A * state Self S * list exchange * list event)
    (plan : list string) : Prop :=
  exists done,
    is_prefix done plan
    /\ follows done (requests (r_events r))
    /\ (forall a, r_out r = Returns a -> done = plan).

End Runs.

Arguments in_order {Self S A}.
Arguments r_out {Self S A}.
Arguments r_state {Self S A}.
Arguments r_rest {Self S A}.
Arguments r_events {Self S A}.
Arguments ok_state {Self S}.
Arguments sat {Self S} inv h {A}.

End Traces.

(* ================================================================== *)
(** * What the database keeps *)
(* ================================================================== *)

Module Invariants.
Import Py shark_mongo Http Traces.

(** [st'] holds every document of [st] under its key, in the order of
    [st], and the [VCSSystem] documents of [st]. *)
Definition extends (st st' : store) : Prop :=
  is_prefix (workflows st) (workflows st')
  /\ is_prefix (runs st) (runs st')
  /\ is_prefix (jobs st) (jobs st')
  /\ is_prefix (artifacts st) (artifacts st')
  /\ vcs_systems st' = vcs_systems st
  /\ next_id st <= next_id st'.

(** The workflow a run refers to is stored, under the key the run holds,
    and has the numeric id the run holds. *)
Definition run_refers (st : store) (r : Run) : Prop :=
  exists w, In (run_workflow_id r, w) (workflows st)
            /\ workflow_id w = workflow_id_int r.

(** The run a job refers to is stored under the key the job holds. *)
Definition job_refers (st : store) (j : Job) : Prop :=
  exists r, In (job_run_id j, r) (runs st).

Definition refers (st : store) (d : document) : Prop :=
  match d with
  | DRun r => run_refers st r
  | DJob j => job_refers st j
  | DWorkflow _ | DArtifact _ => True
  end.

Definition references_resolve (st : store) : Prop :=
  (forall k r, In (k, r) (runs st) -> run_refers st r)
  /\ (forall k j, In (k, j) (jobs st) -> job_refers st j).

(** The artifact an item is stored as, if it is stored. *)
Definition stored_artifact (validate : document -> bool) (self : Mongo)
    (st : store) (item : json) : list Artifact :=
  match __create_artifact self st item with
  | Ok (Some (DArtifact a)) => if validate (DArtifact a) then [a] else []
  | _ => []
  end.

End Invariants.

(* ================================================================== *)
(** * Pages and retries *)
(* ================================================================== *)

Module Paging.
Import Py Datetime Http Effects.

(** [url] with [&page=p] appended [n] times. *)
Definition with_pages (p : Z) (n : nat) (url : string) : string :=
  Nat.iter n (fun u => String.append u (page_suffix p)) url.

(** The URLs of [n] pages from page [p] on. *)
Definition page_urls (url : string) (p : Z) (n : nat) : list string :=
  map (fun k => String.append url (page_suffix (p + Z.of_nat k))) (seq 0 n).

(** A response that holds the page [items]. *)
Definition page_of (checker : option string) (x : exchange)
    (items : list json) : Prop :=
  status_code (reply x) = 200
  /\ exists body, content (reply x) = Some body
                  /\ items_of checker body = Ok (JList items).

(** A rate-limit response that [src/actionSHARK] can time: its reset
    header reads as an int, and the platform, whose [fromtimestamp] is
    [localtime], converts the reset time and the clock. *)
Definition rate_limited (localtime : Z -> result Z) (x : exchange) : Prop :=
  status_code (reply x) = 403
  /\ exists reset reset_time current_time,
       rate_limit_reset (reply x) = Ok reset
       /\ localtime reset = Ok reset_time
       /\ localtime (clock x) = Ok current_time.

(** What [src/actionSHARK] sleeps on such a response:
    [(fromtimestamp(reset) - now()).seconds]. *)
Definition sleep_of (localtime : Z -> result Z) (x : exchange) : Z :=
  match rate_limit_reset (reply x) with
  | Ok reset =>
      match localtime reset, localtime (clock x) with
      | Ok reset_time, Ok current_time =>
          timedelta_seconds reset_time current_time
      | _, _ => 0
      end
  | Err _ => 0
  end.

(** The batches a fetch hands to the sink for the pages [pages]: the empty
    page is not handed over. *)
Definition batches_of (action : option string) (pages : list (list json))
  : list (json * option string) :=
  flat_map (fun items => match items with
                         | [] => []
                         | _ :: _ => [(JList items, action)]
                         end) pages.

(** The sink's state after it was handed the batches [bs] in order. *)
Definition sink_after {S : Type} (k : sink S)
    (bs : list (json * option string)) (s : S) : S :=
  fold_left (fun s b => snd (k (fst b) (snd b) s)) bs s.

(** A page that does not end a fetch: it is not empty and holds at least
    [per_page] items. *)
Definition full (per_page : Z) (items : list json) : Prop :=
  items <> [] /\ per_page <= Z.of_nat (List.length items).

(** The responses [xs] answer one fetch with the pages [pages], one
    response per page: every page but the last is full, and the last one
    holds fewer items than the page size, which ends the fetch. *)
Inductive answers (checker : option string) (per_page : Z)
  : list exchange -> list (list json) -> Prop :=
| answers_last (x : exchange) (items : list json) :
    page_of checker x items ->
    Z.of_nat (List.length items) < per_page ->
    answers checker per_page [x] [items]
| answers_full (x : exchange) (items : list json) (xs : list exchange)
    (pages : list (list json)) :
    page_of checker x items -> full per_page items ->
    answers checker per_page xs pages ->
    answers checker per_page (x :: xs) (items :: pages).

(** Fetches of one kind, one per run id: the id, the responses to its
    fetch and the pages they hold. *)
Definition fetches (Id : Type) : Type :=
  list (Id * (list exchange * list (list json))).

Definition responses {Id} (js : fetches Id) : list exchange :=
  flat_map (fun j => fst (snd j)) js.

Definition all_answer {Id} (checker : option string) (per_page : Z)
    (js : fetches Id) : Prop :=
  Forall (fun j => answers checker per_page (fst (snd j)) (snd (snd j))) js.

(** The URLs of these fetches, each from page 1 on, and the batches they
    hand to the sink. *)
Definition urls_of {Id} (base : Id -> string) (js : fetches Id)
  : list string :=
  flat_map (fun j => page_urls (base (fst j)) 1 (List.length (snd (snd j))))
    js.

Definition batches_per_run {Id} (action : option string) (js : fetches Id)
  : list (json * option string) :=
  flat_map (fun j => batches_of action (snd (snd j))) js.

(** The run ids [run] reads: those the run-id source gives on the sink's
    state as it is when the part [front] of [run] has returned; none when
    it has not. *)
Definition ids_read {Self S Id : Type} (front : Req Self S unit)
    (objects : S -> list Id) (rs : list exchange) (st : state Self S)
  : list Id :=
  match front rs st with
  | (Returns _, st1, _, _) => objects (sink_state (snd st1))
  | _ => []
  end.

Section Performs.

Variables Self S : Type.
Variable good : Self -> Prop.
Variable k : sink S.

(** [performs s0 m xs urls bs]: from a good object and the sink's state
    [s0], whatever follows [xs] in the script, [m] returns when it has
    consumed [xs]; it has requested [urls] and handed [bs] to the sink, in
    these orders, and leaves a good object. *)
Definition performs (s0 : S) (m : Req Self S unit) (xs : list exchange)
    (urls : list string) (bs : list (json * option string)) : Prop :=
  forall rest g w, good g -> sink_state w = s0 ->
    exists g' w' ev,
      m (xs ++ rest) (g, w) = (Returns tt, (g', w'), rest, ev)
      /\ good g' /\ sink_state w' = sink_after k bs s0
      /\ requests ev = urls /\ saved ev = bs.

End Performs.

Arguments performs {Self S}.

End Paging.

(* ================================================================== *)
(** * What a run does to the state *)
(* ================================================================== *)

Module Tracking.
Import Py Http Effects Traces Invariants.

(** The call came to an end of its own: it returned or exited. *)
Definition settled {A} (o : outcome A) : bool :=
  match o with
  | Returns _ | Exits _ => true
  | Raises _ | Blocks => false
  end.

Section Tracks.

Variables Self S : Type.

(** What a call does to the state, told with the events of the call. *)
Variable R : state Self S -> list event -> state Self S -> Prop.

(** [always]: the relation holds however the call ends; otherwise when it
    returns or exits. *)
Variable always : bool.

Definition tracks {A} (m : Req Self S A) : Prop :=
  forall rs st,
    always || settled (r_out (m rs st)) = true ->
    R st (r_events (m rs st)) (r_state (m rs st)).

Definition tracks_act {A} (a : Act Self S A) : Prop :=
  forall st,
    always || settled (fst (fst (a st))) = true ->
    R st (snd (a st)) (snd (fst (a st))).

End Tracks.

Arguments tracks {Self S} R always {A} m.
Arguments tracks_act {Self S} R always {A} a.

Section Counters.

Variable S : Type.

(** The counters of [src/actionSHARK] against the events: the requests
    counted are the requests sent and the batches the sink took; the
    stops counted are the sleeps. *)
Definition counted (st : state (SHARK_github.GitHub S) S) (ev : list event)
    (st' : state (SHARK_github.GitHub S) S) : Prop :=
  SHARK_github.total_requests (fst st')
  = SHARK_github.total_requests (fst st)
    + Z.of_nat (List.length (requests ev))
    + Z.of_nat (List.length (saved ev))
  /\ SHARK_github.limit_handler_counter (fst st')
     = SHARK_github.limit_handler_counter (fst st)
       + Z.of_nat (List.length (sleeps ev)).

(** [run] with a source of run ids, up to the closing message. *)
Definition run_body (objects : S -> list (option Z))
  : Req (SHARK_github.GitHub S) S unit :=
  (SHARK_github.verify_token ;;
   SHARK_github.get_workflows ;;
   SHARK_github.get_artifacts ;;
   SHARK_github.get_runs ;;
   lift (log DEBUG "Collecting run ids" []) ;;
   w <- lift get_world ;;
   let run_ids := objects (sink_state w) in
   lift (log DEBUG "Start fetching jobs" []) ;;
   for_each run_ids SHARK_github.get_jobs ;;
   lift (log DEBUG "Finish fetching jobs" []))%req.

End Counters.

Arguments counted {S}.
Arguments run_body {S}.

(** ** [Mongo.save_documents] as the sink of a fetcher

    The state of the sink is the database and the lines the mapper has
    logged. *)
Definition mongo_sink (validate : shark_mongo.document -> bool)
    (self : shark_mongo.Mongo)
  : sink (shark_mongo.store * list shark_mongo.log) :=
  fun items action s =>
    let '(r, st', logs) :=
      shark_mongo.save_documents validate self items action (fst s) in
    (r, (st', snd s ++ logs)).

(** The fetcher of [src/actionshark] keeps its sink and the database. *)
Definition database_kept (validate : shark_mongo.document -> bool)
    (self : shark_mongo.Mongo)
    (st : state (shark_github.GitHub (shark_mongo.store * list shark_mongo.log))
            (shark_mongo.store * list shark_mongo.log))
    (ev : list event)
    (st' : state (shark_github.GitHub
                    (shark_mongo.store * list shark_mongo.log))
             (shark_mongo.store * list shark_mongo.log)) : Prop :=
  shark_github.save_mongo (fst st) = mongo_sink validate self ->
  shark_github.save_mongo (fst st') = mongo_sink validate self
  /\ fst (sink_state (snd st')) = fst (sink_state (snd st)).

(** The fetcher of [src/actionSHARK] keeps its sink; the database keeps
    its documents and its references. *)
Definition database_grows (validate : shark_mongo.document -> bool)
    (self : shark_mongo.Mongo)
    (st : state (SHARK_github.GitHub (shark_mongo.store * list shark_mongo.log))
            (shark_mongo.store * list shark_mongo.log))
    (ev : list event)
    (st' : state (SHARK_github.GitHub
                    (shark_mongo.store * list shark_mongo.log))
             (shark_mongo.store * list shark_mongo.log)) : Prop :=
  SHARK_github.save_mongo (fst st) = mongo_sink validate self ->
  SHARK_github.save_mongo (fst st') = mongo_sink validate self
  /\ extends (fst (sink_state (snd st))) (fst (sink_state (snd st')))
  /\ (references_resolve (fst (sink_state (snd st))) ->
      references_resolve (fst (sink_state (snd st')))).

(** [runs_object.objects()] for [Mongo.runs], and [run.run_id] of each:
    the numeric ids of the stored runs, in the order of the collection. *)
Definition stored_run_ids (s : shark_mongo.store * list shark_mongo.log)
  : list (option Z) :=
  map (fun d => Some (shark_mongo.run_id (snd d))) (shark_mongo.runs (fst s)).

End Tracking.

(* ================================================================== *)
(** * Concrete inputs *)
(* ================================================================== *)

Module Inputs.
Import Py Datetime Http Effects.

(** A database that holds one [VCSSystem] document for the repository and
    nothing else. *)
Definition repo_url_o_r : string := "https://github.com/o/r".

Definition empty_store : shark_mongo.store :=
  shark_mongo.mk_store [] [] [] [] [(repo_url_o_r, 900)] 1.

Definition mongo_o_r : shark_mongo.Mongo :=
  shark_mongo.mk_Mongo (Some "actions") (Some repo_url_o_r).

(** A driver that accepts every document. *)
Definition accept_all : shark_mongo.document -> bool := fun _ => true.

(** The workflow item of the specification's section 8. *)
Definition workflow_55 : json :=
  JObj [("id", JInt 55); ("name", JStr "CI");
        ("path", JStr ".github/workflows/ci.yml"); ("state", JStr "active");
        ("created_at", JStr "2022-01-01T00:00:00.000Z");
        ("updated_at", JStr "2022-01-02T00:00:00.000Z")].

(** A workflow item without an id. *)
Definition workflow_no_id : json :=
  JObj [("name", JStr "CI"); ("state", JStr "active")].

(** A database in which workflow 55 is stored. *)
Definition store_with_workflow : shark_mongo.store :=
  snd (fst (shark_mongo.save_documents accept_all mongo_o_r
              (JList [workflow_55]) (Some "workflow") empty_store)).

Definition run_7 : json :=
  JObj [("id", JInt 7); ("name", JStr "CI"); ("run_number", JInt 12);
        ("event", JStr "push"); ("status", JStr "completed");
        ("conclusion", JStr "success"); ("workflow_id", JInt 55);
        ("pull_requests", JList []);
        ("created_at", JStr "2022-01-03T10:00:00Z");
        ("updated_at", JStr "2022-01-03T10:05:00Z");
        ("run_attempt", JInt 1);
        ("run_started_at", JStr "2022-01-03T10:00:01Z")].

Definition step_3 : json :=
  JObj [("name", JStr "build"); ("status", JStr "completed");
        ("conclusion", JStr "success"); ("number", JInt 3);
        ("started_at", JStr "2022-01-03T10:00:02.000Z");
        ("completed_at", JStr "2022-01-03T10:01:02.000Z")].

(** ** The fetchers *)

(** A sink that keeps the batches it is handed, the last first. *)
Definition batches : Type := list (json * option string).

Definition keep : sink batches :=
  fun items action s => (Ok tt, (items, action) :: s).

Definition world0 : world batches := mk_world initial_headers 0 [].

Definition ok_200 (body : json) (now : Z) : exchange :=
  mk_exchange (mk_response 200 "OK" [] (Some body)) now.

(** A rate-limit response: the limit resets at 1000060, the server's date
    is 1000000 seconds after the epoch. *)
Definition limited (now : Z) : exchange :=
  mk_exchange
    (mk_response 403 "Forbidden"
       [("X-RateLimit-Reset", "1000060");
        ("Date", "Mon, 12 Jan 1970 13:46:40 GMT")]
       None)
    now.

Definition no_items : json :=
  JObj [("total_count", JInt 0); ("workflows", JList []);
        ("workflow_runs", JList []); ("jobs", JList []);
        ("artifacts", JList [])].

Definition two_workflows : json :=
  JObj [("total_count", JInt 2);
        ("workflows", JList [workflow_55; workflow_55])].

(** [GitHub("o", "r", 100, None, keep)] of [src/actionSHARK/github.py], and
    of [src/actionshark/github.py]. *)
Definition github_A : SHARK_github.GitHub batches :=
  SHARK_github.mk_GitHub None keep "o" "r" 100 None 0 None 0.

Definition github_B : shark_github.GitHub batches :=
  shark_github.mk_GitHub None keep "o" "r" 100 1 2 0 None 0.

(** ** More items *)

(** A job of run 7. *)
Definition job_9 : json :=
  JObj [("id", JInt 9); ("name", JStr "build"); ("run_id", JInt 7);
        ("run_attempt", JInt 1); ("status", JStr "completed");
        ("conclusion", JStr "success");
        ("started_at", JStr "2022-01-03T10:00:02Z");
        ("completed_at", JStr "2022-01-03T10:04:00Z");
        ("steps", JList [step_3]); ("runner_id", JInt 3);
        ("runner_name", JStr "ubuntu"); ("runner_group_id", JInt 2);
        ("runner_group_name", JStr "GitHub Actions")].

Definition artifact_4 : json :=
  JObj [("id", JInt 4); ("name", JStr "dist"); ("size_in_bytes", JInt 1024);
        ("archive_download_url", JStr "https://api.github.com/a/4/zip");
        ("expired", JBool false);
        ("created_at", JStr "2022-01-03T10:04:00Z");
        ("updated_at", JStr "2022-01-03T10:04:01Z");
        ("expires_at", JStr "2022-04-03T10:04:00Z")].

(** An artifact item without a size. *)
Definition artifact_no_size : json :=
  JObj [("id", JInt 5); ("name", JStr "logs")].

(** A pull request whose head repository is gone. *)
Definition pull_request_fork_gone : json :=
  JObj [("id", JInt 31); ("number", JInt 2);
        ("head", JObj [("ref", JStr "patch-1"); ("sha", JStr "abc");
                       ("repo", JNull)]);
        ("base", JObj [("ref", JStr "main"); ("sha", JStr "def");
                       ("repo", JObj [("id", JInt 1); ("name", JStr "r")])])].

Definition run_8_from_fork : json :=
  JObj [("id", JInt 8); ("name", JStr "CI"); ("run_number", JInt 13);
        ("event", JStr "pull_request"); ("status", JStr "completed");
        ("conclusion", JStr "success"); ("workflow_id", JInt 55);
        ("pull_requests", JList [pull_request_fork_gone]);
        ("created_at", JStr "2022-01-04T10:00:00Z");
        ("updated_at", JStr "2022-01-04T10:05:00Z");
        ("run_attempt", JInt 1);
        ("run_started_at", JStr "2022-01-04T10:00:01Z")].

(** A database in which workflow 55 and its run 7 are stored. *)
Definition store_with_run : shark_mongo.store :=
  snd (fst (shark_mongo.save_documents accept_all mongo_o_r
              (JList [run_7]) (Some "run") store_with_workflow)).

Definition one_workflow : json :=
  JObj [("total_count", JInt 3); ("workflows", JList [workflow_55])].

(** Fetchers with a page size of 2, at page 1 of the workflows. *)
Definition github_A_by_2 : SHARK_github.GitHub batches :=
  SHARK_github.mk_GitHub None keep "o" "r" 2 (Some 1) 0 (Some "workflow") 0.

Definition github_B_by_2 : shark_github.GitHub batches :=
  shark_github.mk_GitHub None keep "o" "r" 2 1 2 0 (Some "workflow") 0.

(** The fetchers with [Mongo.save_documents] as their sink, on a database
    that holds the repository's [VCSSystem] document only. *)
Definition world_mongo
  : world (shark_mongo.store * list shark_mongo.log) :=
  mk_world initial_headers 0 (empty_store, []).

Definition github_A_mongo
  : SHARK_github.GitHub (shark_mongo.store * list shark_mongo.log) :=
  SHARK_github.mk_GitHub None (Tracking.mongo_sink accept_all mongo_o_r) "o" "r" 100
    None 0 None 0.

Definition github_B_mongo
  : shark_github.GitHub (shark_mongo.store * list shark_mongo.log) :=
  shark_github.mk_GitHub None (Tracking.mongo_sink accept_all mongo_o_r) "o" "r" 100
    1 2 0 None 0.

(** The answers to a run that finds two workflows and nothing else. *)
Definition script_two_workflows : list exchange :=
  [ok_200 two_workflows 0; ok_200 no_items 0; ok_200 no_items 0].

Definition one_run : json :=
  JObj [("total_count", JInt 1); ("workflow_runs", JList [run_7])].

Definition one_job : json :=
  JObj [("total_count", JInt 1); ("jobs", JList [job_9])].

(** The answers to a run that finds workflow 55, no artifact, run 7 and
    its job 9. *)
Definition script_workflow_run_job : list exchange :=
  [ok_200 one_workflow 0; ok_200 no_items 0; ok_200 one_run 0;
   ok_200 one_job 0].

(** Run-id sources over the batches kept: the ids of the items that were
    handed over under [action], in the order they came; as the ints
    [src/actionSHARK] reads and as the texts [src/actionshark] reads. *)
Definition item_id (item : json) : option Z :=
  match item with
  | JObj kv => match assoc "id" kv with
               | Some (JInt z) => Some z
               | _ => None
               end
  | _ => None
  end.

Definition kept_ids (action : string) (s : batches) : list (option Z) :=
  flat_map (fun b => match b with
                     | (JList items, Some a) =>
                         if String.eqb a action then map item_id items else []
                     | _ => []
                     end) (rev s).

Definition kept_refs (action : string) (s : batches) : list string :=
  flat_map (fun id => match id with
                      | Some z => [str_of_int z]
                      | None => []
                      end) (kept_ids action s).

Definition one_artifact : json :=
  JObj [("total_count", JInt 1); ("artifacts", JList [artifact_4])].

(** The local time of a platform in the zone Europe/Berlin during 2022:
    one hour ahead of UTC, and two hours from 2022-03-27 01:00 UTC until
    2022-10-30 01:00 UTC. *)
Definition berlin_2022 (t : Z) : result Z :=
  Ok (t + (if (1648342800 <=? t) && (t <? 1667091600) then 7200 else 3600)).

Definition world_berlin : world batches :=
  mk_world_of initial_headers berlin_2022 [].

(** A rate-limit response with the reset time [reset]. *)
Definition limited_until (reset : string) (now : Z) : exchange :=
  mk_exchange
    (mk_response 403 "Forbidden" [("X-RateLimit-Reset", reset)] None) now.

End Inputs.

(* ================================================================== *)
(** * The library calls on concrete values *)
(* ================================================================== *)

Module PyFacts.
Import Py Datetime.

Example int_plain : int_of_str "007" = Ok 7.
Proof. reflexivity. Qed.

Example int_signed : int_of_str "-12" = Ok (-12).
Proof. reflexivity. Qed.

Example int_spaces_underscore : int_of_str " 1_0 " = Ok 10.
Proof. reflexivity. Qed.

Example int_double_underscore : int_of_str "1__0" = Err ValueError.
Proof. reflexivity. Qed.

Example int_trailing_underscore : int_of_str "1_" = Err ValueError.
Proof. reflexivity. Qed.

Example int_inner_space : int_of_str "1 2" = Err ValueError.
Proof. reflexivity. Qed.

Example int_none : py_int JNull = Err TypeError.
Proof. reflexivity. Qed.

Example str_of_negative : str_of_int (-5) = "-5".
Proof. reflexivity. Qed.

Example slice_of_url : drop_last 7 "u?per_page=100&page=1" = "u?per_page=100".
Proof. reflexivity. Qed.

Example strptime_milliseconds :
  strptime "2022-01-01T00:00:00.000Z" "%Y-%m-%dT%H:%M:%S.%f%z"
  = Ok (mk_datetime 2022 1 1 0 0 0 0 (Some (0, 0))).
Proof. vm_compute. reflexivity. Qed.

Example strptime_short_fields :
  strptime "2022-1-1t0:0:0.5+01:00" "%Y-%m-%dT%H:%M:%S.%f%z"
  = Ok (mk_datetime 2022 1 1 0 0 0 500000 (Some (3600, 0))).
Proof. vm_compute. reflexivity. Qed.

Example strptime_negative_offset :
  strptime "2022-01-01T00:00:00-05:30" "%Y-%m-%dT%H:%M:%S%z"
  = Ok (mk_datetime 2022 1 1 0 0 0 0 (Some (-19800, 0))).
Proof. vm_compute. reflexivity. Qed.

Example strptime_lower_z :
  strptime "2022-01-01T00:00:00.000z" "%Y-%m-%dT%H:%M:%S.%f%z"
  = Err ValueError.
Proof. vm_compute. reflexivity. Qed.

Example strptime_no_fraction :
  strptime "2022-01-01T00:00:00Z" "%Y-%m-%dT%H:%M:%S.%f%z" = Err ValueError.
Proof. vm_compute. reflexivity. Qed.

Example strptime_february_29 :
  strptime "2022-02-29T00:00:00Z" "%Y-%m-%dT%H:%M:%S%z" = Err ValueError.
Proof. vm_compute. reflexivity. Qed.

Example strptime_leap_second :
  strptime "2022-01-01T00:00:60Z" "%Y-%m-%dT%H:%M:%S%z" = Err ValueError.
Proof. vm_compute. reflexivity. Qed.

Example strptime_unconverted_data :
  strptime "2022-01-01T00:00:00Z " "%Y-%m-%dT%H:%M:%S%z" = Err ValueError.
Proof. vm_compute. reflexivity. Qed.

Example strptime_http_date :
  rbind (strptime "Mon, 12 Jan 1970 13:46:40 GMT" "%a, %d %b %Y %H:%M:%S %Z")
    (fun d => Ok (to_seconds d))
  = Ok 1000000.
Proof. vm_compute. reflexivity. Qed.

Example timedelta_seconds_negative : timedelta_seconds 1000000 1000060 = 86340.
Proof. reflexivity. Qed.

End PyFacts.

(* ================================================================== *)
(** * The mapper: [save_documents] and the converters *)
(* ================================================================== *)

Module MongoFacts.
Import Py Datetime Inputs.
Import shark_mongo.

(** ** [__parse_date] *)

Lemma parse_date_absent (value : json) (is_millisecond : bool) :
  truthy value = false -> __parse_date value is_millisecond = Ok None.
Proof.
  intros H. unfold __parse_date. rewrite H. reflexivity.
Qed.

Lemma parse_date_none (is_millisecond : bool) :
  __parse_date JNull is_millisecond = Ok None.
Proof. reflexivity. Qed.

Lemma parse_date_string (s : string) (is_millisecond : bool) :
  s <> "" ->
  __parse_date (JStr s) is_millisecond
  = rbind (strptime s (if is_millisecond
                       then "%Y-%m-%dT%H:%M:%S.%f%z"
                       else "%Y-%m-%dT%H:%M:%S%z"))
      (fun d => Ok (Some d)).
Proof.
  intros H. unfold __parse_date. simpl.
  destruct (String.eqb_spec s ""); [contradiction | reflexivity].
Qed.

Example parse_date_milliseconds :
  __parse_date (JStr "2022-01-01T00:00:00.000Z") true
  = Ok (Some (mk_datetime 2022 1 1 0 0 0 0 (Some (0, 0)))).
Proof. vm_compute. reflexivity. Qed.

Example parse_date_seconds :
  __parse_date (JStr "2022-01-03T10:05:00Z") false
  = Ok (Some (mk_datetime 2022 1 3 10 5 0 0 (Some (0, 0)))).
Proof. vm_compute. reflexivity. Qed.

Example parse_date_wrong_format :
  __parse_date (JStr "2022-01-03T10:05:00Z") true = Err ValueError.
Proof. vm_compute. reflexivity. Qed.

(** The workflow item of the specification converts to a record with the
    integer id 55, the name, path and state of the item, and both
    timestamps parsed. *)
Example create_workflow_55 :
  __create_workflow mongo_o_r empty_store workflow_55
  = Ok (Some (DWorkflow
         (mk_Workflow 55 (JStr "CI") (JStr ".github/workflows/ci.yml")
            (JStr "active")
            (Some (mk_datetime 2022 1 1 0 0 0 0 (Some (0, 0))))
            (Some (mk_datetime 2022 1 2 0 0 0 0 (Some (0, 0))))
            900 (Some repo_url_o_r)))).
Proof. vm_compute. reflexivity. Qed.

(** ** Optional numeric fields *)

(** The runner ids of a job: the integer of a true value, [None] for a
    false one. *)
Lemma int_if_true_present (x : json) :
  truthy x = true -> int_if_true x = rbind (py_int x) (fun i => Ok (Some i)).
Proof. intros H. unfold int_if_true. rewrite H. reflexivity. Qed.

Lemma int_if_true_absent (x : json) :
  truthy x = false -> int_if_true x = Ok None.
Proof. intros H. unfold int_if_true. rewrite H. reflexivity. Qed.

Lemma int_of_str_empty : int_of_str "" = Err ValueError.
Proof. reflexivity. Qed.

(** [int(x)] of a false value is [0] when it is defined. *)
Lemma py_int_falsy (x : json) (i : Z) :
  truthy x = false -> py_int x = Ok i -> i = 0.
Proof.
  destruct x as [| b | z | s | l | kv]; simpl; intros Hf Hi;
    try discriminate.
  - destruct b; [discriminate | congruence].
  - destruct (Z.eqb_spec z 0); [congruence | discriminate].
  - destruct (String.eqb_spec s ""); [subst | discriminate].
    rewrite int_of_str_empty in Hi. discriminate.
Qed.

Ltac step_bind H :=
  match type of H with
  | rbind ?r _ = Ok _ =>
      let E := fresh "E" in
      destruct r eqn:E; simpl in H; [| discriminate]
  end.

(** The number of a job step is never the number of the item: a step is
    stored with no number, or with the number [0] of an item whose number
    is false. *)
Lemma create_job_step_number (obj : json) (s : JobStep) :
  __create_job_step obj = Ok (Some s) ->
  step_number s = None \/ step_number s = Some 0.
Proof.
  unfold __create_job_step. destruct (negb (truthy obj)); [discriminate |].
  intros H. do 4 step_bind H.
  destruct (negb (truthy a2)) eqn:Hn; simpl in H.
  - step_bind H. do 4 step_bind H.
    injection H as <-. simpl. right.
    destruct (py_int a2) as [i |] eqn:Ei; simpl in E3; [| discriminate].
    injection E3 as <-. do 2 f_equal.
    apply (py_int_falsy a2); [| assumption].
    now destruct (truthy a2).
  - do 4 step_bind H. injection H as <-. simpl. now left.
Qed.

(** C3: a job step whose item has the number 3 is stored with no number;
    a job whose item has the runner id 3 is stored with the runner id 3. *)
Theorem create_job_step_drops_number :
  option_map step_number
    (match __create_job_step step_3 with Ok s => s | Err _ => None end)
  = Some None
  /\ int_if_true (JInt 3) = Ok (Some 3).
Proof. split; vm_compute; reflexivity. Qed.

(** ** The timestamps of a run *)

(** C6: the run item is converted with [created_at] and [updated_at] parsed
    and [run_started_at] left as the string the item has. *)
Theorem create_run_started_at_not_parsed :
  match __create_run mongo_o_r store_with_workflow run_7 with
  | Ok (Some (DRun r)) =>
      run_created_at r = Some (mk_datetime 2022 1 3 10 0 0 0 (Some (0, 0)))
      /\ run_updated_at r = Some (mk_datetime 2022 1 3 10 5 0 0 (Some (0, 0)))
      /\ run_started_at r = JStr "2022-01-03T10:00:01Z"
  | _ => False
  end.
Proof. vm_compute. repeat split. Qed.

(** The field [run_started_at] is the item's value, whatever it is. *)
Lemma create_run_started_at_raw (self : Mongo) (st : store)
    (kv : list (string * json)) (r : Run) :
  __create_run self st (JObj kv) = Ok (Some (DRun r)) ->
  run_started_at r
  = match assoc "run_started_at" kv with Some v => v | None => JNull end.
Proof.
  unfold __create_run. destruct (negb (truthy (JObj kv))); [discriminate |].
  intros H. repeat step_bind H.
  now injection H as <-.
Qed.

(** ** [save_documents] *)

Section Loop.

Variable validate : document -> bool.

Lemma save_loop_app func action (pre l : list json) :
  forall st st1 logs1,
    save_loop validate func action pre st = (Ok tt, st1, logs1) ->
    save_loop validate func action (pre ++ l) st
    = let '(r, st', logs) := save_loop validate func action l st1 in
      (r, st', logs1 ++ logs).
Proof.
  induction pre as [| d pre IH]; intros st st1 logs1 H; simpl in *.
  - injection H as <- <-. now destruct (save_loop validate func action l st)
      as [[r st'] logs].
  - destruct (convert_and_save validate func d st) as [st0 | e].
    + now apply IH.
    + destruct (py_getitem d "id") as [i | e']; [| discriminate].
      destruct (save_loop validate func action pre st)
        as [[r0 st0] logs0] eqn:E0.
      injection H as -> -> <-.
      rewrite (IH _ _ _ E0).
      now destruct (save_loop validate func action l st1) as [[r st'] logs].
Qed.

(** An item that fails and has an id is logged and skipped. *)
Lemma save_loop_skips func action (d : json) (rest : list json)
    (st : store) (e : exn) (i : json) :
  convert_and_save validate func d st = Err e ->
  py_getitem d "id" = Ok i ->
  save_loop validate func action (d :: rest) st
  = let '(r, st', logs) := save_loop validate func action rest st in
    (r, st', FailedSaving action i :: logs).
Proof. intros H1 H2. simpl. now rewrite H1, H2. Qed.

(** A resource kind with no converter: the batch is logged and dropped. *)
Lemma save_documents_unknown_action (self : Mongo) (documents : json)
    (action : string) (st : store) :
  truthy documents = true -> action <> "" ->
  __operations self action = None ->
  save_documents validate self documents (Some action) st
  = (Ok tt, st, [ActionNotFound action]).
Proof.
  intros Hd Ha Hop. unfold save_documents. rewrite Hd, Hop. simpl.
  destruct (String.eqb_spec action ""); [contradiction | reflexivity].
Qed.

(** An empty batch is a no-op (one log line apart). *)
Lemma save_documents_empty (self : Mongo) (action : option string)
    (st : store) :
  save_documents validate self (JList []) action st
  = (Ok tt, st, [NoDocumentsOrAction]).
Proof. destruct action; reflexivity. Qed.

Lemma operations_nonempty (self : Mongo) (action : string) func :
  __operations self action = Some func -> String.eqb action "" = false.
Proof.
  intros H. destruct (String.eqb_spec action ""); [| reflexivity].
  subst. discriminate.
Qed.

End Loop.

(** C10: when an item of a batch fails to convert or to save and has no
    key [id], [save_documents] raises a [KeyError] out of its handler: the
    items after it are not processed, whatever they are, and the database
    and the log stay as the items before it left them. *)
Theorem save_documents_handler_raises
    (validate : document -> bool) (self : Mongo) (action : string)
    (func : store -> json -> result (option document))
    (pre rest : list json) (kv : list (string * json))
    (st st1 : store) (logs1 : list log) (e : exn) :
  __operations self action = Some func ->
  save_loop validate func action pre st = (Ok tt, st1, logs1) ->
  convert_and_save validate func (JObj kv) st1 = Err e ->
  assoc "id" kv = None ->
  save_documents validate self (JList (pre ++ JObj kv :: rest))
    (Some action) st
  = (Err KeyError, st1, logs1).
Proof.
  intros Hop Hpre Hfail Hid. unfold save_documents.
  rewrite (operations_nonempty _ _ _ Hop), Hop.
  replace (truthy (JList (pre ++ JObj kv :: rest))) with true
    by (now destruct pre).
  simpl negb. simpl orb. cbv iota. simpl py_iter. cbv iota.
  rewrite (save_loop_app validate func action pre _ _ _ _ Hpre).
  simpl. rewrite Hfail, Hid. now rewrite app_nil_r.
Qed.

Lemma save_documents_handler_raises_witness :
  save_documents accept_all mongo_o_r
    (JList ([workflow_55] ++ workflow_no_id :: [workflow_55]))
    (Some "workflow") empty_store
  = (Err KeyError, store_with_workflow, []).
Proof.
  apply (save_documents_handler_raises accept_all mongo_o_r "workflow"
           (__create_workflow mongo_o_r) [workflow_55] [workflow_55]
           [("name", JStr "CI"); ("state", JStr "active")]
           empty_store store_with_workflow [] TypeError).
  - reflexivity.
  - vm_compute. reflexivity.
  - vm_compute. reflexivity.
  - reflexivity.
Defined.

(** C5: in the batch of a workflow item without an id followed by a good
    workflow item, the first item's failure is not skipped: [save_documents]
    raises a [KeyError] and the good item is never stored.  The same batch
    with an id on the failing item stores the good item. *)
Theorem save_documents_batch_aborted :
  save_documents accept_all mongo_o_r
    (JList [workflow_no_id; workflow_55]) (Some "workflow") empty_store
  = (Err KeyError, empty_store, [])
  /\ save_documents accept_all mongo_o_r
       (JList [JObj [("id", JStr "x"); ("state", JStr "active")];
               workflow_55])
       (Some "workflow") empty_store
     = (Ok tt, store_with_workflow, [FailedSaving "workflow" (JStr "x")]).
Proof. split; vm_compute; reflexivity. Qed.


End MongoFacts.

(* ================================================================== *)
(** * Strings and traces *)
(* ================================================================== *)

Module TraceFacts.
Import Py Http Effects Traces.

Lemma substring_append (u v : string) :
  substring 0 (String.length u) (String.append u v) = u.
Proof.
  induction u as [| c u IH]; simpl.
  - now destruct v.
  - now rewrite IH.
Qed.

Lemma length_append (u v : string) :
  String.length (String.append u v) = (String.length u + String.length v)%nat.
Proof. induction u as [| c u IH]; simpl; [reflexivity | now rewrite IH]. Qed.

Lemma append_assoc (u v t : string) :
  String.append (String.append u v) t = String.append u (String.append v t).
Proof. induction u as [| c u IH]; simpl; [reflexivity | now rewrite IH]. Qed.

Lemma append_nil_r (u : string) : String.append u "" = u.
Proof. induction u as [| c u IH]; simpl; [reflexivity | now rewrite IH]. Qed.

(** [(u + sfx)[:-len(sfx)]] is [u] for a suffix that is not empty. *)
Lemma drop_last_append (u sfx : string) :
  sfx <> "" -> drop_last (String.length sfx) (String.append u sfx) = u.
Proof.
  intros H. unfold drop_last.
  destruct (String.length sfx) as [| n] eqn:E.
  - destruct sfx; [contradiction | discriminate].
  - rewrite length_append, E.
    replace (String.length u + S n - S n)%nat with (String.length u) by lia.
    apply substring_append.
Qed.

Lemma page_suffix_nonempty (p : Z) : page_suffix p <> "".
Proof. unfold page_suffix. simpl. discriminate. Qed.

Lemma drop_last_page (u : string) (p : Z) :
  drop_last (String.length (page_suffix p)) (String.append u (page_suffix p))
  = u.
Proof. apply drop_last_append, page_suffix_nonempty. Qed.

Lemma starts_with_refl (b : string) : starts_with b b.
Proof. exists "". now rewrite append_nil_r. Qed.

Lemma starts_with_append (b u t : string) :
  starts_with b u -> starts_with b (String.append u t).
Proof.
  intros [t' ->]. exists (String.append t' t). apply append_assoc.
Qed.

Lemma requests_app (a b : list event) :
  requests (a ++ b) = requests a ++ requests b.
Proof.
  induction a as [| e a IH]; simpl; [reflexivity |].
  destruct e; simpl; now rewrite IH.
Qed.

Lemma saved_app (a b : list event) : saved (a ++ b) = saved a ++ saved b.
Proof.
  induction a as [| e a IH]; simpl; [reflexivity |].
  destruct e; simpl; now rewrite IH.
Qed.

Lemma quiet_requests (ev : list event) : quiet ev -> requests ev = [].
Proof.
  induction 1 as [| e ev He _ IH]; simpl; [reflexivity |].
  destruct e; simpl in *; [discriminate | assumption ..].
Qed.

Lemma quiet_gets_with h (ev : list event) : quiet ev -> gets_with h ev.
Proof.
  unfold quiet, gets_with. intros H. eapply Forall_impl; [| exact H].
  intros e He. destruct e; [discriminate | exact I ..].
Qed.

Lemma quiet_app (a b : list event) : quiet a -> quiet b -> quiet (a ++ b).
Proof. unfold quiet. intros. now apply Forall_app. Qed.

Lemma gets_with_app h (a b : list event) :
  gets_with h a -> gets_with h b -> gets_with h (a ++ b).
Proof. unfold gets_with. intros. now apply Forall_app. Qed.

Lemma follows_app (d1 d2 u1 u2 : list string) :
  follows d1 u1 -> follows d2 u2 -> follows (d1 ++ d2) (u1 ++ u2).
Proof.
  induction 1 as [| b plan us rest Hne Hall _ IH]; intros H2; simpl.
  - exact H2.
  - rewrite <- app_assoc. constructor; auto.
Qed.

Lemma follows_one (b : string) (us : list string) :
  us <> [] -> Forall (starts_with b) us -> follows [b] us.
Proof.
  intros Hne Hall. rewrite <- (app_nil_r us).
  constructor; auto. constructor.
Qed.

Lemma is_prefix_refl {A} (l : list A) : is_prefix l l.
Proof. exists []. now rewrite app_nil_r. Qed.

Lemma is_prefix_nil {A} (l : list A) : is_prefix [] l.
Proof. now exists l. Qed.

Lemma is_prefix_app_r {A} (l1 l2 r : list A) :
  is_prefix l1 l2 -> is_prefix l1 (l2 ++ r).
Proof. intros [x ->]. exists (x ++ r). now rewrite app_assoc. Qed.

Lemma is_prefix_app_l {A} (l l1 l2 : list A) :
  is_prefix l1 l2 -> is_prefix (l ++ l1) (l ++ l2).
Proof. intros [x ->]. exists x. now rewrite app_assoc. Qed.

Lemma starts_with_trans (a b c : string) :
  starts_with a b -> starts_with b c -> starts_with a c.
Proof.
  intros [t ->] [t' ->]. exists (String.append t t'). apply append_assoc.
Qed.

Lemma follows_common (c : string) (done us : list string) :
  follows done us -> Forall (starts_with c) done -> Forall (starts_with c) us.
Proof.
  induction 1 as [| b plan us rest Hne Hall _ IH]; intros Hd.
  - constructor.
  - inversion Hd as [| ? ? Hb Hplan]; subst.
    apply Forall_app. split; [| now apply IH].
    eapply Forall_impl; [| exact Hall].
    intros u Hu. eapply starts_with_trans; eauto.
Qed.

Lemma is_prefix_Forall {A} (P : A -> Prop) (l1 l2 : list A) :
  is_prefix l1 l2 -> Forall P l2 -> Forall P l1.
Proof. intros [r ->] H. now apply Forall_app in H. Qed.

Lemma append_inv_l (u a b : string) :
  String.append u a = String.append u b -> a = b.
Proof.
  induction u as [| c u IH]; simpl; intros H; [assumption |].
  injection H as H. now apply IH.
Qed.

(** ** Rules for [sat] *)

Section Rules.

Variables Self S : Type.
Variable inv : Self -> Prop.
Variable h : list (string * string).

Abbreviation ok := (@ok_state Self S inv h).
Notation "'SAT' m P" := (@sat Self S inv h _ m P)
  (at level 10, m at level 9, P at level 9).

Lemma bind_req_events {A B} (m : Req Self S A) (k : A -> Req Self S B)
    (rs : list exchange) (st : state Self S) :
  exists ev', r_events (bind_req m k rs st) = r_events (m rs st) ++ ev'.
Proof.
  unfold bind_req.
  destruct (m rs st) as [[[[a | e | c |] st1] rs1] ev1]; cbn;
    [| exists []; now rewrite app_nil_r ..].
  destruct (k a rs1 st1) as [[[o2 st2] rs2] ev2]. cbn.
  now exists ev2.
Qed.

Lemma sat_weaken {A} (m : Req Self S A) (P Q : list string -> Prop) :
  SAT m P -> (forall p, P p -> Q p) -> SAT m Q.
Proof.
  intros Hm HPQ rs st Hst.
  destruct (Hm rs st Hst) as (H1 & H2 & done & plan & HP & H3 & H4 & H5).
  split; [assumption |]. split; [assumption |].
  exists done, plan. auto.
Qed.

Lemma sat_ret {A} (a : A) : SAT (ret_req a) (eq []).
Proof.
  intros rs st Hst. cbn. split; [assumption |]. split; [constructor |].
  exists [], []. repeat split; auto using is_prefix_refl. constructor.
Qed.

(** A step that sends nothing and keeps the state good. *)
Definition silent {A} (a : Act Self S A) : Prop :=
  forall st, ok st -> ok (snd (fst (a st))) /\ quiet (snd (a st)).

Lemma sat_lift {A} (a : Act Self S A) : silent a -> SAT (lift a) (eq []).
Proof.
  intros Ha rs st Hst. destruct (Ha st Hst) as [H1 H2].
  unfold lift. destruct (a st) as [[o st'] ev]. cbn in *.
  split; [assumption |]. split; [now apply quiet_gets_with |].
  exists [], []. rewrite (quiet_requests _ H2).
  repeat split; auto using is_prefix_refl. constructor.
Qed.

Lemma sat_bind {A B} (m : Req Self S A) (k : A -> Req Self S B)
    (P1 P2 : list string -> Prop) :
  SAT m P1 -> (forall a, SAT (k a) P2) -> (exists p, P2 p) ->
  SAT (bind_req m k) (app_set P1 P2).
Proof.
  intros Hm Hk [p2 Hp2] rs st Hst.
  destruct (Hm rs st Hst) as (H1 & H2 & d1 & p1 & HP1 & Hpre1 & Hf1 & Hret1).
  unfold bind_req.
  destruct (m rs st) as [[[o st1] rs1] ev1]. cbn in H1, H2, Hf1, Hret1.
  destruct o as [a | e | c |].
  - destruct (Hk a rs1 st1 H1)
      as (K1 & K2 & d2 & q2 & HP2 & Hpre2 & Hf2 & Hret2).
    destruct (k a rs1 st1) as [[[o2 st2] rs2] ev2].
    cbn in K1, K2, Hf2, Hret2 |- *.
    split; [assumption |]. split; [now apply gets_with_app |].
    rewrite (Hret1 a eq_refl) in *.
    exists (p1 ++ d2), (p1 ++ q2). repeat split.
    + now exists p1, q2.
    + now apply is_prefix_app_l.
    + rewrite requests_app. now apply follows_app.
    + intros b Hb. now rewrite (Hret2 b Hb).
  - cbn. split; [assumption |]. split; [assumption |].
    exists d1, (p1 ++ p2). repeat split.
    + now exists p1, p2.
    + now apply is_prefix_app_r.
    + assumption.
    + discriminate.
  - cbn. split; [assumption |]. split; [assumption |].
    exists d1, (p1 ++ p2). repeat split.
    + now exists p1, p2.
    + now apply is_prefix_app_r.
    + assumption.
    + discriminate.
  - cbn. split; [assumption |]. split; [assumption |].
    exists d1, (p1 ++ p2). repeat split.
    + now exists p1, p2.
    + now apply is_prefix_app_r.
    + assumption.
    + discriminate.
Qed.

(** A silent step first: the plan is the plan of what follows. *)
Lemma sat_after {A B} (a : Act Self S A) (k : A -> Req Self S B)
    (P : list string -> Prop) :
  silent a -> (forall x, SAT (k x) P) -> (exists p, P p) ->
  SAT (bind_req (lift a) k) P.
Proof.
  intros Ha Hk Hp.
  apply (sat_weaken _ (app_set (eq []) P)).
  - apply sat_bind; auto using sat_lift.
  - intros p (p1 & p2 & <- & H2 & ->). exact H2.
Qed.

(** A silent step last. *)
Lemma sat_before {A B} (m : Req Self S A) (a : A -> Act Self S B)
    (P : list string -> Prop) :
  SAT m P -> (forall x, silent (a x)) ->
  SAT (bind_req m (fun x => lift (a x))) P.
Proof.
  intros Hm Ha.
  apply (sat_weaken _ (app_set P (eq []))).
  - apply sat_bind; eauto using sat_lift.
  - intros p (p1 & p2 & H1 & <- & ->). now rewrite app_nil_r.
Qed.

(** [self] read first: what follows runs on an object that satisfies
    [inv]. *)
Lemma sat_self {B} (k : Self -> Req Self S B) (P : list string -> Prop) :
  (forall g, inv g -> SAT (k g) P) ->
  SAT (bind_req (lift get_self) k) P.
Proof.
  intros Hk rs st Hst. unfold bind_req, lift, get_self. cbn.
  destruct (Hk (fst st) (proj1 Hst) rs st Hst) as (H1 & H2 & H3).
  destruct (k (fst st) rs st) as [[[o st1] rs1] ev1]. cbn in *. auto.
Qed.

(** The world read first: the plan may depend on the sink's state. *)
Lemma sat_world {B} (k : world S -> Req Self S B)
    (P : S -> list string -> Prop) :
  (forall w, __headers w = h -> SAT (k w) (P (sink_state w))) ->
  SAT (bind_req (lift get_world) k) (fun p => exists s, P s p).
Proof.
  intros Hk rs st Hst. unfold bind_req, lift, get_world. cbn.
  destruct (Hk (snd st) (proj2 Hst) rs st Hst)
    as (H1 & H2 & done & plan & HP & H3).
  destruct (k (snd st) rs st) as [[[o st1] rs1] ev1]. cbn in *.
  split; [assumption |]. split; [assumption |].
  exists done, plan. split; [now exists (sink_state (snd st)) | assumption].
Qed.

Lemma sat_for_each {A} (body : A -> Req Self S unit) (base : A -> string) :
  (forall x, SAT (body x) (eq [base x])) ->
  forall l, SAT (for_each l body) (eq (map base l)).
Proof.
  intros Hb l. induction l as [| x l IH]; simpl.
  - apply sat_ret.
  - apply (sat_weaken _ (app_set (eq [base x]) (eq (map base l)))).
    + apply sat_bind; eauto.
    + now intros p (p1 & p2 & <- & <- & ->).
Qed.

Lemma silent_log lvl msg args : silent (log lvl msg args).
Proof.
  intros st Hst. cbn. split; [assumption |]. now repeat constructor.
Qed.

Lemma silent_exit {A} c : silent (@sys_exit Self S A c).
Proof. intros st Hst. cbn. split; [assumption | constructor]. Qed.

Lemma silent_raise {A} e : silent (@raise Self S A e).
Proof. intros st Hst. cbn. split; [assumption | constructor]. Qed.

Lemma silent_modify (f : Self -> Self) :
  (forall g, inv g -> inv (f g)) -> silent (modify_self f).
Proof.
  intros Hf st [H1 H2]. cbn. split; [| constructor].
  split; cbn; auto.
Qed.

Lemma silent_bind {A B} (a : Act Self S A) (k : A -> Act Self S B) :
  silent a -> (forall x, silent (k x)) -> silent (bind_act a k).
Proof.
  intros Ha Hk st Hst. destruct (Ha st Hst) as [H1 H2].
  unfold bind_act. destruct (a st) as [[o st1] ev1]. cbn in H1, H2.
  destruct o as [x | e | c |]; cbn; auto.
  destruct (Hk x st1 H1) as [K1 K2].
  destruct (k x st1) as [[o2 st2] ev2]. cbn in *.
  split; [assumption | now apply quiet_app].
Qed.

Lemma silent_get_self : silent get_self.
Proof. intros st Hst. cbn. split; [assumption | constructor]. Qed.

End Rules.

End TraceFacts.
(* ================================================================== *)
(** * The fetcher of [src/actionSHARK/github.py] *)
(* ================================================================== *)

Module SHARKFacts.
Import Py Datetime Http Effects Traces TraceFacts.
Import SHARK_github.

Section Loop.

Variable S : Type.

(** The attributes no method changes after [__init__]. *)
Definition same_config (g g' : GitHub S) : Prop :=
  owner g' = owner g /\ repo g' = repo g /\ per_page g' = per_page g
  /\ __token g' = __token g /\ save_mongo g' = save_mongo g.

Lemma same_config_refl g : same_config g g.
Proof. repeat split. Qed.

Lemma same_config_trans g1 g2 g3 :
  same_config g1 g2 -> same_config g2 g3 -> same_config g1 g3.
Proof.
  unfold same_config. intros (A1 & A2 & A3 & A4 & A5) (B1 & B2 & B3 & B4 & B5).
  repeat split; congruence.
Qed.

Lemma send_ok (url : string) (g : GitHub S) (w : world S) (p : Z) :
  page g = Some p ->
  paginating_send url (g, w)
  = (Returns (String.append url (page_suffix p)), (g, w),
     [Get (String.append url (page_suffix p)) (__headers w)]).
Proof.
  intros Hp. unfold paginating_send. cbv [bind_act get_self]. cbn [fst snd].
  rewrite Hp. reflexivity.
Qed.

(** A rate-limit response whose reset header reads as [reset], on a
    platform that gives the local times [reset_time] of the reset and
    [current_time] of the clock: the page is kept, nothing is handed to the
    sink, the process sleeps, and the loop goes on from the URL the request
    was sent to. *)
Lemma receive_403 (checker : option string) (url : string) (x : exchange)
    (g : GitHub S) (w : world S) (reset reset_time current_time : Z) :
  status_code (reply x) = 403 ->
  rate_limit_reset (reply x) = Ok reset ->
  localtime w reset = Ok reset_time ->
  localtime w (clock x) = Ok current_time ->
  paginating_receive checker url x (g, w)
  = (Returns (Some url),
     (set_limit_handler_counter (limit_handler_counter g + 1)
        (set_total_requests (total_requests g + 1) g), w),
     [Log DEBUG "Limit handler is triggered" [];
      Log DEBUG "Program will sleep for approximately {} seconds."
        [JInt (timedelta_seconds reset_time current_time)];
      Log DEBUG "Next Restart will be on {}" [JInt reset_time];
      Sleep (timedelta_seconds reset_time current_time);
      Log DEBUG "Continue with fetching {} from last GET request"
        [action_arg (current_action g)]]).
Proof.
  intros Hs Hr Hl Hc. unfold paginating_receive.
  cbv [bind_act modify_self]. cbn [fst snd]. rewrite Hs.
  cbn [Z.eqb Pos.eqb negb orb]. cbv [bind_act eval]. rewrite Hr.
  cbv [ret_act get_world]. cbn [fst snd]. rewrite Hl, Hc.
  reflexivity.
Qed.

(** A page of items: they are handed to the sink, the page number goes up,
    and the loop ends when the page is short. *)
Lemma receive_items (checker : option string) (url : string) (x : exchange)
    (g : GitHub S) (w : world S) (body items : json) (n p : Z) (s' : S) :
  status_code (reply x) = 200 ->
  content (reply x) = Some body ->
  items_of checker body = Ok items ->
  py_len items = Ok n ->
  truthy items = true ->
  save_mongo g items (current_action g) (sink_state w) = (Ok tt, s') ->
  page g = Some p ->
  paginating_receive checker url x (g, w)
  = (Returns (if n <? per_page g then None
              else Some (drop_last (String.length (page_suffix p)) url)),
     (set_total_requests (total_requests g + 1 + 1) (set_page (p + 1) g),
      set_sink_state s' w),
     [SaveMongo items (current_action g)]).
Proof.
  intros Hs Hc Hi Hn Ht Hk Hp. unfold paginating_receive.
  cbv [bind_act modify_self]. cbn [fst snd]. rewrite Hs.
  cbn [Z.eqb Pos.eqb negb orb]. unfold response_json. rewrite Hc.
  cbv [bind_act eval ret_act]. rewrite Hi. cbv [ret_act raise].
  rewrite Hn. cbv [ret_act]. rewrite Ht. cbn [negb].
  cbv [get_self call_sink]. cbn [fst snd save_mongo current_action
    set_total_requests sink_state page per_page].
  rewrite Hk, Hp. cbv [modify_self]. cbn [fst snd].
  destruct (n <? per_page g); reflexivity.
Qed.

(** An empty page ends the loop and nothing is handed to the sink. *)
Lemma receive_empty (checker : option string) (url : string) (x : exchange)
    (g : GitHub S) (w : world S) (body items : json) (n : Z) :
  status_code (reply x) = 200 ->
  content (reply x) = Some body ->
  items_of checker body = Ok items ->
  py_len items = Ok n ->
  truthy items = false ->
  paginating_receive checker url x (g, w)
  = (Returns None, (set_total_requests (total_requests g + 1) g, w), []).
Proof.
  intros Hs Hc Hi Hn Ht. unfold paginating_receive.
  cbv [bind_act modify_self]. cbn [fst snd]. rewrite Hs.
  cbn [Z.eqb Pos.eqb negb orb]. unfold response_json. rewrite Hc.
  cbv [bind_act eval ret_act]. rewrite Hi. cbv [ret_act raise].
  rewrite Hn. cbv [ret_act]. rewrite Ht. reflexivity.
Qed.

Ltac leaf :=
  intros [= <- <- <- <-];
  split; [repeat split |];
  split; [cbn; eauto |];
  split; [reflexivity |];
  split; [repeat constructor |];
  let u := fresh "u" in
  let Hu := fresh "Hu" in
  intros u Hu; try discriminate;
  injection Hu as <-; first [now left | now right].

Lemma receive_inv (checker : option string) (url1 : string) (x : exchange)
    (g : GitHub S) (w : world S) (p : Z) :
  page g = Some p ->
  forall o g' w' ev,
    paginating_receive checker url1 x (g, w) = (o, (g', w'), ev) ->
    same_config g g' /\ (exists q, page g' = Some q)
    /\ __headers w' = __headers w /\ quiet ev
    /\ forall u, o = Returns (Some u) ->
         u = url1 \/ u = drop_last (String.length (page_suffix p)) url1.
Proof.
  intros Hp o g' w' ev. unfold paginating_receive.
  cbv [bind_act modify_self]. cbn [fst snd].
  destruct (negb ((status_code (reply x) =? 200)
                  || (status_code (reply x) =? 403))) eqn:Hbad.
  { cbn. leaf. }
  destruct (status_code (reply x) =? 403) eqn:H403.
  { cbv [bind_act eval]. destruct (rate_limit_reset (reply x)) as [reset |];
      cbn; [| leaf].
    destruct (localtime w reset); cbn; [| leaf].
    destruct (localtime w (clock x)); cbn; leaf. }
  cbv [bind_act eval]. destruct (response_json (reply x)) as [body |]; cbn;
    [| leaf].
  destruct (items_of checker body) as [items |]; cbn; [| leaf].
  destruct (py_len items) as [n |]; cbn; [| leaf].
  destruct (truthy items); cbn; [| leaf].
  cbv [call_sink]. cbn [fst snd].
  destruct (save_mongo g items (current_action g) (sink_state w))
    as [[[] | e] s']; cbn; [| leaf].
  rewrite Hp. cbn.
  destruct (n <? per_page g); cbn; leaf.
Qed.

(** Every turn of the loop requests a URL that starts with the URL the loop
    was entered with, under the headers of the class; the configuration is
    kept. *)
Lemma loop_spec (checker : option string) (base : string) :
  forall rs url g w p,
    page g = Some p -> starts_with base url ->
    forall o g' w' rs' ev,
      paginating_loop checker rs url (g, w) = (o, (g', w'), rs', ev) ->
      same_config g g' /\ (exists q, page g' = Some q)
      /\ __headers w' = __headers w
      /\ gets_with (__headers w) ev
      /\ requests ev <> []
      /\ Forall (starts_with base) (requests ev).
Proof.
  induction rs as [| x rs IH]; intros url g w p Hp Hb o g' w' rs' ev;
    cbn [paginating_loop]; rewrite (send_ok url g w p Hp).
  - intros [= <- <- <- <- <-]. cbn.
    split; [apply same_config_refl |]. split; [eauto |].
    split; [reflexivity |]. split; [now repeat constructor |].
    split; [discriminate |].
    constructor; [now apply starts_with_append | constructor].
  - destruct (paginating_receive checker (String.append url (page_suffix p))
                x (g, w)) as [[o2 [g2 w2]] ev2] eqn:E2.
    destruct (receive_inv _ _ _ _ _ _ Hp _ _ _ _ E2)
      as (Hc & [q Hq] & Hh & Hquiet & Hu).
    assert (Hhead : forall ev3,
               requests (Get (String.append url (page_suffix p))
                           (__headers w) :: ev2 ++ ev3)
               = String.append url (page_suffix p) :: requests ev3).
    { intros ev3. cbn. now rewrite requests_app, (quiet_requests _ Hquiet). }
    assert (Hg : forall ev3, gets_with (__headers w) ev3 ->
               gets_with (__headers w)
                 (Get (String.append url (page_suffix p)) (__headers w)
                    :: ev2 ++ ev3)).
    { intros ev3 H3. constructor; [reflexivity |].
      apply gets_with_app; [now apply quiet_gets_with | assumption]. }
    assert (Hhead0 :
               requests (Get (String.append url (page_suffix p))
                           (__headers w) :: ev2)
               = [String.append url (page_suffix p)]).
    { cbn. now rewrite (quiet_requests _ Hquiet). }
    assert (Hg0 : gets_with (__headers w)
                    (Get (String.append url (page_suffix p)) (__headers w)
                       :: ev2)).
    { constructor; [reflexivity | now apply quiet_gets_with]. }
    destruct o2 as [[u |] | e | c |].
    1: { destruct (paginating_loop checker rs u (g2, w2))
        as [[[o3 [g3 w3]] rs3] ev3] eqn:E3.
      intros [= <- <- <- <- <-].
      assert (Hbu : starts_with base u).
      { destruct (Hu u eq_refl) as [-> | ->].
        - now apply starts_with_append.
        - now rewrite drop_last_page. }
      destruct (IH u g2 w2 q Hq Hbu _ _ _ _ _ E3)
        as (Hc3 & Hq3 & Hh3 & Hg3 & Hne3 & Hall3).
      rewrite Hhead.
      split; [eapply same_config_trans; eauto |].
      split; [assumption |].
      split; [congruence |].
      split; [apply Hg; now rewrite <- Hh |].
      split; [discriminate |].
      constructor; [now apply starts_with_append | assumption]. }
    all: intros [= <- <- <- <- <-]; cbn [app]; rewrite Hhead0;
      (split; [assumption |]); (split; [eauto |]); (split; [assumption |]);
      (split; [assumption |]); (split; [discriminate |]);
      constructor; [now apply starts_with_append | constructor].
Qed.

(** Every turn begins with the request of the current page. *)
Lemma loop_starts (checker : option string) (rs : list exchange)
    (url : string) (g : GitHub S) (w : world S) (p : Z) :
  page g = Some p ->
  exists o st' rs' ev',
    paginating_loop checker rs url (g, w)
    = (o, st', rs',
       Get (String.append url (page_suffix p)) (__headers w) :: ev').
Proof.
  intros Hp. destruct rs as [| x rs]; cbn [paginating_loop];
    rewrite (send_ok url g w p Hp).
  - now eexists _, _, _, _.
  - destruct (paginating_receive _ _ x _) as [[[[u |] | e | c |] st2] ev2].
    + destruct (paginating_loop _ rs u st2) as [[[o3 st3] rs3] ev3].
      now eexists _, _, _, _.
    + now eexists _, _, _, _.
    + now eexists _, _, _, _.
    + now eexists _, _, _, _.
    + now eexists _, _, _, _.
Qed.

(** After a rate-limit response the loop requests the URL of the request
    before with the page appended once more; nothing was handed to the
    sink in between. *)
Lemma loop_retry_after_403 (checker : option string) (x : exchange)
    (rs : list exchange) (url : string) (g : GitHub S) (w : world S)
    (p reset reset_time current_time : Z) :
  page g = Some p ->
  status_code (reply x) = 403 ->
  rate_limit_reset (reply x) = Ok reset ->
  localtime w reset = Ok reset_time ->
  localtime w (clock x) = Ok current_time ->
  exists ev1 ev',
    r_events (paginating_loop checker (x :: rs) url (g, w))
    = Get (String.append url (page_suffix p)) (__headers w)
      :: ev1
      ++ Get (String.append (String.append url (page_suffix p))
                (page_suffix p))
           (__headers w)
      :: ev'
    /\ saved ev1 = []
    /\ sleeps ev1 = [timedelta_seconds reset_time current_time].
Proof.
  intros Hp Hs Hr Hl Hc. cbn [paginating_loop].
  rewrite (send_ok url g w p Hp).
  rewrite (receive_403 checker _ x g w reset _ _ Hs Hr Hl Hc).
  destruct (loop_starts checker rs (String.append url (page_suffix p))
              (set_limit_handler_counter (limit_handler_counter g + 1)
                 (set_total_requests (total_requests g + 1) g)) w p Hp)
    as (o & st' & rs' & ev' & ->).
  eexists _, ev'. split; [reflexivity |]. split; reflexivity.
Qed.

End Loop.
Section Run.

Variable S : Type.
Variables (ow rp : string) (pp : Z) (tok : option string).
Variable h : list (string * string).

(** The configuration of the object a run is about. *)
Definition config (g : GitHub S) : Prop :=
  owner g = ow /\ repo g = rp /\ per_page g = pp
  /\ nonempty (__token g) = tok.

Lemma config_same (g g' : GitHub S) :
  same_config S g g' -> config g -> config g'.
Proof.
  unfold same_config, config.
  intros (A1 & A2 & A3 & A4 & A5) (B1 & B2 & B3 & B4).
  repeat split; congruence.
Qed.

(** [paginating] entered with a page number follows the plan of its URL. *)
Lemma paginating_follows (url : string) (checker : option string)
    (rs : list exchange) (g : GitHub S) (w : world S) (p : Z) :
  config g -> __headers w = h -> page g = Some p ->
  ok_state config h (r_state (paginating url checker rs (g, w)))
  /\ gets_with h (r_events (paginating url checker rs (g, w)))
  /\ follows [url] (requests (r_events (paginating url checker rs (g, w)))).
Proof.
  intros Hc Hh Hp. unfold paginating.
  destruct (paginating_loop checker rs url (g, w))
    as [[[o [g' w']] rs'] ev] eqn:E.
  destruct (loop_spec S checker url rs url g w p Hp (starts_with_refl url)
              _ _ _ _ _ E) as (H1 & H2 & H3 & H4 & H5 & H6).
  cbn. split; [split; cbn; [eapply config_same; eauto | congruence] |].
  split; [now rewrite <- Hh |]. now apply follows_one.
Qed.

Lemma sat_paginating_from (url : string) (checker : option string)
    (p : Z) (pre : GitHub S -> GitHub S) :
  (forall g, config g -> config (pre g)) ->
  (forall g, page (pre g) = Some p) ->
  sat config h
    (fun rs st => paginating url checker rs (pre (fst st), snd st))
    (eq [url]).
Proof.
  intros Hpre Hpage rs [g w] [Hc Hh]. cbn [fst snd] in *.
  destruct (paginating_follows url checker rs (pre g) w p
              (Hpre g Hc) Hh (Hpage g)) as (H1 & H2 & H3).
  split; [assumption |]. split; [assumption |].
  exists [url], [url]. auto using is_prefix_refl.
Qed.

Ltac finish_fetch H1 H2 H3 :=
  match goal with
  | |- context [paginating ?u ?c ?rs ?st] =>
      let o := fresh "o" in
      destruct (paginating u c rs st) as [[[o ?] ?] ?];
      cbn [r_state r_events r_out fst snd] in H1, H2, H3;
      destruct o; cbn [r_state r_events r_out fst snd app];
      (split; [exact H1 |]);
      (split;
       [ repeat (constructor; [exact I |]);
         first [ exact H2
               | apply gets_with_app; [exact H2 | now repeat constructor] ]
       |]);
      eexists _, _;
      (split; [reflexivity |]);
      (split; [apply is_prefix_refl |]);
      (split;
       [ cbn [requests]; rewrite ?requests_app; cbn [requests];
         rewrite ?app_nil_r; exact H3
       | reflexivity ])
  end.

Lemma sat_get_workflows :
  sat config h get_workflows
    (eq [String.append api_url (workflow_url ow rp pp)]).
Proof.
  intros rs [g w] [Hc Hh]. cbn [fst snd] in *.
  assert (Hc' : config (set_page 1 (set_current_action "workflow" g)))
    by exact Hc.
  destruct (paginating_follows
              (String.append api_url (workflow_url ow rp pp))
              (Some "workflows") rs _ w 1 Hc' Hh eq_refl) as (H1 & H2 & H3).
  destruct Hc as (<- & <- & <- & Ht).
  unfold get_workflows. cbv [bind_req lift modify_self get_self log emit].
  cbn [fst snd owner repo per_page set_page set_current_action].
  finish_fetch H1 H2 H3.
Qed.

Lemma sat_get_artifacts :
  sat config h get_artifacts
    (eq [String.append api_url (artifact_url ow rp pp)]).
Proof.
  intros rs [g w] [Hc Hh]. cbn [fst snd] in *.
  assert (Hc' : config (set_page 1 (set_current_action "artifact" g)))
    by exact Hc.
  destruct (paginating_follows
              (String.append api_url (artifact_url ow rp pp))
              (Some "artifacts") rs _ w 1 Hc' Hh eq_refl) as (H1 & H2 & H3).
  destruct Hc as (<- & <- & <- & Ht).
  unfold get_artifacts. cbv [bind_req lift modify_self get_self log emit].
  cbn [fst snd owner repo per_page set_page set_current_action].
  finish_fetch H1 H2 H3.
Qed.

Lemma sat_get_runs :
  sat config h get_runs (eq [String.append api_url (run_url ow rp pp)]).
Proof.
  intros rs [g w] [Hc Hh]. cbn [fst snd] in *.
  assert (Hc' : config (set_page 1 (set_current_action "run" g)))
    by exact Hc.
  destruct (paginating_follows
              (String.append api_url (run_url ow rp pp))
              (Some "workflow_runs") rs _ w 1 Hc' Hh eq_refl)
    as (H1 & H2 & H3).
  destruct Hc as (<- & <- & <- & Ht).
  unfold get_runs. cbv [bind_req lift modify_self get_self log emit].
  cbn [fst snd owner repo per_page set_page set_current_action].
  finish_fetch H1 H2 H3.
Qed.

(** The URL a job fetch starts from. *)
Definition job_base (run_id : option Z) : string :=
  String.append api_url
    (job_url ow rp (match run_id with Some r => r | None => 0 end) pp).

Lemma sat_get_jobs (run_id : option Z) :
  sat config h (get_jobs run_id) (eq [job_base run_id]).
Proof.
  intros rs [g w] [Hc Hh]. cbn [fst snd] in *.
  assert (Hstop : forall r : outcome unit * state (GitHub S) S
                               * list exchange * list event,
             r = (Exits 1, (g, w), rs,
                  [Log ERROR
                     "Please make to sure to pass the owner, repo name, and run id."
                     []]) ->
             ok_state config h (r_state r) /\ gets_with h (r_events r)
             /\ exists done plan,
                  [job_base run_id] = plan /\ is_prefix done plan
                  /\ follows done (requests (r_events r))
                  /\ (forall a, r_out r = Returns a -> done = plan)).
  { intros r ->. cbn. split; [now split |].
    split; [now repeat constructor |].
    exists [], [job_base run_id].
    split; [reflexivity |]. split; [apply is_prefix_nil |].
    split; [constructor | discriminate]. }
  destruct run_id as [r |]; [| now apply Hstop].
  unfold get_jobs. destruct (r =? 0); [now apply Hstop |].
  assert (Hc' : config (set_page 1 (set_current_action "job" g)))
    by exact Hc.
  destruct (paginating_follows
              (String.append api_url (job_url ow rp r pp))
              (Some "jobs") rs _ w 1 Hc' Hh eq_refl) as (H1 & H2 & H3).
  destruct Hc as (Ho & Hr & Hp & Ht).
  cbv [bind_req lift modify_self get_self log emit].
  cbn [fst snd owner repo per_page set_page set_current_action].
  unfold job_base. rewrite Ho, Hr, Hp.
  finish_fetch H1 H2 H3.
Qed.

Definition user_url : string := String.append api_url "user".

Lemma sat_authenticate_user :
  sat config h authenticate_user (eq [user_url]).
Proof.
  intros rs [g w] [Hc Hh]. cbn [fst snd] in *.
  unfold authenticate_user.
  cbv [bind_req lift modify_self get_world requests_get log emit ret_req].
  cbn [fst snd]. rewrite Hh.
  assert (Hf : follows [user_url] [user_url]).
  { apply follows_one; [discriminate |].
    constructor; [apply starts_with_refl | constructor]. }
  destruct rs as [| x rs]; cbn.
  - split; [now split |]. split; [now repeat constructor |].
    exists [user_url], [user_url].
    auto using is_prefix_refl.
  - destruct (status_code (reply x) =? 401); cbn;
      (split; [now split |]); (split; [now repeat constructor |]);
      exists [user_url], [user_url]; auto using is_prefix_refl.
Qed.

(** The plan of the token check: one request when a token is set. *)
Definition verify_plan : list string :=
  match tok with Some _ => [user_url] | None => [] end.

Lemma sat_verify_token : sat config h verify_token (eq verify_plan).
Proof.
  unfold verify_token. apply sat_self. intros g (_ & _ & _ & Ht).
  unfold verify_plan. rewrite Ht. destruct tok as [t |].
  - apply (sat_weaken _ _ _ _ _ (app_set (eq [user_url]) (eq []))).
    + apply sat_bind; [apply sat_authenticate_user | | now exists []].
      intros ok. destruct ok; cbn.
      * apply sat_ret.
      * apply sat_lift, silent_exit.
    + now intros p (p1 & p2 & <- & <- & ->).
  - apply sat_lift, silent_log.
Qed.

(** The plan of [run] up to the run fetch, and with a job fetch per run id. *)
Definition front_plan : list string :=
  verify_plan
  ++ [String.append api_url (workflow_url ow rp pp);
      String.append api_url (artifact_url ow rp pp);
      String.append api_url (run_url ow rp pp)].

Definition run_plan (run_ids : list (option Z)) : list string :=
  front_plan ++ map job_base run_ids.

Lemma silent_finishing : silent (GitHub S) S config h (__finishing_message S).
Proof.
  unfold __finishing_message.
  apply silent_bind; [apply silent_get_self |]. intros g.
  repeat (apply silent_bind; [apply silent_log | intros _]).
  apply silent_log.
Qed.

Ltac inhabit s0 :=
  unfold app_set;
  repeat first [ reflexivity | exists s0 | eexists | split ].

(** [run] after the token check. *)
Definition after_token (runs_object : option (S -> list (option Z)))
  : Req (GitHub S) S unit :=
  (get_workflows ;;
   get_artifacts ;;
   get_runs ;;
   match runs_object with
   | None =>
       lift (log ERROR "Run object is not passed" []) ;;
       lift (log ERROR "Run object is needed to get Jobs" []) ;;
       lift (__finishing_message S) ;;
       lift (sys_exit 1)
   | Some objects =>
       lift (log DEBUG "Collecting run ids" []) ;;
       w <- lift get_world ;;
       let run_ids := objects (sink_state w) in
       lift (log DEBUG "Start fetching jobs" []) ;;
       for_each run_ids get_jobs ;;
       lift (log DEBUG "Finish fetching jobs" []) ;;
       lift (__finishing_message S)
   end)%req.

Lemma run_after_token runs_object :
  run runs_object = (verify_token ;; after_token runs_object)%req.
Proof. reflexivity. Qed.

Definition fetch_plan : list string :=
  [String.append api_url (workflow_url ow rp pp);
   String.append api_url (artifact_url ow rp pp);
   String.append api_url (run_url ow rp pp)].

Lemma sat_after_token_some (objects : S -> list (option Z)) (s0 : S) :
  sat config h (after_token (Some objects))
    (fun p => exists s, p = fetch_plan ++ map job_base (objects s)).
Proof.
  unfold after_token.
  apply (sat_weaken _ _ _ _ _
           (app_set (eq [String.append api_url (workflow_url ow rp pp)])
              (app_set (eq [String.append api_url (artifact_url ow rp pp)])
                 (app_set (eq [String.append api_url (run_url ow rp pp)])
                    (fun p => exists s, p = map job_base (objects s)))))).
  - apply sat_bind; [apply sat_get_workflows | intros _ | inhabit s0].
    apply sat_bind; [apply sat_get_artifacts | intros _ | inhabit s0].
    apply sat_bind; [apply sat_get_runs | intros _ | inhabit s0].
    apply sat_after; [apply silent_log | intros _ | inhabit s0].
    apply (sat_world _ _ _ _ _
             (fun s p => p = map job_base (objects s))).
    intros w Hw.
    apply sat_after; [apply silent_log | intros _ | inhabit s0].
    apply (sat_weaken _ _ _ _ _
             (app_set (eq (map job_base (objects (sink_state w))))
                (eq []))).
    + apply sat_bind; [| intros _ | inhabit s0].
      * apply sat_for_each. apply sat_get_jobs.
      * apply sat_after; [apply silent_log | intros _ | inhabit s0].
        apply sat_lift, silent_finishing.
    + intros p (p1 & p2 & <- & <- & ->). now rewrite app_nil_r.
  - intros p (p2 & q2 & <- & (p3 & q3 & <- &
              (p4 & q4 & <- & [s ->] & ->) & ->) & ->).
    now exists s.
Qed.

Lemma sat_after_token_none : sat config h (after_token None) (eq fetch_plan).
Proof.
  unfold after_token.
  apply (sat_weaken _ _ _ _ _
           (app_set (eq [String.append api_url (workflow_url ow rp pp)])
              (app_set (eq [String.append api_url (artifact_url ow rp pp)])
                 (app_set (eq [String.append api_url (run_url ow rp pp)])
                    (eq []))))).
  - apply sat_bind; [apply sat_get_workflows | intros _ | inhabit tt].
    apply sat_bind; [apply sat_get_artifacts | intros _ | inhabit tt].
    apply sat_bind; [apply sat_get_runs | intros _ | inhabit tt].
    repeat (apply sat_after;
            [first [apply silent_log | apply silent_finishing]
            | intros _ | inhabit tt]).
    apply sat_lift, silent_exit.
  - now intros p (p2 & q2 & <- & (p3 & q3 & <- &
                   (p4 & q4 & <- & <- & ->) & ->) & ->).
Qed.

Lemma sat_run_some (objects : S -> list (option Z)) (s0 : S) :
  sat config h (run (Some objects))
    (fun p => exists s, p = run_plan (objects s)).
Proof.
  rewrite run_after_token.
  apply (sat_weaken _ _ _ _ _
           (app_set (eq verify_plan)
              (fun p => exists s, p = fetch_plan ++ map job_base (objects s)))).
  - apply sat_bind; [apply sat_verify_token | intros _ | inhabit s0].
    now apply sat_after_token_some.
  - intros p (p1 & q1 & <- & [s ->] & ->). exists s.
    unfold run_plan, front_plan, fetch_plan. now rewrite <- app_assoc.
Qed.

Lemma sat_run_none : sat config h (run None) (eq front_plan).
Proof.
  rewrite run_after_token.
  apply (sat_weaken _ _ _ _ _ (app_set (eq verify_plan) (eq fetch_plan))).
  - apply sat_bind; [apply sat_verify_token | intros _ | inhabit tt].
    apply sat_after_token_none.
  - now intros p (p1 & q1 & <- & <- & ->).
Qed.

(** [run] without a run-id source never returns; when the token check and
    the three fetches return, it logs the error and exits with status 1. *)
Lemma run_none_aborts (rs : list exchange) (st : state (GitHub S) S) :
  (forall a, r_out (run None rs st) <> Returns a)
  /\ (forall st1 rs1 ev1,
        (verify_token ;; get_workflows ;; get_artifacts ;; get_runs)%req
          rs st = (Returns tt, st1, rs1, ev1) ->
        run None rs st
        = (Exits 1, st1, rs1,
           ev1 ++ [Log ERROR "Run object is not passed" [];
                   Log ERROR "Run object is needed to get Jobs" [];
                   Log DEBUG "Number of requests: {}"
                     [JInt (total_requests (fst st1))];
                   Log DEBUG "Number of stopping: {}"
                     [JInt (limit_handler_counter (fst st1))];
                   Log DEBUG "Finished fetching actions." []])).
Proof.
  unfold run. cbv [bind_req].
  destruct (verify_token rs st) as [[[[[] | e | c |] st1] rs1] ev1];
    [| split; intros; discriminate ..].
  destruct (get_workflows rs1 st1) as [[[[[] | e | c |] st2] rs2] ev2];
    [| split; intros; discriminate ..].
  destruct (get_artifacts rs2 st2) as [[[[[] | e | c |] st3] rs3] ev3];
    [| split; intros; discriminate ..].
  destruct (get_runs rs3 st3) as [[[[[] | e | c |] st4] rs4] ev4];
    [| split; intros; discriminate ..].
  cbn. split; [discriminate |].
  intros st5 rs5 ev5 [= <- <- <-]. now rewrite <- !app_assoc.
Qed.

(** ** The token check *)

Definition repos_url : string := String.append api_url "repos/".

Lemma user_url_not_repos : ~ starts_with repos_url user_url.
Proof.
  intros [t Ht]. unfold user_url, repos_url in Ht.
  rewrite append_assoc in Ht. apply append_inv_l in Ht. discriminate.
Qed.

Lemma fetch_plan_repos : Forall (starts_with repos_url) fetch_plan.
Proof. repeat constructor; eexists; reflexivity. Qed.

Lemma job_base_repos (run_ids : list (option Z)) :
  Forall (starts_with repos_url) (map job_base run_ids).
Proof.
  induction run_ids; simpl; constructor; auto. eexists; reflexivity.
Qed.

(** Whatever follows the token check requests URLs under [repos/] only. *)
Lemma after_token_requests runs_object (rs : list exchange)
    (st : state (GitHub S) S) :
  ok_state config h st ->
  Forall (starts_with repos_url)
    (requests (r_events (after_token runs_object rs st))).
Proof.
  intros Hst. destruct runs_object as [objects |].
  - destruct (sat_after_token_some objects (sink_state (snd st)) rs st Hst)
      as (_ & _ & done & plan & [s ->] & Hpre & Hf & _).
    eapply follows_common; [exact Hf |].
    eapply is_prefix_Forall; [exact Hpre |].
    apply Forall_app. split; [apply fetch_plan_repos | apply job_base_repos].
  - destruct (sat_after_token_none rs st Hst)
      as (_ & _ & done & plan & <- & Hpre & Hf & _).
    eapply follows_common; [exact Hf |].
    eapply is_prefix_Forall; [exact Hpre | apply fetch_plan_repos].
Qed.

(** The workflow fetch begins with its log line and the request of
    page 1. *)
Lemma get_workflows_starts (rs : list exchange) (g : GitHub S)
    (w : world S) :
  exists ev',
    r_events (get_workflows rs (g, w))
    = Log DEBUG "Start fetching workflows" []
      :: Get (String.append
                (String.append api_url
                   (workflow_url (owner g) (repo g) (per_page g)))
                (page_suffix 1))
           (__headers w)
      :: ev'.
Proof.
  unfold get_workflows. cbv [bind_req lift modify_self get_self log emit].
  cbn [fst snd owner repo per_page set_page set_current_action].
  unfold paginating.
  destruct rs as [| x rs]; cbn [paginating_loop];
    rewrite (send_ok S _ (set_page 1 (set_current_action "workflow" g)) w 1
               eq_refl).
  - cbn. eexists; reflexivity.
  - destruct (paginating_receive _ _ x _) as [[[[u |] | e | c |] st2] ev2].
    + destruct (paginating_loop _ rs u st2) as [[[[[] | e | c |] st3] rs3] ev3];
        cbn; eexists; reflexivity.
    + cbn; eexists; reflexivity.
    + cbn; eexists; reflexivity.
    + cbn; eexists; reflexivity.
    + cbn; eexists; reflexivity.
Qed.

Lemma after_token_starts runs_object (rs : list exchange) (g : GitHub S)
    (w : world S) :
  exists ev',
    r_events (after_token runs_object rs (g, w))
    = Log DEBUG "Start fetching workflows" []
      :: Get (String.append
                (String.append api_url
                   (workflow_url (owner g) (repo g) (per_page g)))
                (page_suffix 1))
           (__headers w)
      :: ev'.
Proof.
  destruct (get_workflows_starts rs g w) as [ev' He].
  unfold after_token.
  match goal with
  | |- context [bind_req get_workflows ?k] =>
      destruct (bind_req_events _ _ get_workflows k rs (g, w)) as [ev'' ->]
  end.
  rewrite He. cbn. eexists; reflexivity.
Qed.

Lemma verify_token_401 (x : exchange) (rs : list exchange) (g : GitHub S)
    (w : world S) (t : string) :
  nonempty (__token g) = Some t ->
  status_code (reply x) = 401 ->
  verify_token (x :: rs) (g, w)
  = (Exits 1, (set_total_requests (total_requests g + 1) g, w), rs,
     [Get user_url (__headers w);
      Log ERROR "Error authenticated using token" [];
      Log ERROR "Authentication status_code:" [JInt 401];
      Log ERROR "{}" [JStr (reason (reply x))];
      Log ERROR "{}" [JStr user_url]]).
Proof.
  intros Ht Hs. unfold verify_token, authenticate_user.
  cbv [bind_req lift get_self get_world requests_get modify_self log emit
       ret_req sys_exit].
  cbn [fst snd]. rewrite Ht, Hs. reflexivity.
Qed.

Lemma verify_token_passes (x : exchange) (rs : list exchange)
    (g : GitHub S) (w : world S) (t : string) :
  nonempty (__token g) = Some t ->
  status_code (reply x) <> 401 ->
  verify_token (x :: rs) (g, w)
  = (Returns tt, (set_total_requests (total_requests g + 1) g, w), rs,
     [Get user_url (__headers w);
      Log DEBUG "Successfully authenticated using token" []]).
Proof.
  intros Ht Hs. unfold verify_token, authenticate_user.
  cbv [bind_req lift get_self get_world requests_get modify_self log emit
       ret_req sys_exit].
  cbn [fst snd]. rewrite Ht.
  destruct (Z.eqb_spec (status_code (reply x)) 401); [contradiction |].
  reflexivity.
Qed.

End Run.

End SHARKFacts.

(* ================================================================== *)
(** * The fetcher of [src/actionshark/github.py] *)
(* ================================================================== *)

Module sharkFacts.
Import Py Datetime Http Effects Traces TraceFacts.
Import shark_github.

Section Loop.

Variable S : Type.

Definition same_config_lc (g g' : GitHub S) : Prop :=
  owner g' = owner g /\ repo g' = repo g /\ per_page g' = per_page g
  /\ __token g' = __token g /\ save_mongo g' = save_mongo g.

Lemma same_config_lc_refl g : same_config_lc g g.
Proof. repeat split. Qed.

Lemma same_config_lc_trans g1 g2 g3 :
  same_config_lc g1 g2 -> same_config_lc g2 g3 -> same_config_lc g1 g3.
Proof.
  unfold same_config_lc.
  intros (A1 & A2 & A3 & A4 & A5) (B1 & B2 & B3 & B4 & B5).
  repeat split; congruence.
Qed.

Lemma send_ok_lc (url : string) (g : GitHub S) (w : world S) :
  paginating_send url (g, w)
  = (Returns (String.append url (page_suffix (page g))), (g, w),
     [Get (String.append url (page_suffix (page g))) (__headers w)]).
Proof. reflexivity. Qed.

(** A rate-limit response whose headers read as [reset] and [date], on a
    platform that gives the local time [reset_time] of the reset, more than
    an hour before the end of year 9999: the process sleeps, and the call
    of [get_limit] raises. *)
Lemma receive_403_lc (checker : option string) (url : string) (x : exchange)
    (g : GitHub S) (w : world S) (reset reset_time : Z) (v : string)
    (date : datetime) :
  status_code (reply x) = 403 ->
  rate_limit_reset (reply x) = Ok reset ->
  localtime w reset = Ok reset_time ->
  reset_time + 3600 <= max_seconds ->
  header_get "Date" (headers (reply x)) = Some v ->
  strptime v "%a, %d %b %Y %H:%M:%S %Z" = Ok date ->
  paginating_receive checker url x (g, w)
  = (Raises AttributeError,
     (set_limit_handler_counter (limit_handler_counter g + 1)
        (set_total_requests (total_requests g + 1) g), w),
     [Log DEBUG "Limit handler is triggered" [];
      Log DEBUG "Program will sleep for approximately {} seconds."
        [JInt (timedelta_seconds (to_seconds date) reset_time)];
      Log DEBUG "Next Restart will be on {}" [JInt (reset_time + 3600)];
      Sleep (timedelta_seconds (to_seconds date) reset_time)]).
Proof.
  intros Hs Hr Hl Hmax Hd Hp. unfold paginating_receive.
  cbv [bind_act modify_self]. cbn [fst snd]. rewrite Hs.
  cbn [Z.eqb Pos.eqb negb andb]. cbv [bind_act eval]. rewrite Hr.
  cbv [ret_act get_world]. cbn [fst snd]. rewrite Hl, Hd, Hp.
  unfold plus_one_hour.
  destruct (Z.leb_spec (reset_time + 3600) max_seconds); [| lia].
  reflexivity.
Qed.

(** A page of items: they are handed to the sink; a short page ends the
    loop, a full one moves to the next page. *)
Lemma receive_items_lc (checker : option string) (url : string)
    (x : exchange) (g : GitHub S) (w : world S) (body items : json) (n : Z)
    (s' : S) :
  status_code (reply x) = 200 ->
  content (reply x) = Some body ->
  items_of checker body = Ok items ->
  py_len items = Ok n ->
  truthy items = true ->
  save_mongo g items (current_action g) (sink_state w) = (Ok tt, s') ->
  paginating_receive checker url x (g, w)
  = if n <? per_page g
    then (Returns None,
          (set_total_requests (total_requests g + 1) g, set_sink_state s' w),
          [SaveMongo items (current_action g)])
    else (Returns
            (Some (drop_last (String.length (page_suffix (page g))) url)),
          (set_total_requests (total_requests g + 1 + 1)
             (set_page (page g + 1) g),
           set_sink_state s' w),
          [SaveMongo items (current_action g)]).
Proof.
  intros Hs Hc Hi Hn Ht Hk. unfold paginating_receive.
  cbv [bind_act modify_self]. cbn [fst snd]. rewrite Hs.
  cbn [Z.eqb Pos.eqb negb andb]. unfold response_json. rewrite Hc.
  cbv [bind_act eval ret_act]. rewrite Hi. cbv [ret_act raise].
  rewrite Hn. cbv [ret_act]. rewrite Ht. cbn [negb].
  cbv [get_self call_sink]. cbn [fst snd save_mongo current_action
    set_total_requests sink_state page per_page].
  rewrite Hk. cbv [modify_self]. cbn [fst snd].
  destruct (n <? per_page g); reflexivity.
Qed.

Lemma receive_empty_lc (checker : option string) (url : string)
    (x : exchange) (g : GitHub S) (w : world S) (body items : json)
    (n : Z) :
  status_code (reply x) = 200 ->
  content (reply x) = Some body ->
  items_of checker body = Ok items ->
  py_len items = Ok n ->
  truthy items = false ->
  paginating_receive checker url x (g, w)
  = (Returns None, (set_total_requests (total_requests g + 1) g, w), []).
Proof.
  intros Hs Hc Hi Hn Ht. unfold paginating_receive.
  cbv [bind_act modify_self]. cbn [fst snd]. rewrite Hs.
  cbn [Z.eqb Pos.eqb negb andb]. unfold response_json. rewrite Hc.
  cbv [bind_act eval ret_act]. rewrite Hi. cbv [ret_act raise].
  rewrite Hn. cbv [ret_act]. rewrite Ht. reflexivity.
Qed.

Ltac leaf_lc :=
  intros [= <- <- <- <-];
  split; [repeat split |];
  split; [reflexivity |];
  split; [repeat constructor |];
  let u := fresh "u" in
  let Hu := fresh "Hu" in
  intros u Hu; try discriminate;
  injection Hu as <-; reflexivity.

Lemma receive_inv_lc (checker : option string) (url1 : string)
    (x : exchange) (g : GitHub S) (w : world S) :
  forall o g' w' ev,
    paginating_receive checker url1 x (g, w) = (o, (g', w'), ev) ->
    same_config_lc g g'
    /\ __headers w' = __headers w /\ quiet ev
    /\ forall u, o = Returns (Some u) ->
         u = drop_last (String.length (page_suffix (page g))) url1.
Proof.
  intros o g' w' ev. unfold paginating_receive.
  cbv [bind_act modify_self]. cbn [fst snd].
  destruct (negb (status_code (reply x) =? 200)
            && negb (status_code (reply x) =? 403)) eqn:Hbad.
  { cbn. leaf_lc. }
  destruct (status_code (reply x) =? 403) eqn:H403.
  { cbv [bind_act eval]. destruct (rate_limit_reset (reply x)) as [reset |];
      cbn; [| leaf_lc].
    destruct (localtime w reset) as [reset_time |]; cbn; [| leaf_lc].
    destruct (match header_get "Date" (headers (reply x)) with
              | Some v => strptime v "%a, %d %b %Y %H:%M:%S %Z"
              | None => Err TypeError
              end); cbn; [| leaf_lc].
    destruct (plus_one_hour reset_time); cbn; leaf_lc. }
  cbv [bind_act eval]. destruct (response_json (reply x)) as [body |]; cbn;
    [| leaf_lc].
  destruct (items_of checker body) as [items |]; cbn; [| leaf_lc].
  destruct (py_len items) as [n |]; cbn; [| leaf_lc].
  destruct (truthy items); cbn; [| leaf_lc].
  cbv [call_sink]. cbn [fst snd].
  destruct (save_mongo g items (current_action g) (sink_state w))
    as [[[] | e] s']; cbn; [| leaf_lc].
  destruct (n <? per_page g); cbn; leaf_lc.
Qed.

Lemma loop_spec_lc (checker : option string) (base : string) :
  forall rs url g w,
    starts_with base url ->
    forall o g' w' rs' ev,
      paginating_loop checker rs url (g, w) = (o, (g', w'), rs', ev) ->
      same_config_lc g g'
      /\ __headers w' = __headers w
      /\ gets_with (__headers w) ev
      /\ requests ev <> []
      /\ Forall (starts_with base) (requests ev).
Proof.
  induction rs as [| x rs IH]; intros url g w Hb o g' w' rs' ev;
    cbn [paginating_loop]; rewrite (send_ok_lc url g w).
  - intros [= <- <- <- <- <-]. cbn.
    split; [apply same_config_lc_refl |].
    split; [reflexivity |]. split; [now repeat constructor |].
    split; [discriminate |].
    constructor; [now apply starts_with_append | constructor].
  - destruct (paginating_receive checker
                (String.append url (page_suffix (page g)))
                x (g, w)) as [[o2 [g2 w2]] ev2] eqn:E2.
    destruct (receive_inv_lc _ _ _ _ _ _ _ _ _ E2)
      as (Hc & Hh & Hquiet & Hu).
    assert (Hhead : forall ev3,
               requests (Get (String.append url (page_suffix (page g)))
                           (__headers w) :: ev2 ++ ev3)
               = String.append url (page_suffix (page g)) :: requests ev3).
    { intros ev3. cbn. now rewrite requests_app, (quiet_requests _ Hquiet). }
    assert (Hg : forall ev3, gets_with (__headers w) ev3 ->
               gets_with (__headers w)
                 (Get (String.append url (page_suffix (page g)))
                    (__headers w) :: ev2 ++ ev3)).
    { intros ev3 H3. constructor; [reflexivity |].
      apply gets_with_app; [now apply quiet_gets_with | assumption]. }
    assert (Hhead0 :
               requests (Get (String.append url (page_suffix (page g)))
                           (__headers w) :: ev2)
               = [String.append url (page_suffix (page g))]).
    { cbn. now rewrite (quiet_requests _ Hquiet). }
    assert (Hg0 : gets_with (__headers w)
                    (Get (String.append url (page_suffix (page g)))
                       (__headers w) :: ev2)).
    { constructor; [reflexivity | now apply quiet_gets_with]. }
    destruct o2 as [[u |] | e | c |].
    1: { destruct (paginating_loop checker rs u (g2, w2))
           as [[[o3 [g3 w3]] rs3] ev3] eqn:E3.
         intros [= <- <- <- <- <-].
         assert (Hbu : starts_with base u).
         { rewrite (Hu u eq_refl). now rewrite drop_last_page. }
         destruct (IH u g2 w2 Hbu _ _ _ _ _ E3)
           as (Hc3 & Hh3 & Hg3 & Hne3 & Hall3).
         rewrite Hhead.
         split; [eapply same_config_lc_trans; eauto |].
         split; [congruence |].
         split; [apply Hg; now rewrite <- Hh |].
         split; [discriminate |].
         constructor; [now apply starts_with_append | assumption]. }
    all: intros [= <- <- <- <- <-]; cbn [app]; rewrite Hhead0;
      (split; [assumption |]); (split; [assumption |]);
      (split; [assumption |]); (split; [discriminate |]);
      constructor; [now apply starts_with_append | constructor].
Qed.

Lemma loop_starts_lc (checker : option string) (rs : list exchange)
    (url : string) (g : GitHub S) (w : world S) :
  exists o st' rs' ev',
    paginating_loop checker rs url (g, w)
    = (o, st', rs',
       Get (String.append url (page_suffix (page g))) (__headers w) :: ev').
Proof.
  destruct rs as [| x rs]; cbn [paginating_loop];
    rewrite (send_ok_lc url g w).
  - now eexists _, _, _, _.
  - destruct (paginating_receive _ _ x _) as [[[[u |] | e | c |] st2] ev2].
    + destruct (paginating_loop _ rs u st2) as [[[o3 st3] rs3] ev3].
      now eexists _, _, _, _.
    + now eexists _, _, _, _.
    + now eexists _, _, _, _.
    + now eexists _, _, _, _.
    + now eexists _, _, _, _.
Qed.

(** A rate-limit response ends the loop with an [AttributeError] after the
    sleep: no request follows. *)
Lemma loop_raises_after_403_lc (checker : option string) (x : exchange)
    (rs : list exchange) (url : string) (g : GitHub S) (w : world S)
    (reset reset_time : Z) (v : string) (date : datetime) :
  status_code (reply x) = 403 ->
  rate_limit_reset (reply x) = Ok reset ->
  localtime w reset = Ok reset_time ->
  reset_time + 3600 <= max_seconds ->
  header_get "Date" (headers (reply x)) = Some v ->
  strptime v "%a, %d %b %Y %H:%M:%S %Z" = Ok date ->
  r_out (paginating_loop checker (x :: rs) url (g, w)) = Raises AttributeError
  /\ requests (r_events (paginating_loop checker (x :: rs) url (g, w)))
     = [String.append url (page_suffix (page g))]
  /\ sleeps (r_events (paginating_loop checker (x :: rs) url (g, w)))
     = [timedelta_seconds (to_seconds date) reset_time].
Proof.
  intros Hs Hr Hl Hmax Hd Hp. cbn [paginating_loop].
  rewrite (send_ok_lc url g w).
  rewrite (receive_403_lc checker _ x g w reset reset_time v date
             Hs Hr Hl Hmax Hd Hp).
  repeat split.
Qed.

End Loop.

Section Run.

Variable S : Type.
Variables (ow rp : string) (pp : Z) (tok : option string).
Variable h : list (string * string).

Definition config_lc (g : GitHub S) : Prop :=
  owner g = ow /\ repo g = rp /\ per_page g = pp
  /\ nonempty (__token g) = tok.

Lemma config_lc_same (g g' : GitHub S) :
  same_config_lc S g g' -> config_lc g -> config_lc g'.
Proof.
  unfold same_config_lc, config_lc.
  intros (A1 & A2 & A3 & A4 & A5) (B1 & B2 & B3 & B4).
  repeat split; congruence.
Qed.

Lemma paginating_follows_lc (url : string) (checker : option string)
    (rs : list exchange) (g : GitHub S) (w : world S) :
  config_lc g -> __headers w = h ->
  ok_state config_lc h (r_state (paginating url checker rs (g, w)))
  /\ gets_with h (r_events (paginating url checker rs (g, w)))
  /\ follows [url] (requests (r_events (paginating url checker rs (g, w)))).
Proof.
  intros Hc Hh. unfold paginating.
  destruct (paginating_loop checker rs url (g, w))
    as [[[o [g' w']] rs'] ev] eqn:E.
  destruct (loop_spec_lc S checker url rs url g w (starts_with_refl url)
              _ _ _ _ _ E) as (H1 & H3 & H4 & H5 & H6).
  cbn. split; [split; cbn; [eapply config_lc_same; eauto | congruence] |].
  split; [now rewrite <- Hh |]. now apply follows_one.
Qed.

Ltac finish_fetch_lc H1 H2 H3 :=
  match goal with
  | |- context [paginating ?u ?c ?rs ?st] =>
      let o := fresh "o" in
      destruct (paginating u c rs st) as [[[o ?] ?] ?];
      cbn [r_state r_events r_out fst snd] in H1, H2, H3;
      destruct o; cbn [r_state r_events r_out fst snd app];
      (split; [exact H1 |]);
      (split;
       [ repeat (constructor; [exact I |]);
         first [ exact H2
               | apply gets_with_app; [exact H2 | now repeat constructor] ]
       |]);
      eexists _, _;
      (split; [reflexivity |]);
      (split; [apply is_prefix_refl |]);
      (split;
       [ cbn [requests]; rewrite ?requests_app; cbn [requests];
         rewrite ?app_nil_r; exact H3
       | reflexivity ])
  end.

Definition workflows_base : string :=
  String.append api_url (workflows_url ow rp pp).

Definition runs_base : string :=
  String.append api_url
    (String.append (runs_url ow rp pp) "&exclude_pull_requests=False").

Definition jobs_base (run_id : run_ref) : string :=
  String.append api_url (jobs_url ow rp run_id pp).

Definition artifacts_base (run_id : run_ref) : string :=
  String.append api_url (artifacts_url ow rp run_id pp).

Lemma sat_get_workflows_lc :
  sat config_lc h get_workflows (eq [workflows_base]).
Proof.
  intros rs [g w] [Hc Hh]. cbn [fst snd] in *.
  assert (Hc' : config_lc (set_page 1 (set_current_action "workflows" g)))
    by exact Hc.
  destruct (paginating_follows_lc workflows_base
              (Some "workflows") rs _ w Hc' Hh) as (H1 & H2 & H3).
  destruct Hc as (Ho & Hr & Hp & Ht).
  unfold get_workflows. cbv [bind_req lift modify_self get_self log emit].
  cbn [fst snd owner repo per_page set_page set_current_action].
  unfold workflows_base in *. rewrite Ho, Hr, Hp.
  finish_fetch_lc H1 H2 H3.
Qed.

Lemma sat_get_runs_lc : sat config_lc h get_runs (eq [runs_base]).
Proof.
  intros rs [g w] [Hc Hh]. cbn [fst snd] in *.
  assert (Hc' : config_lc (set_page 1 (set_current_action "runs" g)))
    by exact Hc.
  destruct (paginating_follows_lc runs_base
              (Some "workflow_runs") rs _ w Hc' Hh) as (H1 & H2 & H3).
  destruct Hc as (Ho & Hr & Hp & Ht).
  unfold get_runs. cbv [bind_req lift modify_self get_self log emit].
  cbn [fst snd owner repo per_page set_page set_current_action].
  unfold runs_base in *. rewrite Ho, Hr, Hp.
  finish_fetch_lc H1 H2 H3.
Qed.

Lemma sat_get_jobs_lc (run_id : run_ref) :
  sat config_lc h (get_jobs run_id) (eq [jobs_base run_id]).
Proof.
  intros rs [g w] [Hc Hh]. cbn [fst snd] in *.
  unfold get_jobs. destruct (negb (ref_truthy run_id)).
  - cbn. split; [now split |]. split; [now repeat constructor |].
    exists [], [jobs_base run_id].
    split; [reflexivity |]. split; [apply is_prefix_nil |].
    split; [constructor | discriminate].
  - assert (Hc' : config_lc (set_page 1 (set_current_action "jobs" g)))
      by exact Hc.
    destruct (paginating_follows_lc (jobs_base run_id)
                (Some "jobs") rs _ w Hc' Hh) as (H1 & H2 & H3).
    destruct Hc as (Ho & Hr & Hp & Ht).
    cbv [bind_req lift modify_self get_self log emit].
    cbn [fst snd owner repo per_page set_page set_current_action].
    unfold jobs_base in *. rewrite Ho, Hr, Hp.
    finish_fetch_lc H1 H2 H3.
Qed.

Lemma sat_get_artifacts_lc (run_id : run_ref) :
  sat config_lc h (get_artifacts run_id) (eq [artifacts_base run_id]).
Proof.
  intros rs [g w] [Hc Hh]. cbn [fst snd] in *.
  unfold get_artifacts. destruct (negb (ref_truthy run_id)).
  - cbn. split; [now split |]. split; [now repeat constructor |].
    exists [], [artifacts_base run_id].
    split; [reflexivity |]. split; [apply is_prefix_nil |].
    split; [constructor | discriminate].
  - assert (Hc' : config_lc (set_page 1 (set_current_action "artifacts" g)))
      by exact Hc.
    destruct (paginating_follows_lc (artifacts_base run_id)
                (Some "artifacts") rs _ w Hc' Hh) as (H1 & H2 & H3).
    destruct Hc as (Ho & Hr & Hp & Ht).
    cbv [bind_req lift modify_self get_self log emit].
    cbn [fst snd owner repo per_page set_page set_current_action].
    unfold artifacts_base in *. rewrite Ho, Hr, Hp.
    finish_fetch_lc H1 H2 H3.
Qed.

(** The token check sends nothing: it logs, or raises when a token is
    set. *)
Lemma sat_verify_token_lc : sat config_lc h verify_token (eq []).
Proof.
  unfold verify_token. apply sat_self. intros g _.
  destruct (nonempty (__token g)).
  - apply sat_lift, silent_raise.
  - apply sat_lift, silent_log.
Qed.

Definition front_plan_lc : list string := [workflows_base; runs_base].

(** The plan of [run] with the ids of the stored runs. *)
Definition run_plan_lc (ids : list string) : list string :=
  front_plan_lc
  ++ map jobs_base (map RefObjectId ids)
  ++ map artifacts_base (map RefObjectId ids).

Ltac inhabit_lc s0 :=
  unfold app_set;
  repeat first [ reflexivity | exists s0 | eexists | split ].

Lemma sat_run_some_lc (objects : S -> list string) (s0 : S) :
  sat config_lc h (run (Some objects))
    (fun p => exists s, p = run_plan_lc (objects s)).
Proof.
  unfold run.
  apply (sat_weaken _ _ _ _ _
           (app_set (eq [])
              (app_set (eq [workflows_base])
                 (app_set (eq [runs_base])
                    (fun p => exists s,
                         p = map jobs_base (map RefObjectId (objects s))
                             ++ map artifacts_base
                                  (map RefObjectId (objects s))))))).
  - apply sat_bind; [apply sat_verify_token_lc | intros _ | inhabit_lc s0].
    apply sat_bind; [apply sat_get_workflows_lc | intros _ | inhabit_lc s0].
    apply sat_bind; [apply sat_get_runs_lc | intros _ | inhabit_lc s0].
    apply sat_after; [apply silent_log | intros _ | inhabit_lc s0].
    apply (sat_world _ _ _ _ _
             (fun s p => p = map jobs_base (map RefObjectId (objects s))
                            ++ map artifacts_base
                                 (map RefObjectId (objects s)))).
    intros w Hw.
    apply sat_after; [apply silent_log | intros _ | inhabit_lc s0].
    apply (sat_weaken _ _ _ _ _
             (app_set
                (eq (map jobs_base (map RefObjectId (objects (sink_state w)))))
                (eq (map artifacts_base
                       (map RefObjectId (objects (sink_state w))))))).
    + apply sat_bind; [| intros _ | inhabit_lc s0].
      * apply sat_for_each. apply sat_get_jobs_lc.
      * apply sat_after; [apply silent_log | intros _ | inhabit_lc s0].
        apply sat_after; [apply silent_log | intros _ | inhabit_lc s0].
        apply sat_before; [| intros _; apply silent_log].
        apply sat_for_each. apply sat_get_artifacts_lc.
    + now intros p (p1 & p2 & <- & <- & ->).
  - intros p (p1 & q1 & <- & (p2 & q2 & <- & (p3 & q3 & <- &
              [s ->] & ->) & ->) & ->).
    now exists s.
Qed.

Lemma sat_run_none_lc : sat config_lc h (run None) (eq front_plan_lc).
Proof.
  unfold run.
  apply (sat_weaken _ _ _ _ _
           (app_set (eq [])
              (app_set (eq [workflows_base])
                 (app_set (eq [runs_base]) (eq []))))).
  - apply sat_bind; [apply sat_verify_token_lc | intros _ | inhabit_lc tt].
    apply sat_bind; [apply sat_get_workflows_lc | intros _ | inhabit_lc tt].
    apply sat_bind; [apply sat_get_runs_lc | intros _ | inhabit_lc tt].
    apply sat_ret.
  - now intros p (p1 & q1 & <- & (p2 & q2 & <- & (p3 & q3 & <- &
                   <- & ->) & ->) & ->).
Qed.

(** [run] without a run-id source is the token check and the two fetches:
    it returns when they do, with no error logged and no exit. *)
Lemma run_none_returns_lc (rs : list exchange) (st : state (GitHub S) S) :
  forall o st1 rs1 ev1,
    (verify_token ;; get_workflows ;; get_runs)%req rs st
    = (o, st1, rs1, ev1) ->
    run None rs st = (o, st1, rs1, ev1).
Proof.
  unfold run. cbv [bind_req ret_req].
  destruct (verify_token rs st) as [[[[[] | e | c |] st1] rs1] ev1];
    [| now intros ..].
  destruct (get_workflows rs1 st1) as [[[[[] | e | c |] st2] rs2] ev2];
    [| now intros ..].
  destruct (get_runs rs2 st2) as [[[[[] | e | c |] st3] rs3] ev3];
    [| now intros ..].
  intros o st4 rs4 ev4 [= <- <- <- <-]. now rewrite app_nil_r.
Qed.

End Run.

End sharkFacts.

(* ================================================================== *)
(** * The fetchers on the rate limit, on pages, and in [run] *)
(* ================================================================== *)

Module FetchFacts.
Import Py Datetime Http Effects Traces TraceFacts Inputs.

(** ** The rate limit *)

Lemma timedelta_seconds_shift (a b off : Z) :
  timedelta_seconds (a + off) (b + off) = (a - b) mod 86400.
Proof. unfold timedelta_seconds. f_equal. lia. Qed.

(** Within a day ahead, [(reset - now).seconds] is [reset - now]. *)
Lemma timedelta_seconds_small (a b : Z) :
  0 <= a - b < 86400 -> timedelta_seconds a b = a - b.
Proof. intros H. unfold timedelta_seconds. now apply Z.mod_small. Qed.

(** C1: a workflow fetch answered by a rate-limit response and then by an
    empty page.  [src/actionSHARK]: the second request is not the first one
    again, its URL carries the page twice.  [src/actionshark]: the fetch
    raises an [AttributeError] after the sleep and sends no second request.
    In both the page number stays 1 and nothing is handed to the sink
    before the sleep. *)
Theorem rate_limit_retry_is_not_identical :
  (let r := SHARK_github.get_workflows
              [limited 1000000; ok_200 no_items 1000061]
              (github_A, world0) in
   r_out r = Returns tt
   /\ requests (r_events r)
      = ["https://api.github.com/repos/o/r/actions/workflows?per_page=100&page=1";
         "https://api.github.com/repos/o/r/actions/workflows?per_page=100&page=1&page=1"]
   /\ saved (r_events r) = []
   /\ sleeps (r_events r) = [60]
   /\ SHARK_github.page (fst (r_state r)) = Some 1)
  /\
  (let r := shark_github.get_workflows
              [limited 1000000; ok_200 no_items 1000061]
              (github_B, world0) in
   r_out r = Raises AttributeError
   /\ requests (r_events r)
      = ["https://api.github.com/repos/o/r/actions/workflows?per_page=100&page=1"]
   /\ saved (r_events r) = []
   /\ shark_github.page (fst (r_state r)) = 1).
Proof. vm_compute. repeat split. Qed.

(** C2: on a rate-limit response whose reset time is 60 seconds after the
    server's date (and after the local clock), [src/actionSHARK] sleeps 60
    seconds, the reset time minus the current time, and [src/actionshark]
    sleeps 86340 seconds, the seconds of the current time minus the reset
    time. *)
Theorem rate_limit_sleep_differs :
  rate_limit_reset (reply (limited 1000000)) = Ok 1000060
  /\ clock (limited 1000000) = 1000000
  /\ sleeps (r_events (SHARK_github.get_workflows [limited 1000000]
                         (github_A, world0)))
     = [1000060 - 1000000]
  /\ sleeps (r_events (shark_github.get_workflows [limited 1000000]
                         (github_B, world0)))
     = [86340].
Proof. vm_compute. repeat split. Qed.

(** ** Pages *)

Lemma truthy_items (items : list json) :
  items <> [] -> truthy (JList items) = true.
Proof. destruct items; [contradiction | reflexivity]. Qed.

(** C7, as the code has it: a page of items that is not empty.  When it is
    shorter than the page size, the loop requests it, hands it to the sink
    once and returns, leaving the rest of the script untouched; when it has
    exactly the page size, the next request is for the page after, at the
    same URL and under the same headers.  Both hold in [src/actionSHARK]
    and in [src/actionshark], for a sink that returns. *)
Theorem page_forwarded_once_then_next
    (S : Type) (checker : option string) (url : string) (x : exchange)
    (rs : list exchange) (gA : SHARK_github.GitHub S)
    (gB : shark_github.GitHub S) (w : world S) (body : json)
    (items : list json) (p : Z) (sA sB : S) :
  status_code (reply x) = 200 ->
  content (reply x) = Some body ->
  items_of checker body = Ok (JList items) ->
  items <> [] ->
  SHARK_github.page gA = Some p ->
  shark_github.page gB = p ->
  SHARK_github.save_mongo gA (JList items) (SHARK_github.current_action gA)
    (sink_state w) = (Ok tt, sA) ->
  shark_github.save_mongo gB (JList items) (shark_github.current_action gB)
    (sink_state w) = (Ok tt, sB) ->
  (Z.of_nat (List.length items) < SHARK_github.per_page gA ->
   exists st',
     SHARK_github.paginating url checker (x :: rs) (gA, w)
     = (Returns tt, st', rs,
        [Get (String.append url (page_suffix p)) (__headers w);
         SaveMongo (JList items) (SHARK_github.current_action gA)]))
  /\ (Z.of_nat (List.length items) = SHARK_github.per_page gA ->
      exists o st' rs' ev',
        SHARK_github.paginating url checker (x :: rs) (gA, w)
        = (o, st', rs',
           Get (String.append url (page_suffix p)) (__headers w)
           :: SaveMongo (JList items) (SHARK_github.current_action gA)
           :: Get (String.append url (page_suffix (p + 1))) (__headers w)
           :: ev'))
  /\ (Z.of_nat (List.length items) < shark_github.per_page gB ->
      exists st',
        shark_github.paginating url checker (x :: rs) (gB, w)
        = (Returns tt, st', rs,
           [Get (String.append url (page_suffix p)) (__headers w);
            SaveMongo (JList items) (shark_github.current_action gB)]))
  /\ (Z.of_nat (List.length items) = shark_github.per_page gB ->
      exists o st' rs' ev',
        shark_github.paginating url checker (x :: rs) (gB, w)
        = (o, st', rs',
           Get (String.append url (page_suffix p)) (__headers w)
           :: SaveMongo (JList items) (shark_github.current_action gB)
           :: Get (String.append url (page_suffix (p + 1))) (__headers w)
           :: ev')).
Proof.
  intros Hs Hc Hi Hne HpA HpB HkA HkB.
  pose proof (truthy_items items Hne) as Ht.
  assert (Hn : py_len (JList items) = Ok (Z.of_nat (List.length items)))
    by reflexivity.
  split; [| split; [| split]].
  - intros Hlt. unfold SHARK_github.paginating.
    cbn [SHARK_github.paginating_loop].
    rewrite (SHARKFacts.send_ok S url gA w p HpA).
    rewrite (SHARKFacts.receive_items S checker _ x gA w body (JList items)
               _ p sA Hs Hc Hi Hn Ht HkA HpA).
    apply Z.ltb_lt in Hlt. rewrite Hlt. eexists. reflexivity.
  - intros Heq. unfold SHARK_github.paginating.
    cbn [SHARK_github.paginating_loop].
    rewrite (SHARKFacts.send_ok S url gA w p HpA).
    rewrite (SHARKFacts.receive_items S checker _ x gA w body (JList items)
               _ p sA Hs Hc Hi Hn Ht HkA HpA).
    rewrite Heq, Z.ltb_irrefl, drop_last_page.
    destruct (SHARKFacts.loop_starts S checker rs url
                (SHARK_github.set_total_requests
                   (SHARK_github.total_requests gA + 1 + 1)
                   (SHARK_github.set_page (p + 1) gA))
                (set_sink_state sA w) (p + 1) eq_refl)
      as (o & st' & rs' & ev' & ->).
    now eexists _, _, _, _.
  - intros Hlt. unfold shark_github.paginating.
    cbn [shark_github.paginating_loop].
    rewrite (sharkFacts.send_ok_lc S url gB w).
    rewrite (sharkFacts.receive_items_lc S checker _ x gB w body
               (JList items) _ sB Hs Hc Hi Hn Ht HkB).
    apply Z.ltb_lt in Hlt. rewrite Hlt, HpB. eexists. reflexivity.
  - intros Heq. unfold shark_github.paginating.
    cbn [shark_github.paginating_loop].
    rewrite (sharkFacts.send_ok_lc S url gB w).
    rewrite (sharkFacts.receive_items_lc S checker _ x gB w body
               (JList items) _ sB Hs Hc Hi Hn Ht HkB).
    rewrite Heq, Z.ltb_irrefl, drop_last_page.
    destruct (sharkFacts.loop_starts_lc S checker rs url
                (shark_github.set_total_requests
                   (shark_github.total_requests gB + 1 + 1)
                   (shark_github.set_page (shark_github.page gB + 1) gB))
                (set_sink_state sB w))
      as (o & st' & rs' & ev' & ->).
    rewrite HpB. now eexists _, _, _, _.
Qed.

(** C7 as the specification states it fails on an empty page: its item
    count, 0, is below the page size, the loop returns, and nothing was
    handed to the sink. *)
Lemma empty_page_is_not_forwarded :
  let r := SHARK_github.get_workflows [ok_200 no_items 5]
             (github_A, world0) in
  items_of (Some "workflows") no_items = Ok (JList [])
  /\ py_len (JList []) = Ok 0
  /\ 0 < SHARK_github.per_page github_A
  /\ r_out r = Returns tt
  /\ saved (r_events r) = [].
Proof. vm_compute. repeat split. Qed.

Lemma page_forwarded_once_then_next_witness :
  exists st',
    SHARK_github.paginating "https://api.github.com/repos/o/r/actions/workflows?per_page=100"
      (Some "workflows") [ok_200 two_workflows 5; limited 6]
      (SHARK_github.set_page 1 github_A, world0)
    = (Returns tt, st', [limited 6],
       [Get "https://api.github.com/repos/o/r/actions/workflows?per_page=100&page=1"
          initial_headers;
        SaveMongo (JList [workflow_55; workflow_55]) None]).
Proof.
  refine (proj1 (page_forwarded_once_then_next batches (Some "workflows")
                   "https://api.github.com/repos/o/r/actions/workflows?per_page=100"
                   (ok_200 two_workflows 5) [limited 6]
                   (SHARK_github.set_page 1 github_A) github_B world0
                   two_workflows [workflow_55; workflow_55] 1
                   [(JList [workflow_55; workflow_55], None)]
                   [(JList [workflow_55; workflow_55], None)]
                   eq_refl eq_refl eq_refl _ eq_refl eq_refl eq_refl eq_refl)
            _).
  - discriminate.
  - reflexivity.
Defined.

(** ** The order of [run] *)


(** ** The token *)

Lemma assoc_dict_set {A} (k : string) (v : A) (kv : list (string * A)) :
  assoc k (dict_set k v kv) = Some v.
Proof.
  induction kv as [| [k' v'] kv IH]; simpl.
  - now rewrite String.eqb_refl.
  - destruct (String.eqb k k') eqn:E; simpl.
    + now rewrite String.eqb_refl.
    + now rewrite E.
Qed.

(** What [__init__] of [src/actionSHARK] returns. *)
Lemma init_returns (S : Type) (ow rp : option string) (pp : Z)
    (token : option string) (k : option (sink S)) (w0 w : world S)
    (g : SHARK_github.GitHub S) (ev : list event) :
  SHARK_github.__init__ ow rp pp token k w0 = (Returns g, w, ev) ->
  SHARK_github.__token g = nonempty token
  /\ __headers w
     = match nonempty token with
       | Some t =>
           dict_set "Authorization" (String.append "token " t) (__headers w0)
       | None => __headers w0
       end.
Proof.
  unfold SHARK_github.__init__.
  destruct (nonempty ow); [| discriminate].
  destruct (nonempty rp); [| discriminate].
  destruct k; [| discriminate].
  intros [= <- <- <-]. split; [reflexivity |].
  now destruct (nonempty token).
Qed.

Lemma init_returns_lc (S : Type) (ow rp : option string) (pp : Z)
    (token : option string) (k : option (sink S)) (interval : Z)
    (w0 w : world S) (g : shark_github.GitHub S) (ev : list event) :
  shark_github.__init__ ow rp pp token k interval w0 = (Returns g, w, ev) ->
  shark_github.__token g = nonempty token
  /\ __headers w
     = match nonempty token with
       | Some t =>
           dict_set "Authorization" (String.append "token " t) (__headers w0)
       | None => __headers w0
       end.
Proof.
  unfold shark_github.__init__.
  destruct (nonempty ow); [| discriminate].
  destruct (nonempty rp); [| discriminate].
  destruct k; [| discriminate].
  intros [= <- <- <-]. split; [reflexivity |].
  now destruct (nonempty token).
Qed.

Lemma nonempty_some (t : string) : t <> "" -> nonempty (Some t) = Some t.
Proof.
  intros H. unfold nonempty.
  destruct (String.eqb_spec t ""); [contradiction | reflexivity].
Qed.

Lemma nonempty_idem (s : option string) : nonempty (nonempty s) = nonempty s.
Proof.
  destruct s as [x |]; [| reflexivity]. unfold nonempty.
  destruct (String.eqb x "") eqn:E; [reflexivity | now rewrite E].
Qed.

(** C8: a [GitHub] of [src/actionSHARK] made with a token.  [run] first
    requests the current user under headers that carry the token.  On a
    401 it exits with status 1 having sent that one request and consumed
    that one response.  On any other status it goes on to the workflow
    fetch, whose first request is page 1 of the workflows, and the current
    user is not requested again. *)
Theorem token_precheck
    (S : Type) (ow rp : option string) (t : string) (pp : Z) (k : sink S)
    (w0 w : world S) (g : SHARK_github.GitHub S) (ev0 : list event) :
  t <> "" ->
  SHARK_github.__init__ ow rp pp (Some t) (Some k) w0 = (Returns g, w, ev0) ->
  assoc "Authorization" (__headers w) = Some (String.append "token " t)
  /\ forall runs_object x rs,
       (status_code (reply x) = 401 ->
        r_out (SHARK_github.run runs_object (x :: rs) (g, w)) = Exits 1
        /\ r_rest (SHARK_github.run runs_object (x :: rs) (g, w)) = rs
        /\ exists logs,
             r_events (SHARK_github.run runs_object (x :: rs) (g, w))
             = Get SHARKFacts.user_url (__headers w) :: logs
             /\ quiet logs)
       /\ (status_code (reply x) <> 401 ->
           exists ev',
             r_events (SHARK_github.run runs_object (x :: rs) (g, w))
             = Get SHARKFacts.user_url (__headers w)
               :: Log DEBUG "Successfully authenticated using token" []
               :: Log DEBUG "Start fetching workflows" []
               :: Get (String.append
                         (String.append api_url
                            (SHARK_github.workflow_url
                               (SHARK_github.owner g) (SHARK_github.repo g)
                               (SHARK_github.per_page g)))
                         (page_suffix 1))
                    (__headers w)
               :: ev'
             /\ ~ In SHARKFacts.user_url (requests ev')).
Proof.
  intros Ht Hinit.
  destruct (init_returns S _ _ _ _ _ _ _ _ _ Hinit) as [Htok Hh].
  rewrite (nonempty_some t Ht) in Htok, Hh.
  assert (Hne : nonempty (SHARK_github.__token g) = Some t)
    by (rewrite Htok; now apply nonempty_some).
  split; [rewrite Hh; apply assoc_dict_set |].
  intros runs_object x rs.
  rewrite (SHARKFacts.run_after_token S runs_object). unfold bind_req.
  split; intros Hs.
  - rewrite (SHARKFacts.verify_token_401 S x rs g w t Hne Hs). cbn.
    split; [reflexivity |]. split; [reflexivity |].
    eexists. split; [reflexivity |]. now repeat constructor.
  - rewrite (SHARKFacts.verify_token_passes S x rs g w t Hne Hs).
    set (g' := SHARK_github.set_total_requests
                 (SHARK_github.total_requests g + 1) g).
    destruct (SHARKFacts.after_token_starts S runs_object rs g' w)
      as [ev' He].
    assert (Hok : ok_state
                    (SHARKFacts.config S (SHARK_github.owner g)
                       (SHARK_github.repo g) (SHARK_github.per_page g)
                       (Some t))
                    (__headers w) (g', w)) by (repeat split; assumption).
    pose proof (SHARKFacts.after_token_requests S _ _ _ _ _ runs_object rs
                  (g', w) Hok) as Hreq.
    destruct (SHARKFacts.after_token S runs_object rs (g', w))
      as [[[o st] rs'] ev].
    cbn [r_events snd] in He, Hreq. subst ev. cbn.
    exists ev'. split; [reflexivity |].
    cbn [requests] in Hreq. inversion Hreq as [| ? ? _ Htail]; subst.
    intros Hin. rewrite Forall_forall in Htail.
    exact (SHARKFacts.user_url_not_repos (Htail _ Hin)).
Qed.

Lemma token_precheck_witness :
  r_out (SHARK_github.run None
           [mk_exchange (mk_response 401 "Unauthorized" [] None) 0;
            ok_200 no_items 1]
           (SHARK_github.mk_GitHub (Some "abc") keep "o" "r" 100
              None 0 None 0,
            mk_world [("Accept", "application/vnd.github.v3+json");
                      ("Authorization", "token abc")] 0 []))
  = Exits 1.
Proof.
  exact (proj1
           (proj1
              (proj2
                 (token_precheck batches (Some "o") (Some "r") "abc" 100
                    keep world0
                    (mk_world [("Accept", "application/vnd.github.v3+json");
                               ("Authorization", "token abc")] 0 [])
                    (SHARK_github.mk_GitHub (Some "abc") keep "o" "r" 100
                       None 0 None 0)
                    [] ltac:(discriminate) eq_refl)
                 None
                 (mk_exchange (mk_response 401 "Unauthorized" [] None) 0)
                 [ok_200 no_items 1])
              eq_refl)).
Defined.

(** ** The headers of the class *)

Lemma gets_with_sends_token (t : string) (h : list (string * string))
    (ev : list event) :
  assoc "Authorization" h = Some (String.append "token " t) ->
  gets_with h ev -> sends_token t ev.
Proof.
  intros Hh H. unfold sends_token. eapply Forall_impl; [| exact H].
  intros [u hs | | |]; auto. cbn. now intros ->.
Qed.

(** The first request of [run] on an object without a token, in
    [src/actionSHARK]: page 1 of the workflows, under the headers of the
    class. *)
Lemma run_starts_without_token (S : Type)
    (runs_object : option (S -> list (option Z))) (rs : list exchange)
    (g : SHARK_github.GitHub S) (w : world S) :
  nonempty (SHARK_github.__token g) = None ->
  exists ev',
    r_events (SHARK_github.run runs_object rs (g, w))
    = Log DEBUG "Proceding without token" []
      :: Log DEBUG "Start fetching workflows" []
      :: Get (String.append
                (String.append api_url
                   (SHARK_github.workflow_url (SHARK_github.owner g)
                      (SHARK_github.repo g) (SHARK_github.per_page g)))
                (page_suffix 1))
           (__headers w)
      :: ev'.
Proof.
  intros Ht.
  destruct (SHARKFacts.after_token_starts S runs_object rs g w) as [ev' He].
  rewrite SHARKFacts.run_after_token.
  unfold SHARK_github.verify_token.
  cbv [bind_req lift get_self log emit]. cbn [fst snd]. rewrite Ht.
  destruct (SHARKFacts.after_token S runs_object rs (g, w))
    as [[[o st] rs'] ev].
  cbn [r_events snd] in He |- *. subst ev. eexists. reflexivity.
Qed.

Lemma get_workflows_starts_lc (S : Type) (rs : list exchange)
    (g : shark_github.GitHub S) (w : world S) :
  exists ev',
    r_events (shark_github.get_workflows rs (g, w))
    = Log DEBUG "Start fetching workflows" []
      :: Get (String.append
                (String.append api_url
                   (shark_github.workflows_url (shark_github.owner g)
                      (shark_github.repo g) (shark_github.per_page g)))
                (page_suffix 1))
           (__headers w)
      :: ev'.
Proof.
  unfold shark_github.get_workflows.
  cbv [bind_req lift modify_self get_self log emit].
  cbn [fst snd shark_github.owner shark_github.repo shark_github.per_page
         shark_github.set_page shark_github.set_current_action].
  unfold shark_github.paginating.
  match goal with
  | |- context [shark_github.paginating_loop ?c rs ?u (?g1, w)] =>
      destruct (sharkFacts.loop_starts_lc S c rs u g1 w)
        as (o & st' & rs' & ev' & ->)
  end.
  destruct o; cbn; eexists; reflexivity.
Qed.

Lemma verify_token_none_lc (S : Type) (rs : list exchange)
    (g : shark_github.GitHub S) (w : world S) :
  nonempty (shark_github.__token g) = None ->
  shark_github.verify_token rs (g, w)
  = (Returns tt, (g, w), rs, [Log DEBUG "Proceding without token" []]).
Proof.
  intros Ht. unfold shark_github.verify_token.
  cbv [bind_req lift get_self log emit]. cbn [fst snd]. now rewrite Ht.
Qed.

Lemma run_starts_without_token_lc (S : Type)
    (runs_object : option (S -> list string)) (rs : list exchange)
    (g : shark_github.GitHub S) (w : world S) :
  nonempty (shark_github.__token g) = None ->
  exists ev',
    r_events (shark_github.run runs_object rs (g, w))
    = Log DEBUG "Proceding without token" []
      :: Log DEBUG "Start fetching workflows" []
      :: Get (String.append
                (String.append api_url
                   (shark_github.workflows_url (shark_github.owner g)
                      (shark_github.repo g) (shark_github.per_page g)))
                (page_suffix 1))
           (__headers w)
      :: ev'.
Proof.
  intros Ht.
  destruct (get_workflows_starts_lc S rs g w) as [ev' He].
  unfold shark_github.run. unfold bind_req at 1.
  rewrite (verify_token_none_lc S rs g w Ht).
  match goal with
  | |- context [bind_req shark_github.get_workflows ?k] =>
      destruct (bind_req_events _ _ shark_github.get_workflows k rs (g, w))
        as [ev'' Hb];
      destruct (bind_req shark_github.get_workflows k rs (g, w))
        as [[[o st] rs'] ev]
  end.
  cbn [r_events snd] in Hb |- *. rewrite Hb, He. cbn.
  eexists. reflexivity.
Qed.

(** C9: [__headers] is one dict of the class.  After a [GitHub] is made
    with a token, a [GitHub] made without one has no token of its own, yet
    the headers of the class carry the first one's token.  Its [run] sends
    at least one request, the first for page 1 of the workflows, and that
    request and every other request of the run is sent with the first
    one's token.  This holds in [src/actionSHARK] and in
    [src/actionshark]. *)
Theorem headers_shared_by_instances (S : Type) (t : string) :
  t <> "" ->
  (forall ow1 rp1 pp1 k1 ow2 rp2 pp2 k2 (w0 w1 w2 : world S) g1 g2 ev1 ev2,
      SHARK_github.__init__ ow1 rp1 pp1 (Some t) k1 w0
      = (Returns g1, w1, ev1) ->
      SHARK_github.__init__ ow2 rp2 pp2 None k2 w1 = (Returns g2, w2, ev2) ->
      SHARK_github.__token g2 = None
      /\ assoc "Authorization" (__headers w2)
         = Some (String.append "token " t)
      /\ forall runs_object rs,
           sends_token t
             (r_events (SHARK_github.run runs_object rs (g2, w2)))
           /\ exists hs ev',
                r_events (SHARK_github.run runs_object rs (g2, w2))
                = Log DEBUG "Proceding without token" []
                  :: Log DEBUG "Start fetching workflows" []
                  :: Get (String.append
                            (String.append api_url
                               (SHARK_github.workflow_url
                                  (SHARK_github.owner g2)
                                  (SHARK_github.repo g2)
                                  (SHARK_github.per_page g2)))
                            (page_suffix 1))
                       hs
                  :: ev'
                /\ assoc "Authorization" hs
                   = Some (String.append "token " t))
  /\ (forall ow1 rp1 pp1 k1 i1 ow2 rp2 pp2 k2 i2 (w0 w1 w2 : world S)
             g1 g2 ev1 ev2,
         shark_github.__init__ ow1 rp1 pp1 (Some t) k1 i1 w0
         = (Returns g1, w1, ev1) ->
         shark_github.__init__ ow2 rp2 pp2 None k2 i2 w1
         = (Returns g2, w2, ev2) ->
         shark_github.__token g2 = None
         /\ assoc "Authorization" (__headers w2)
            = Some (String.append "token " t)
         /\ forall runs_object rs,
              sends_token t
                (r_events (shark_github.run runs_object rs (g2, w2)))
              /\ exists hs ev',
                   r_events (shark_github.run runs_object rs (g2, w2))
                   = Log DEBUG "Proceding without token" []
                     :: Log DEBUG "Start fetching workflows" []
                     :: Get (String.append
                               (String.append api_url
                                  (shark_github.workflows_url
                                     (shark_github.owner g2)
                                     (shark_github.repo g2)
                                     (shark_github.per_page g2)))
                               (page_suffix 1))
                          hs
                     :: ev'
                   /\ assoc "Authorization" hs
                      = Some (String.append "token " t)).
Proof.
  intros Ht. split.
  - intros ow1 rp1 pp1 k1 ow2 rp2 pp2 k2 w0 w1 w2 g1 g2 ev1 ev2 H1 H2.
    destruct (init_returns S _ _ _ _ _ _ _ _ _ H1) as [_ Hh1].
    destruct (init_returns S _ _ _ _ _ _ _ _ _ H2) as [Htok Hh2].
    rewrite (nonempty_some t Ht) in Hh1. cbn in Htok, Hh2.
    assert (Ha : assoc "Authorization" (__headers w2)
                 = Some (String.append "token " t))
      by (rewrite Hh2, Hh1; apply assoc_dict_set).
    split; [assumption |]. split; [assumption |].
    intros runs_object rs. split.
    + apply (gets_with_sends_token t (__headers w2)); [assumption |].
      assert (Hok : ok_state
                      (SHARKFacts.config S (SHARK_github.owner g2)
                         (SHARK_github.repo g2) (SHARK_github.per_page g2)
                         (nonempty (SHARK_github.__token g2)))
                      (__headers w2) (g2, w2)) by (repeat split).
      destruct runs_object as [objects |].
      * apply (SHARKFacts.sat_run_some S _ _ _ _ _ objects (sink_state w2)
                 rs (g2, w2) Hok).
      * apply (SHARKFacts.sat_run_none S _ _ _ _ _ rs (g2, w2) Hok).
    + destruct (run_starts_without_token S runs_object rs g2 w2)
        as [ev' He]; [now rewrite Htok |].
      exists (__headers w2), ev'. now split.
  - intros ow1 rp1 pp1 k1 i1 ow2 rp2 pp2 k2 i2 w0 w1 w2 g1 g2 ev1 ev2 H1 H2.
    destruct (init_returns_lc S _ _ _ _ _ _ _ _ _ _ H1) as [_ Hh1].
    destruct (init_returns_lc S _ _ _ _ _ _ _ _ _ _ H2) as [Htok Hh2].
    rewrite (nonempty_some t Ht) in Hh1. cbn in Htok, Hh2.
    assert (Ha : assoc "Authorization" (__headers w2)
                 = Some (String.append "token " t))
      by (rewrite Hh2, Hh1; apply assoc_dict_set).
    split; [assumption |]. split; [assumption |].
    intros runs_object rs. split.
    + apply (gets_with_sends_token t (__headers w2)); [assumption |].
      assert (Hok : ok_state
                      (sharkFacts.config_lc S (shark_github.owner g2)
                         (shark_github.repo g2) (shark_github.per_page g2)
                         (nonempty (shark_github.__token g2)))
                      (__headers w2) (g2, w2)) by (repeat split).
      destruct runs_object as [objects |].
      * apply (sharkFacts.sat_run_some_lc S _ _ _ _ _ objects (sink_state w2)
                 rs (g2, w2) Hok).
      * apply (sharkFacts.sat_run_none_lc S _ _ _ _ _ rs (g2, w2) Hok).
    + destruct (run_starts_without_token_lc S runs_object rs g2 w2)
        as [ev' He]; [now rewrite Htok |].
      exists (__headers w2), ev'. now split.
Qed.

Lemma headers_shared_by_instances_witness :
  sends_token "abc"
    (r_events
       (SHARK_github.run None [ok_200 no_items 1]
          (SHARK_github.mk_GitHub None keep "o2" "r2" 100 None 0 None 0,
           mk_world [("Accept", "application/vnd.github.v3+json");
                     ("Authorization", "token abc")] 0 [])))
  /\ exists hs ev',
       r_events
         (SHARK_github.run None [ok_200 no_items 1]
            (SHARK_github.mk_GitHub None keep "o2" "r2" 100 None 0 None 0,
             mk_world [("Accept", "application/vnd.github.v3+json");
                       ("Authorization", "token abc")] 0 []))
       = Log DEBUG "Proceding without token" []
         :: Log DEBUG "Start fetching workflows" []
         :: Get "https://api.github.com/repos/o2/r2/actions/workflows?per_page=100&page=1"
              hs
         :: ev'
       /\ assoc "Authorization" hs = Some "token abc".
Proof.
  exact (proj2
           (proj2
              (proj1 (headers_shared_by_instances batches "abc"
                        ltac:(discriminate))
                 (Some "o") (Some "r") 100 (Some keep)
                 (Some "o2") (Some "r2") 100 (Some keep)
                 world0
                 (mk_world [("Accept", "application/vnd.github.v3+json");
                            ("Authorization", "token abc")] 0 [])
                 (mk_world [("Accept", "application/vnd.github.v3+json");
                            ("Authorization", "token abc")] 0 [])
                 (SHARK_github.mk_GitHub (Some "abc") keep "o" "r" 100
                    None 0 None 0)
                 (SHARK_github.mk_GitHub None keep "o2" "r2" 100
                    None 0 None 0)
                 [] [] eq_refl eq_refl))
           None [ok_200 no_items 1]).
Defined.

End FetchFacts.

(* ================================================================== *)
(** * The mapper: what [save_documents] keeps and what it skips *)
(* ================================================================== *)

Module StoreFacts.
Import Py Datetime shark_mongo Traces TraceFacts Inputs MongoFacts Invariants.

Lemma extends_refl st : extends st st.
Proof. unfold extends. repeat split; auto using is_prefix_refl. lia. Qed.

Lemma is_prefix_trans {A} (a b c : list A) :
  is_prefix a b -> is_prefix b c -> is_prefix a c.
Proof. intros [x ->] [y ->]. exists (x ++ y). now rewrite app_assoc. Qed.

Lemma extends_trans st1 st2 st3 :
  extends st1 st2 -> extends st2 st3 -> extends st1 st3.
Proof.
  unfold extends.
  intros (A1 & A2 & A3 & A4 & A5 & A6) (B1 & B2 & B3 & B4 & B5 & B6).
  repeat split; eauto using is_prefix_trans; [congruence | lia].
Qed.

Lemma insert_extends d st : extends st (insert d st).
Proof.
  unfold extends.
  destruct d; cbn; repeat split;
    auto using is_prefix_refl; try (now eexists); lia.
Qed.

Section Loop.

Variable validate : document -> bool.

Lemma convert_and_save_inv func d st st' :
  convert_and_save validate func d st = Ok st' ->
  exists x, func st d = Ok (Some x) /\ validate x = true
            /\ st' = insert x st.
Proof.
  unfold convert_and_save. destruct (func st d) as [[x |] | e]; cbn;
    try discriminate.
  destruct (validate x) eqn:Hv; [| discriminate].
  intros [= <-]. now exists x.
Qed.

Lemma save_loop_extends func action docs :
  forall st, extends st (snd (fst (save_loop validate func action docs st))).
Proof.
  induction docs as [| d docs IH]; intros st; cbn.
  - apply extends_refl.
  - destruct (convert_and_save validate func d st) as [st' | e] eqn:E.
    + destruct (convert_and_save_inv _ _ _ _ E) as (x & _ & _ & ->).
      eapply extends_trans; [apply insert_extends | apply IH].
    + destruct (py_getitem d "id"); [| apply extends_refl].
      specialize (IH st).
      now destruct (save_loop validate func action docs st) as [[r st'] l].
Qed.

End Loop.

Lemma save_documents_extends
    (validate : document -> bool) (self : Mongo) (documents : json)
    (action : option string) (st : store) :
  extends st (snd (fst (save_documents validate self documents action st))).
Proof.
  unfold save_documents. destruct action as [a |]; [| apply extends_refl].
  destruct (negb (truthy documents) || String.eqb a "");
    [apply extends_refl |].
  destruct (__operations self a) as [func |]; [| apply extends_refl].
  destruct (py_iter documents) as [ds | e]; [| apply extends_refl].
  apply save_loop_extends.
Qed.

(** X1: [save_documents] only appends.  Whatever the batch, the action and
    the driver, and however the call ends, every document the database
    held is still there under its key and in its place, the [VCSSystem]
    documents are the same, and keys are handed out upwards. *)
Theorem save_documents_appends_only
    (validate : document -> bool) (self : Mongo) (documents : json)
    (action : option string) (st : store) :
  extends st (snd (fst (save_documents validate self documents action st))).
Proof. apply save_documents_extends. Qed.


(** ** References *)

Lemma objects_get_inv {A} (l : list A) (x : A) :
  objects_get l = Ok x -> l = [x].
Proof.
  destruct l as [| a [| b l]]; cbn; try discriminate. now intros [= ->].
Qed.

Lemma workflow_object_id_inv st v k :
  __workflow_object_id st v = Ok k ->
  exists w, In (k, w) (workflows st) /\ workflow_id w = v.
Proof.
  unfold __workflow_object_id.
  destruct (objects_get _) as [[k' w] |] eqn:E; cbn; [| discriminate].
  intros [= <-]. apply objects_get_inv in E.
  assert (Hin : In (k', w)
                  (filter (fun d => workflow_id (snd d) =? v) (workflows st)))
    by (rewrite E; now left).
  apply filter_In in Hin. destruct Hin as [Hin Hv]. cbn in Hv.
  exists w. split; [assumption | lia].
Qed.

Lemma run_object_id_inv st v k :
  __run_object_id st v = Ok k ->
  exists r, In (k, r) (runs st) /\ run_id r = v.
Proof.
  unfold __run_object_id.
  destruct (objects_get _) as [[k' r] |] eqn:E; cbn; [| discriminate].
  intros [= <-]. apply objects_get_inv in E.
  assert (Hin : In (k', r)
                  (filter (fun d => run_id (snd d) =? v) (runs st)))
    by (rewrite E; now left).
  apply filter_In in Hin. destruct Hin as [Hin Hv]. cbn in Hv.
  exists r. split; [assumption | lia].
Qed.

(** A converter reads at most a dict: on another true value the first
    [obj.get] raises. *)
Ltac dict obj H :=
  destruct obj as [| ? | ? | ? | ? | kv]; cbn in H; try discriminate.

Lemma create_run_refers self st obj d :
  __create_run self st obj = Ok (Some d) -> refers st d.
Proof.
  unfold __create_run. destruct (negb (truthy obj)); [discriminate |].
  intros H. dict obj H. repeat step_bind H.
  injection H as <-. cbn.
  match goal with
  | Hk : __workflow_object_id _ _ = Ok _ |- _ =>
      destruct (workflow_object_id_inv _ _ _ Hk) as (w & Hin & Hw)
  end.
  exists w. cbn. split; [assumption | congruence].
Qed.

Lemma create_job_refers self st obj d :
  __create_job self st obj = Ok (Some d) -> refers st d.
Proof.
  unfold __create_job. destruct (negb (truthy obj)); [discriminate |].
  intros H. dict obj H. repeat step_bind H.
  injection H as <-. cbn.
  match goal with
  | Hk : __run_object_id _ _ = Ok _ |- _ =>
      destruct (run_object_id_inv _ _ _ Hk) as (r & Hin & _)
  end.
  now exists r.
Qed.

Lemma create_workflow_kind self st obj d :
  __create_workflow self st obj = Ok (Some d) -> exists w, d = DWorkflow w.
Proof.
  unfold __create_workflow. destruct (negb (truthy obj)); [discriminate |].
  intros H. dict obj H. repeat step_bind H.
  injection H as <-. now eexists.
Qed.

Lemma create_artifact_kind self st obj d :
  __create_artifact self st obj = Ok (Some d) -> exists a, d = DArtifact a.
Proof.
  unfold __create_artifact. destruct (negb (truthy obj)); [discriminate |].
  intros H. dict obj H. repeat step_bind H.
  injection H as <-. now eexists.
Qed.

Lemma operations_refers self action func st obj d :
  __operations self action = Some func ->
  func st obj = Ok (Some d) -> refers st d.
Proof.
  unfold __operations.
  destruct (String.eqb action "workflow");
    [intros [= <-] H; now destruct (create_workflow_kind _ _ _ _ H) as [w ->] |].
  destruct (String.eqb action "run");
    [intros [= <-]; apply create_run_refers |].
  destruct (String.eqb action "job");
    [intros [= <-]; apply create_job_refers |].
  destruct (String.eqb action "artifact"); [| discriminate].
  intros [= <-] H. now destruct (create_artifact_kind _ _ _ _ H) as [a ->].
Qed.

Lemma run_refers_extends st st' r :
  extends st st' -> run_refers st r -> run_refers st' r.
Proof.
  intros ([x Hx] & _) (w & Hin & Hw). exists w. split; [| assumption].
  rewrite Hx. apply in_or_app. now left.
Qed.

Lemma job_refers_extends st st' j :
  extends st st' -> job_refers st j -> job_refers st' j.
Proof.
  intros (_ & [x Hx] & _) (r & Hin). exists r.
  rewrite Hx. apply in_or_app. now left.
Qed.

Lemma insert_references d st :
  references_resolve st -> refers st d -> references_resolve (insert d st).
Proof.
  intros [Hr Hj] Hd.
  pose proof (insert_extends d st) as He.
  split.
  - intros k r Hin. apply (run_refers_extends st); [assumption |].
    destruct d; cbn in Hin; eauto.
    apply in_app_or in Hin. destruct Hin as [Hin | [[= <- <-] | []]]; eauto.
  - intros k j Hin. apply (job_refers_extends st); [assumption |].
    destruct d; cbn in Hin; eauto.
    apply in_app_or in Hin. destruct Hin as [Hin | [[= <- <-] | []]]; eauto.
Qed.

Lemma save_loop_references validate func action docs :
  (forall st obj d, func st obj = Ok (Some d) -> refers st d) ->
  forall st, references_resolve st ->
    references_resolve (snd (fst (save_loop validate func action docs st))).
Proof.
  intros Hf. induction docs as [| d docs IH]; intros st Hst; cbn.
  - assumption.
  - destruct (convert_and_save validate func d st) as [st' | e] eqn:E.
    + destruct (convert_and_save_inv _ _ _ _ _ E) as (x & Hx & _ & ->).
      apply IH. apply insert_references; eauto.
    + destruct (py_getitem d "id"); [| assumption].
      specialize (IH st Hst).
      now destruct (save_loop validate func action docs st) as [[r st'] l].
Qed.

Lemma save_documents_references
    (validate : document -> bool) (self : Mongo) (documents : json)
    (action : option string) (st : store) :
  references_resolve st ->
  references_resolve
    (snd (fst (save_documents validate self documents action st))).
Proof.
  intros Hst. unfold save_documents. destruct action as [a |]; [| assumption].
  destruct (negb (truthy documents) || String.eqb a ""); [assumption |].
  destruct (__operations self a) as [func |] eqn:Hop; [| assumption].
  destruct (py_iter documents) as [ds | e]; [| assumption].
  apply save_loop_references; [| assumption].
  intros st0 obj d. now apply (operations_refers self a).
Qed.

(** X2: [save_documents] keeps the references of the database resolved.
    When every stored run refers to a stored workflow with the run's
    numeric workflow id, and every stored job to a stored run, the same is
    true after any batch, however the call ends. *)
Theorem save_documents_keeps_references
    (validate : document -> bool) (self : Mongo) (documents : json)
    (action : option string) (st : store) :
  references_resolve st ->
  references_resolve
    (snd (fst (save_documents validate self documents action st))).
Proof. apply save_documents_references. Qed.

Lemma save_documents_keeps_references_witness :
  references_resolve
    (snd (fst (save_documents accept_all mongo_o_r (JList [run_7])
                 (Some "run") store_with_workflow)))
  /\ map (fun d => run_id (snd d))
       (runs (snd (fst (save_documents accept_all mongo_o_r (JList [run_7])
                          (Some "run") store_with_workflow))))
     = [7].
Proof.
  split; [| vm_compute; reflexivity].
  apply (save_documents_keeps_references accept_all mongo_o_r (JList [run_7])
           (Some "run") store_with_workflow).
  split; intros k x H; vm_compute in H; contradiction.
Defined.


(** ** Items that fail *)

(** An item that fails and has an id: the batch goes on after it from the
    database as it was, with one more log line. *)
Lemma save_documents_skips (validate : document -> bool) (self : Mongo)
    (action : string) (func : store -> json -> result (option document))
    (pre rest : list json) (d : json) (st st1 : store) (logs1 : list log)
    (e : exn) (i : json) :
  __operations self action = Some func ->
  save_loop validate func action pre st = (Ok tt, st1, logs1) ->
  convert_and_save validate func d st1 = Err e ->
  py_getitem d "id" = Ok i ->
  save_documents validate self (JList (pre ++ d :: rest)) (Some action) st
  = let '(r, st', logs) := save_loop validate func action rest st1 in
    (r, st', logs1 ++ FailedSaving action i :: logs).
Proof.
  intros Hop Hpre Hfail Hid. unfold save_documents.
  rewrite (operations_nonempty _ _ _ Hop), Hop.
  replace (truthy (JList (pre ++ d :: rest))) with true by (now destruct pre).
  simpl negb. simpl orb. cbv iota. simpl py_iter. cbv iota.
  rewrite (save_loop_app validate func action pre _ _ _ _ Hpre).
  rewrite (save_loop_skips validate func action d rest st1 e i Hfail Hid).
  now destruct (save_loop validate func action rest st1) as [[r st'] logs].
Qed.

Lemma filter_none {A} (f : A -> bool) (l : list A) :
  (forall x, In x l -> f x = false) -> filter f l = [].
Proof.
  induction l as [| a l IH]; cbn; intros H; [reflexivity |].
  rewrite (H a (or_introl eq_refl)). apply IH. intros x Hx. apply H. now right.
Qed.

Lemma run_object_id_missing (st : store) (v : Z) :
  (forall k r, In (k, r) (runs st) -> run_id r <> v) ->
  __run_object_id st v = Err DoesNotExist.
Proof.
  intros H. unfold __run_object_id. rewrite filter_none; [reflexivity |].
  intros [k r] Hin. cbn. apply Z.eqb_neq. eauto.
Qed.

Lemma assoc_nonempty {A} (k : string) (kv : list (string * A)) (v : A) :
  assoc k kv = Some v -> kv <> [].
Proof. destruct kv; [discriminate | discriminate]. Qed.

Lemma truthy_dict (kv : list (string * json)) :
  kv <> [] -> truthy (JObj kv) = true.
Proof. destruct kv; [contradiction | reflexivity]. Qed.

(** The next [let?] of a converter: it raises, or the conversion goes
    on. *)
Ltac next_bind :=
  match goal with
  | |- exists e, rbind ?r _ = Err e =>
      destruct r; cbn [rbind]; [| now eexists]
  end.

Lemma create_job_needs_run (self : Mongo) (st : store)
    (kv : list (string * json)) (v : Z) (e : exn) :
  kv <> [] ->
  rbind (py_get (JObj kv) "run_id") py_int = Ok v ->
  __run_object_id st v = Err e ->
  exists e', __create_job self st (JObj kv) = Err e'.
Proof.
  intros Hne Hv He. unfold __create_job. rewrite (truthy_dict kv Hne).
  cbn in Hv |- *. rewrite Hv. cbn. next_bind.
  rewrite He. cbn. now eexists.
Qed.

Lemma convert_fails validate func d st e :
  func st d = Err e -> convert_and_save validate func d st = Err e.
Proof. intros H. unfold convert_and_save. now rewrite H. Qed.

(** X3: a job item with an id whose run is not stored is skipped.  The
    lookup of the run raises, the handler logs the item's id, and the batch
    goes on after the item from the database as it was. *)
Theorem job_without_run_is_skipped
    (validate : document -> bool) (self : Mongo) (pre rest : list json)
    (kv : list (string * json)) (st st1 : store) (logs1 : list log)
    (i : json) (v : Z) :
  save_loop validate (__create_job self) "job" pre st = (Ok tt, st1, logs1) ->
  assoc "id" kv = Some i ->
  rbind (py_get (JObj kv) "run_id") py_int = Ok v ->
  (forall k r, In (k, r) (runs st1) -> run_id r <> v) ->
  save_documents validate self (JList (pre ++ JObj kv :: rest)) (Some "job") st
  = let '(r, st', logs) :=
      save_loop validate (__create_job self) "job" rest st1 in
    (r, st', logs1 ++ FailedSaving "job" i :: logs).
Proof.
  intros Hpre Hid Hv Hno.
  destruct (create_job_needs_run self st1 kv v DoesNotExist
              (assoc_nonempty _ _ _ Hid) Hv (run_object_id_missing _ _ Hno))
    as [e He].
  apply (save_documents_skips validate self "job" (__create_job self)
           pre rest (JObj kv) st st1 logs1 e i); auto.
  - now apply convert_fails.
  - cbn. now rewrite Hid.
Qed.

Lemma job_without_run_is_skipped_witness :
  save_documents accept_all mongo_o_r (JList ([] ++ job_9 :: [])) (Some "job")
    store_with_workflow
  = (Ok tt, store_with_workflow, [FailedSaving "job" (JInt 9)]).
Proof.
  refine (job_without_run_is_skipped accept_all mongo_o_r [] []
            _ store_with_workflow store_with_workflow []
            (JInt 9) 7 _ _ _ _).
  - reflexivity.
  - reflexivity.
  - reflexivity.
  - intros k r H. vm_compute in H. contradiction.
Defined.


(** ** Duplicates *)

Lemma create_workflow_same_vcs (self : Mongo) (st st' : store) (obj : json) :
  vcs_systems st' = vcs_systems st ->
  __create_workflow self st' obj = __create_workflow self st obj.
Proof.
  intros H. unfold __create_workflow, __repo_object_id. now rewrite H.
Qed.

Lemma save_one_workflow (validate : document -> bool) (self : Mongo)
    (st : store) (wf : json) (w : Workflow) :
  __create_workflow self st wf = Ok (Some (DWorkflow w)) ->
  validate (DWorkflow w) = true ->
  save_documents validate self (JList [wf]) (Some "workflow") st
  = (Ok tt, insert (DWorkflow w) st, []).
Proof.
  intros Hc Hv. cbn. unfold convert_and_save. rewrite Hc. cbn.
  now rewrite Hv.
Qed.

Lemma objects_get_two {A} (f : A -> bool) (l : list A) (a b : A) :
  f a = true -> f b = true ->
  objects_get (filter f ((l ++ [a]) ++ [b])) = Err MultipleObjectsReturned.
Proof.
  intros Ha Hb. rewrite !filter_app. cbn. rewrite Ha, Hb.
  destruct (filter f l) as [| x [| y t]]; reflexivity.
Qed.

Lemma create_run_needs_workflow (self : Mongo) (st : store)
    (kv : list (string * json)) (v : Z) (e : exn) :
  kv <> [] ->
  rbind (py_get (JObj kv) "workflow_id") py_int = Ok v ->
  __workflow_object_id st v = Err e ->
  exists e', __create_run self st (JObj kv) = Err e'.
Proof.
  intros Hne Hv He. unfold __create_run. rewrite (truthy_dict kv Hne).
  cbn in Hv |- *. rewrite Hv. cbn. do 2 next_bind.
  rewrite He. cbn. now eexists.
Qed.

(** X4: nothing removes a duplicate, and a duplicate breaks the lookup.
    After the same workflow item has been saved twice, the lookup of its
    id finds two documents and raises: a run item of that workflow is
    logged and not stored. *)
Theorem workflow_saved_twice_blocks_its_runs
    (validate : document -> bool) (self : Mongo) (st : store) (wf : json)
    (w : Workflow) (kv : list (string * json)) (i : json) :
  __create_workflow self st wf = Ok (Some (DWorkflow w)) ->
  validate (DWorkflow w) = true ->
  assoc "id" kv = Some i ->
  rbind (py_get (JObj kv) "workflow_id") py_int = Ok (workflow_id w) ->
  let save_workflow st :=
    snd (fst (save_documents validate self (JList [wf]) (Some "workflow") st))
  in
  let st2 := save_workflow (save_workflow st) in
  List.length (workflows st2) = (List.length (workflows st) + 2)%nat
  /\ save_documents validate self (JList [JObj kv]) (Some "run") st2
     = (Ok tt, st2, [FailedSaving "run" i]).
Proof.
  intros Hc Hv Hid Hw save_workflow st2. subst st2 save_workflow. cbv beta.
  rewrite (save_one_workflow validate self st wf w Hc Hv). cbn [fst snd].
  rewrite (save_one_workflow validate self (insert (DWorkflow w) st) wf w);
    [| now rewrite (create_workflow_same_vcs self st) | assumption].
  cbn [fst snd].
  set (st2 := insert (DWorkflow w) (insert (DWorkflow w) st)).
  split; [cbn; rewrite !length_app; cbn; lia |].
  assert (Hl : __workflow_object_id st2 (workflow_id w)
               = Err MultipleObjectsReturned).
  { unfold __workflow_object_id. cbn [st2 insert workflows next_id].
    rewrite objects_get_two; [reflexivity | cbn; apply Z.eqb_refl ..]. }
  destruct (create_run_needs_workflow self st2 kv _ _
              (assoc_nonempty _ _ _ Hid) Hw Hl) as [e He].
  apply (save_documents_skips validate self "run" (__create_run self)
           [] [] (JObj kv) st2 st2 [] e i); auto.
  - now apply convert_fails.
  - cbn. now rewrite Hid.
Qed.

Lemma workflow_saved_twice_blocks_its_runs_witness :
  save_documents accept_all mongo_o_r (JList [run_7]) (Some "run")
    (snd (fst (save_documents accept_all mongo_o_r (JList [workflow_55])
                 (Some "workflow") store_with_workflow)))
  = (Ok tt,
     snd (fst (save_documents accept_all mongo_o_r (JList [workflow_55])
                 (Some "workflow") store_with_workflow)),
     [FailedSaving "run" (JInt 7)]).
Proof.
  refine (proj2 (workflow_saved_twice_blocks_its_runs accept_all mongo_o_r
                   empty_store workflow_55 _ _ (JInt 7) _ _ _ _)).
  - vm_compute. reflexivity.
  - reflexivity.
  - reflexivity.
  - reflexivity.
Defined.

(** ** Artifacts *)

Lemma save_loop_artifacts (validate : document -> bool) (self : Mongo)
    (st0 : store) (items : list json) :
  Forall (fun d => exists i, py_getitem d "id" = Ok i) items ->
  forall st,
    let '(r, st', _) :=
      save_loop validate (__create_artifact self) "artifact" items st in
    r = Ok tt
    /\ map snd (artifacts st')
       = map snd (artifacts st)
         ++ flat_map (stored_artifact validate self st0) items
    /\ workflows st' = workflows st /\ runs st' = runs st
    /\ jobs st' = jobs st.
Proof.
  induction 1 as [| d items [i Hi] _ IH]; intros st.
  - cbn. now rewrite app_nil_r.
  - cbn [save_loop flat_map]. unfold convert_and_save, stored_artifact at 1.
    change (__create_artifact self st0 d) with (__create_artifact self st d).
    destruct (__create_artifact self st d) as [[x |] | e] eqn:E; cbn [rbind save].
    + destruct (create_artifact_kind _ _ _ _ E) as [a ->].
      destruct (validate (DArtifact a)).
      * specialize (IH (insert (DArtifact a) st)).
        destruct (save_loop _ _ _ items _) as [[r st'] l].
        destruct IH as (-> & Ha & -> & -> & ->).
        rewrite Ha. cbn. rewrite map_app, <- app_assoc. now cbn.
      * rewrite Hi. specialize (IH st).
        destruct (save_loop _ _ _ items _) as [[r st'] l]. exact IH.
    + rewrite Hi. specialize (IH st).
      destruct (save_loop _ _ _ items _) as [[r st'] l]. exact IH.
    + rewrite Hi. specialize (IH st).
      destruct (save_loop _ _ _ items _) as [[r st'] l]. exact IH.
Qed.

(** X5: a batch of artifact items that all have an id.  [save_documents]
    returns, and the artifacts of the database are then the ones it held
    followed by the items that convert and that the driver accepts, as
    converted and in the order of the batch; the other collections are as
    they were. *)
Theorem save_documents_artifacts
    (validate : document -> bool) (self : Mongo) (items : list json)
    (st : store) :
  Forall (fun d => exists i, py_getitem d "id" = Ok i) items ->
  let '(r, st', _) :=
    save_documents validate self (JList items) (Some "artifact") st in
  r = Ok tt
  /\ map snd (artifacts st')
     = map snd (artifacts st) ++ flat_map (stored_artifact validate self st) items
  /\ workflows st' = workflows st /\ runs st' = runs st /\ jobs st' = jobs st.
Proof.
  intros H. destruct items as [| d items].
  - cbn. now rewrite app_nil_r.
  - change (save_documents validate self (JList (d :: items))
              (Some "artifact") st)
      with (save_loop validate (__create_artifact self) "artifact"
              (d :: items) st).
    apply (save_loop_artifacts validate self st (d :: items) H st).
Qed.

Lemma save_documents_artifacts_witness :
  let '(r, st', _) :=
    save_documents accept_all mongo_o_r
      (JList [artifact_4; artifact_no_size; artifact_4]) (Some "artifact")
      empty_store in
  r = Ok tt
  /\ map (fun a => artifact_id (snd a)) (artifacts st') = [4; 4].
Proof.
  pose proof (save_documents_artifacts accept_all mongo_o_r
                [artifact_4; artifact_no_size; artifact_4] empty_store) as H.
  destruct (save_documents _ _ _ _ _) as [[r st'] l].
  destruct H as (Hr & Ha & _).
  - repeat constructor; eexists; reflexivity.
  - split; [assumption |].
    rewrite <- (map_map snd artifact_id), Ha. vm_compute. reflexivity.
Defined.


(** ** Embedded documents *)

Lemma mapM_fails {A B} (f : A -> result B) (l : list A) (d : A) (e : exn) :
  In d l -> f d = Err e -> exists e', mapM f l = Err e'.
Proof.
  induction l as [| a l IH]; cbn; intros Hin Hd; [contradiction |].
  destruct Hin as [-> | Hin].
  - rewrite Hd. cbn. now eexists.
  - destruct (f a); cbn; [| now eexists].
    destruct (IH Hin Hd) as [e' ->]. cbn. now eexists.
Qed.

Lemma mapM_length {A B} (f : A -> result B) (l : list A) (r : list B) :
  mapM f l = Ok r -> List.length r = List.length l.
Proof.
  revert r. induction l as [| a l IH]; cbn; intros r H.
  - now injection H as <-.
  - destruct (f a); cbn in H; [| discriminate].
    destruct (mapM f l); cbn in H; [| discriminate].
    injection H as <-. cbn. now rewrite (IH _ eq_refl).
Qed.

(** [obj["head"]["repo"].get("id")] on a pull request whose head has no
    repository. *)
Lemma create_run_pull_request_no_repo
    (pr head : list (string * json)) :
  assoc "head" pr = Some (JObj head) ->
  assoc "repo" head = Some JNull ->
  __create_run_pull_request (JObj pr) = Err AttributeError.
Proof.
  intros Hh Hr. unfold __create_run_pull_request.
  rewrite (truthy_dict pr (assoc_nonempty _ _ _ Hh)). cbn.
  rewrite Hh. cbn. rewrite Hr. reflexivity.
Qed.

Lemma create_run_needs_pull_requests (self : Mongo) (st : store)
    (kv : list (string * json)) (prs : json) (e : exn) :
  kv <> [] ->
  py_get (JObj kv) "pull_requests" = Ok prs ->
  fst (__create_embedded_docs (Some "run_pull_request") prs) = Err e ->
  exists e', __create_run self st (JObj kv) = Err e'.
Proof.
  intros Hne Hp He. unfold __create_run. rewrite (truthy_dict kv Hne).
  cbn -[__create_embedded_docs] in Hp |- *. injection Hp as Hp. rewrite Hp.
  do 4 (next_bind; cbn -[__create_embedded_docs]).
  rewrite He. cbn. now eexists.
Qed.

(** X6: a run item with an id, one of whose pull requests has a head
    without a repository ([null], as for a fork that was deleted).  The
    conversion of that pull request raises, so the run is not stored: it is
    logged and the batch goes on after it from the database as it was. *)
Theorem run_of_deleted_fork_is_skipped
    (validate : document -> bool) (self : Mongo) (pre rest : list json)
    (kv pr head : list (string * json)) (prs : list json)
    (st st1 : store) (logs1 : list log) (i : json) :
  save_loop validate (__create_run self) "run" pre st = (Ok tt, st1, logs1) ->
  assoc "id" kv = Some i ->
  assoc "pull_requests" kv = Some (JList prs) ->
  In (JObj pr) prs ->
  assoc "head" pr = Some (JObj head) ->
  assoc "repo" head = Some JNull ->
  save_documents validate self (JList (pre ++ JObj kv :: rest)) (Some "run") st
  = let '(r, st', logs) :=
      save_loop validate (__create_run self) "run" rest st1 in
    (r, st', logs1 ++ FailedSaving "run" i :: logs).
Proof.
  intros Hpre Hid Hprs Hin Hh Hr.
  assert (He : exists e,
             fst (__create_embedded_docs (Some "run_pull_request") (JList prs))
             = Err e).
  { unfold __create_embedded_docs.
    replace (truthy (JList prs)) with true by (now destruct prs).
    cbn. apply (mapM_fails _ prs (JObj pr) AttributeError Hin).
    now rewrite (create_run_pull_request_no_repo pr head Hh Hr). }
  destruct He as [e0 He].
  destruct (create_run_needs_pull_requests self st1 kv (JList prs) e0
              (assoc_nonempty _ _ _ Hid)) as [e Hf]; [| assumption |].
  { cbn. now rewrite Hprs. }
  apply (save_documents_skips validate self "run" (__create_run self)
           pre rest (JObj kv) st st1 logs1 e i); auto.
  - now apply convert_fails.
  - cbn. now rewrite Hid.
Qed.

Lemma run_of_deleted_fork_is_skipped_witness :
  save_documents accept_all mongo_o_r
    (JList ([] ++ run_8_from_fork :: [run_7])) (Some "run") store_with_workflow
  = let '(r, st', logs) :=
      save_loop accept_all (__create_run mongo_o_r) "run" [run_7]
        store_with_workflow in
    (r, st', [] ++ FailedSaving "run" (JInt 8) :: logs).
Proof.
  refine (run_of_deleted_fork_is_skipped accept_all mongo_o_r [] [run_7]
            _ _ _ [pull_request_fork_gone] store_with_workflow
            store_with_workflow [] (JInt 8) _ _ _ _ _ _).
  - reflexivity.
  - reflexivity.
  - reflexivity.
  - left. reflexivity.
  - reflexivity.
  - reflexivity.
Defined.


Lemma mapM_Forall2 {A B} (f : A -> result B) (l : list A) (r : list B) :
  mapM f l = Ok r -> Forall2 (fun a b => f a = Ok b) l r.
Proof.
  revert r. induction l as [| a l IH]; cbn; intros r H.
  - injection H as <-. constructor.
  - destruct (f a) as [b |] eqn:E; cbn in H; [| discriminate].
    destruct (mapM f l) as [bs |]; cbn in H; [| discriminate].
    injection H as <-. constructor; auto.
Qed.

Lemma create_job_steps (self : Mongo) (st : store)
    (kv : list (string * json)) (j : Job) :
  __create_job self st (JObj kv) = Ok (Some (DJob j)) ->
  fst (__create_embedded_docs (Some "job_step")
         (match assoc "steps" kv with Some v => v | None => JNull end))
  = Ok (steps j).
Proof.
  unfold __create_job. destruct (negb (truthy (JObj kv))); [discriminate |].
  intros H. cbn -[__create_embedded_docs] in H.
  repeat (step_bind H; cbn -[__create_embedded_docs] in H).
  now injection H as <-.
Qed.

(** X7: the steps of a stored job.  Each is the conversion of the step at
    the same place of the item's list, so there are as many, in the item's
    order; and none of them holds a number other than [0], whatever the
    numbers of the item are. *)
Theorem job_steps_in_order_without_numbers
    (self : Mongo) (st : store) (kv : list (string * json))
    (l : list json) (j : Job) :
  __create_job self st (JObj kv) = Ok (Some (DJob j)) ->
  assoc "steps" kv = Some (JList l) ->
  Forall2 (fun d s => rbind (__create_job_step d) (fun x => Ok (EJobStep x))
                      = Ok s) l (steps j)
  /\ Forall (fun s => match s with
                      | EJobStep (Some x) =>
                          step_number x = None \/ step_number x = Some 0
                      | EJobStep None => True
                      | ERunPullRequest _ => False
                      end) (steps j).
Proof.
  intros Hc Hs. pose proof (create_job_steps self st kv j Hc) as H.
  rewrite Hs in H. unfold __create_embedded_docs in H.
  assert (HF : Forall2 (fun d s => rbind (__create_job_step d)
                                     (fun x => Ok (EJobStep x)) = Ok s)
                 l (steps j)).
  { destruct l as [| d l]; cbn in H.
    - injection H as <-. constructor.
    - now apply mapM_Forall2. }
  split; [assumption |].
  clear H Hc Hs. revert HF. generalize (steps j) as ss. intros ss HF.
  induction HF as [| d s l ss Hd _ IH]; [constructor |].
  constructor; [| assumption].
  destruct (__create_job_step d) as [[x |] |] eqn:E; cbn in Hd;
    try discriminate; injection Hd as <-; [| exact I].
  now apply (create_job_step_number d).
Qed.

Lemma job_steps_in_order_without_numbers_witness :
  exists j,
    __create_job mongo_o_r store_with_run job_9 = Ok (Some (DJob j))
    /\ Forall2 (fun d s => rbind (__create_job_step d)
                             (fun x => Ok (EJobStep x)) = Ok s)
         [step_3] (steps j)
    /\ Forall (fun s => match s with
                        | EJobStep (Some x) =>
                            step_number x = None \/ step_number x = Some 0
                        | EJobStep None => True
                        | ERunPullRequest _ => False
                        end) (steps j).
Proof.
  eexists. split; [vm_compute; reflexivity |].
  apply (job_steps_in_order_without_numbers mongo_o_r store_with_run
           (match job_9 with JObj kv => kv | _ => [] end) [step_3] _).
  - vm_compute. reflexivity.
  - reflexivity.
Defined.

End StoreFacts.

(* ================================================================== *)
(** * The loop of [paginating] over a whole script *)
(* ================================================================== *)

Module PagingFacts.
Import Py Datetime Http Effects Traces TraceFacts Inputs Paging.

(** ** A status that is neither 200 nor 403 *)

(** X8: a response whose status is neither 200 nor 403 ends the process.
    In both fetchers the request is counted, three error lines are logged
    (the status, the URL with its page, the response), and the process
    exits with status 1: nothing is handed to the sink, the page number is
    kept and the rest of the script is not asked for. *)
Theorem unknown_status_is_fatal
    (S : Type) (checker : option string) (url : string) (x : exchange)
    (rs : list exchange) (gA : SHARK_github.GitHub S)
    (gB : shark_github.GitHub S) (w : world S) (p : Z) :
  status_code (reply x) <> 200 ->
  status_code (reply x) <> 403 ->
  SHARK_github.page gA = Some p ->
  shark_github.page gB = p ->
  SHARK_github.paginating url checker (x :: rs) (gA, w)
  = (Exits 1,
     (SHARK_github.set_total_requests (SHARK_github.total_requests gA + 1) gA,
      w),
     rs,
     [Get (String.append url (page_suffix p)) (__headers w);
      Log ERROR "Error in request status_code: {}"
        [JInt (status_code (reply x))];
      Log ERROR "Error in request github_url: {}"
        [JStr (String.append url (page_suffix p))];
      Log ERROR "<Response [{}]>" [JInt (status_code (reply x))]])
  /\ shark_github.paginating url checker (x :: rs) (gB, w)
     = (Exits 1,
        (shark_github.set_total_requests (shark_github.total_requests gB + 1)
           gB, w),
        rs,
        [Get (String.append url (page_suffix p)) (__headers w);
         Log ERROR "Error in request status_code: {}"
           [JInt (status_code (reply x))];
         Log ERROR "Error in request github_url: {}"
           [JStr (String.append url (page_suffix p))];
         Log ERROR "<Response [{}]>" [JInt (status_code (reply x))]]).
Proof.
  intros H200 H403 HpA HpB.
  apply Z.eqb_neq in H200, H403.
  split.
  - unfold SHARK_github.paginating. cbn [SHARK_github.paginating_loop].
    rewrite (SHARKFacts.send_ok S url gA w p HpA).
    unfold SHARK_github.paginating_receive.
    cbv [bind_act modify_self]. cbn [fst snd]. rewrite H200, H403.
    reflexivity.
  - unfold shark_github.paginating. cbn [shark_github.paginating_loop].
    rewrite (sharkFacts.send_ok_lc S url gB w).
    unfold shark_github.paginating_receive.
    cbv [bind_act modify_self]. cbn [fst snd]. rewrite H200, H403, HpB.
    reflexivity.
Qed.

Lemma unknown_status_is_fatal_witness :
  r_out (SHARK_github.paginating "u" (Some "workflows")
           [mk_exchange (mk_response 404 "Not Found" [] None) 0;
            ok_200 two_workflows 0]
           (SHARK_github.set_page 1 github_A, world0))
  = Exits 1
  /\ r_out (shark_github.paginating "u" (Some "workflows")
              [mk_exchange (mk_response 404 "Not Found" [] None) 0;
               ok_200 two_workflows 0]
              (github_B, world0))
     = Exits 1.
Proof.
  destruct (unknown_status_is_fatal batches (Some "workflows") "u"
              (mk_exchange (mk_response 404 "Not Found" [] None) 0)
              [ok_200 two_workflows 0]
              (SHARK_github.set_page 1 github_A) github_B world0 1)
    as [HA HB].
  - cbn. lia.
  - cbn. lia.
  - reflexivity.
  - reflexivity.
  - rewrite HA, HB. split; reflexivity.
Defined.


(** ** Rate-limit responses only *)

Lemma sleeps_app (a b : list event) : sleeps (a ++ b) = sleeps a ++ sleeps b.
Proof.
  induction a as [| e a IH]; simpl; [reflexivity |].
  destruct e; simpl; now rewrite IH.
Qed.

Lemma map_seq_S {A} (f : nat -> A) (n : nat) :
  map f (seq 0 (S n)) = f O :: map (fun k => f (S k)) (seq 0 n).
Proof. cbn [seq map]. now rewrite <- seq_shift, map_map. Qed.

Lemma with_pages_S (p : Z) (n : nat) (url : string) :
  with_pages p (S n) url = with_pages p n (String.append url (page_suffix p)).
Proof. unfold with_pages. now rewrite Nat.iter_succ_r. Qed.

Section Retry.

Variable S : Type.
Variable checker : option string.

Import SHARK_github.

Lemma loop_rate_limited (w : world S) (xs : list exchange) :
  Forall (rate_limited (localtime w)) xs ->
  forall url (g : GitHub S) p,
    page g = Some p ->
    let r := paginating_loop checker xs url (g, w) in
    r_out r = Blocks
    /\ requests (r_events r)
       = map (fun k => with_pages p (Datatypes.S k) url)
           (seq 0 (Datatypes.S (List.length xs)))
    /\ saved (r_events r) = []
    /\ sleeps (r_events r) = map (sleep_of (localtime w)) xs
    /\ page (fst (r_state r)) = Some p
    /\ limit_handler_counter (fst (r_state r))
       = limit_handler_counter g + Z.of_nat (List.length xs)
    /\ snd (r_state r) = w.
Proof.
  induction 1 as [| x xs (Hs & reset & reset_time & current_time
                              & Hr & Hl & Hc) _ IH];
    intros url g p Hp;
    cbn [paginating_loop]; rewrite (SHARKFacts.send_ok S url g w p Hp).
  - cbn. do 4 (split; [reflexivity |]). split; [assumption |].
    split; [lia | reflexivity].
  - rewrite (SHARKFacts.receive_403 S checker _ x g w reset reset_time
               current_time Hs Hr Hl Hc).
    set (g1 := set_limit_handler_counter (limit_handler_counter g + 1)
                 (set_total_requests (total_requests g + 1) g)).
    specialize (IH (String.append url (page_suffix p)) g1 p Hp).
    cbv zeta in IH.
    destruct (paginating_loop checker xs _ (g1, w))
      as [[[o3 [g3 w3]] rs3] ev3].
    cbn [r_out r_events r_state fst snd] in IH |- *.
    destruct IH as (-> & Hreq & Hsaved & Hsleeps & Hpage & Hlimit & ->).
    split; [reflexivity |].
    split.
    { rewrite map_seq_S. cbn [app requests]. f_equal.
      rewrite Hreq. apply map_ext. intros k. now rewrite !with_pages_S. }
    split; [cbn; assumption |].
    split.
    { cbn. rewrite Hsleeps. unfold sleep_of at 2. now rewrite Hr, Hl, Hc. }
    split; [assumption |].
    split; [| reflexivity].
    rewrite Hlimit. cbn. lia.
Qed.

End Retry.

(** X9: in [src/actionSHARK] a script of rate-limit responses only, each
    with a reset header that reads as an int and that the platform's
    [fromtimestamp] converts, as it does the clock, is retried to its end.
    The loop does not exit or raise on them: it is left waiting for the
    next response.  Nothing is handed to the sink and the page number
    stays; there is one sleep per response, of the seconds between the two
    local datetimes; and each retry requests the URL of the request
    before with the page appended once more, so the request number [k]
    carries [&page=p] [k] times. *)
Theorem rate_limits_only_are_retried
    (S : Type) (checker : option string) (url : string)
    (xs : list exchange) (g : SHARK_github.GitHub S) (w : world S) (p : Z) :
  Forall (rate_limited (localtime w)) xs ->
  SHARK_github.page g = Some p ->
  let r := SHARK_github.paginating url checker xs (g, w) in
  r_out r = Blocks
  /\ requests (r_events r)
     = map (fun k => with_pages p (Datatypes.S k) url)
         (seq 0 (Datatypes.S (List.length xs)))
  /\ saved (r_events r) = []
  /\ sleeps (r_events r) = map (sleep_of (localtime w)) xs
  /\ SHARK_github.page (fst (r_state r)) = Some p
  /\ SHARK_github.limit_handler_counter (fst (r_state r))
     = SHARK_github.limit_handler_counter g + Z.of_nat (List.length xs)
  /\ snd (r_state r) = w.
Proof.
  intros Hxs Hp. apply (loop_rate_limited S checker w xs Hxs url g p Hp).
Qed.

Lemma rate_limits_only_are_retried_witness :
  let r := SHARK_github.paginating "u" (Some "workflows")
             [limited 1000000; limited 1000030]
             (SHARK_github.set_page 1 github_A, world0) in
  r_out r = Blocks
  /\ requests (r_events r) = ["u&page=1"; "u&page=1&page=1";
                              "u&page=1&page=1&page=1"]
  /\ saved (r_events r) = []
  /\ sleeps (r_events r) = [60; 30].
Proof.
  destruct (rate_limits_only_are_retried batches (Some "workflows") "u"
              [limited 1000000; limited 1000030]
              (SHARK_github.set_page 1 github_A) world0 1)
    as (H1 & H2 & H3 & H4 & _).
  - repeat constructor.
    + exists 1000060, 1000060, 1000000. repeat split.
    + exists 1000060, 1000060, 1000030. repeat split.
  - reflexivity.
  - cbv zeta. rewrite H1, H2, H3, H4. repeat split.
Defined.


(** ** Several pages *)

Lemma page_urls_S (url : string) (p : Z) (n : nat) :
  page_urls url p (S n)
  = String.append url (page_suffix p) :: page_urls url (p + 1) n.
Proof.
  unfold page_urls. rewrite map_seq_S. f_equal.
  - now rewrite Z.add_0_r.
  - apply map_ext. intros k. do 2 f_equal. lia.
Qed.

Lemma page_urls_last (url : string) (p : Z) (n : nat) :
  page_urls url p (S n)
  = page_urls url p n ++ [String.append url (page_suffix (p + Z.of_nat n))].
Proof. unfold page_urls. now rewrite seq_S, map_app. Qed.

Lemma batches_of_app (a : option string) (l1 l2 : list (list json)) :
  batches_of a (l1 ++ l2) = batches_of a l1 ++ batches_of a l2.
Proof. unfold batches_of. apply flat_map_app. Qed.

Lemma sink_after_app {S : Type} (k : sink S)
    (b1 b2 : list (json * option string)) (s : S) :
  sink_after k (b1 ++ b2) s = sink_after k b2 (sink_after k b1 s).
Proof. unfold sink_after. apply fold_left_app. Qed.

Section Pages.

Variable S : Type.
Variable checker : option string.
Variable k : sink S.
Variable pp : Z.
Variable a : option string.
Hypothesis k_returns : forall items action s, fst (k items action s) = Ok tt.

Lemma k_eq items action s : k items action s = (Ok tt, snd (k items action s)).
Proof.
  pose proof (k_returns items action s) as H.
  destruct (k items action s) as [r s']. cbn in *. now subst.
Qed.

(** The loop of [src/actionSHARK] over full pages. *)
Lemma loop_full_pages (pages : list (list json)) (xs : list exchange) :
  Forall2 (page_of checker) xs pages ->
  Forall (full pp) pages ->
  forall rest url (g : SHARK_github.GitHub S) w p,
    SHARK_github.page g = Some p ->
    SHARK_github.save_mongo g = k ->
    SHARK_github.per_page g = pp ->
    SHARK_github.current_action g = a ->
    exists g' w' ev1,
      SHARK_github.paginating_loop checker (xs ++ rest) url (g, w)
      = (let '(o, st', rs', ev') :=
           SHARK_github.paginating_loop checker rest url (g', w') in
         (o, st', rs', ev1 ++ ev'))
      /\ SHARK_github.page g' = Some (p + Z.of_nat (List.length pages))
      /\ SHARK_github.save_mongo g' = k
      /\ SHARK_github.per_page g' = pp
      /\ SHARK_github.current_action g' = a
      /\ __headers w' = __headers w
      /\ sink_state w' = sink_after k (batches_of a pages) (sink_state w)
      /\ requests ev1 = page_urls url p (List.length pages)
      /\ saved ev1 = batches_of a pages.
Proof.
  induction 1 as [| x items xs pages (Hs & body & Hc & Hi) _ IH];
    intros Hfull rest url g w p Hp Hk Hpp Ha.
  - exists g, w, []. cbn.
    destruct (SHARK_github.paginating_loop checker rest url (g, w))
      as [[[o st'] rs'] ev'].
    rewrite Z.add_0_r. repeat split; auto.
  - apply Forall_cons_iff in Hfull. destruct Hfull as [[Hne Hlen] Hfull'].
    assert (Hsink : SHARK_github.save_mongo g (JList items)
                      (SHARK_github.current_action g) (sink_state w)
                    = (Ok tt, snd (k (JList items) a (sink_state w))))
      by (rewrite Hk, Ha; apply k_eq).
    cbn [app SHARK_github.paginating_loop].
    rewrite (SHARKFacts.send_ok S url g w p Hp).
    rewrite (SHARKFacts.receive_items S checker _ x g w body (JList items)
               (Z.of_nat (List.length items)) p
               (snd (k (JList items) a (sink_state w)))
               Hs Hc Hi eq_refl (FetchFacts.truthy_items items Hne)
               Hsink Hp).
    rewrite Ha, Hpp.
    replace (Z.of_nat (List.length items) <? pp)
      with false by (symmetry; apply Z.ltb_ge; lia).
    rewrite drop_last_page.
    set (g1 := SHARK_github.set_total_requests _ _).
    set (w1 := set_sink_state _ w).
    destruct (IH Hfull' rest url g1 w1 (p + 1) eq_refl Hk Hpp Ha)
      as (g' & w' & ev1 & E & Hp' & Hk' & Hpp' & Ha' & Hh' & Hst & Hreq & Hsav).
    exists g', w',
      ([Get (String.append url (page_suffix p)) (__headers w)]
       ++ [SaveMongo (JList items) a] ++ ev1).
    rewrite E.
    destruct (SHARK_github.paginating_loop checker rest url (g', w'))
      as [[[o st'] rs'] ev'].
    split; [now rewrite <- !app_assoc |].
    split; [rewrite Hp'; f_equal; cbn [List.length]; lia |].
    do 4 (split; [assumption |]).
    split.
    { rewrite Hst. unfold w1. cbn [sink_state set_sink_state].
      destruct items as [| i0 items]; [contradiction |].
      reflexivity. }
    split.
    { cbn [List.length]. rewrite page_urls_S. cbn. now rewrite Hreq. }
    cbn. rewrite Hsav. destruct items as [| i0 items]; [contradiction |].
    reflexivity.
Qed.

(** The loop of [src/actionshark] over full pages. *)
Lemma loop_full_pages_lc (pages : list (list json)) (xs : list exchange) :
  Forall2 (page_of checker) xs pages ->
  Forall (full pp) pages ->
  forall rest url (g : shark_github.GitHub S) w,
    shark_github.save_mongo g = k ->
    shark_github.per_page g = pp ->
    shark_github.current_action g = a ->
    exists g' w' ev1,
      shark_github.paginating_loop checker (xs ++ rest) url (g, w)
      = (let '(o, st', rs', ev') :=
           shark_github.paginating_loop checker rest url (g', w') in
         (o, st', rs', ev1 ++ ev'))
      /\ shark_github.page g'
         = shark_github.page g + Z.of_nat (List.length pages)
      /\ shark_github.save_mongo g' = k
      /\ shark_github.per_page g' = pp
      /\ shark_github.current_action g' = a
      /\ __headers w' = __headers w
      /\ sink_state w' = sink_after k (batches_of a pages) (sink_state w)
      /\ requests ev1
         = page_urls url (shark_github.page g) (List.length pages)
      /\ saved ev1 = batches_of a pages.
Proof.
  induction 1 as [| x items xs pages (Hs & body & Hc & Hi) _ IH];
    intros Hfull rest url g w Hk Hpp Ha.
  - exists g, w, []. cbn.
    destruct (shark_github.paginating_loop checker rest url (g, w))
      as [[[o st'] rs'] ev'].
    rewrite Z.add_0_r. repeat split; auto.
  - apply Forall_cons_iff in Hfull. destruct Hfull as [[Hne Hlen] Hfull'].
    assert (Hsink : shark_github.save_mongo g (JList items)
                      (shark_github.current_action g) (sink_state w)
                    = (Ok tt, snd (k (JList items) a (sink_state w))))
      by (rewrite Hk, Ha; apply k_eq).
    cbn [app shark_github.paginating_loop].
    rewrite (sharkFacts.send_ok_lc S url g w).
    rewrite (sharkFacts.receive_items_lc S checker _ x g w body (JList items)
               (Z.of_nat (List.length items))
               (snd (k (JList items) a (sink_state w)))
               Hs Hc Hi eq_refl (FetchFacts.truthy_items items Hne)
               Hsink).
    rewrite Ha, Hpp.
    replace (Z.of_nat (List.length items) <? pp)
      with false by (symmetry; apply Z.ltb_ge; lia).
    rewrite drop_last_page.
    set (g1 := shark_github.set_total_requests _ _).
    set (w1 := set_sink_state _ w).
    destruct (IH Hfull' rest url g1 w1 Hk Hpp Ha)
      as (g' & w' & ev1 & E & Hp' & Hk' & Hpp' & Ha' & Hh' & Hst & Hreq & Hsav).
    exists g', w',
      ([Get (String.append url (page_suffix (shark_github.page g)))
          (__headers w)]
       ++ [SaveMongo (JList items) a] ++ ev1).
    rewrite E.
    destruct (shark_github.paginating_loop checker rest url (g', w'))
      as [[[o st'] rs'] ev'].
    split; [now rewrite <- !app_assoc |].
    split; [rewrite Hp'; cbn; lia |].
    do 4 (split; [assumption |]).
    split.
    { rewrite Hst. unfold w1. cbn [sink_state set_sink_state].
      destruct items as [| i0 items]; [contradiction |].
      reflexivity. }
    split.
    { cbn [List.length]. rewrite page_urls_S. cbn. now rewrite Hreq. }
    cbn. rewrite Hsav. destruct items as [| i0 items]; [contradiction |].
    reflexivity.
Qed.

Lemma batches_of_full (pages : list (list json)) :
  Forall (full pp) pages ->
  List.length (batches_of a pages) = List.length pages.
Proof.
  induction 1 as [| items pages [Hne _] _ IH]; [reflexivity |].
  destruct items as [| i0 items]; [contradiction |].
  unfold batches_of in *. cbn. now rewrite IH.
Qed.

Lemma py_len_list (l : list json) :
  py_len (JList l) = Ok (Z.of_nat (List.length l)).
Proof. reflexivity. Qed.

(** Full pages and then a short one, in [src/actionSHARK]. *)
Lemma loop_pages (pages : list (list json)) (xs : list exchange)
    (x_last : exchange) (last : list json) (rs : list exchange)
    (url : string) (g : SHARK_github.GitHub S) (w : world S) (p : Z) :
  Forall2 (page_of checker) xs pages ->
  Forall (full pp) pages ->
  page_of checker x_last last ->
  Z.of_nat (List.length last) < pp ->
  SHARK_github.page g = Some p ->
  SHARK_github.save_mongo g = k ->
  SHARK_github.per_page g = pp ->
  SHARK_github.current_action g = a ->
  let r := SHARK_github.paginating_loop checker (xs ++ x_last :: rs) url
             (g, w) in
  r_out r = Returns tt
  /\ r_rest r = rs
  /\ requests (r_events r) = page_urls url p (Datatypes.S (List.length pages))
  /\ saved (r_events r) = batches_of a (pages ++ [last])
  /\ sink_state (snd (r_state r))
     = sink_after k (batches_of a (pages ++ [last])) (sink_state w)
  /\ SHARK_github.page (fst (r_state r))
     = Some (p + Z.of_nat (List.length (batches_of a (pages ++ [last])))).
Proof.
  intros Hxs Hfull (Hs & body & Hc & Hi) Hshort Hp Hk Hpp Ha.
  destruct (loop_full_pages pages xs Hxs Hfull (x_last :: rs) url g w p
              Hp Hk Hpp Ha)
    as (g' & w' & ev1 & E & Hp' & Hk' & Hpp' & Ha' & Hh' & Hst & Hreq & Hsav).
  cbv zeta. rewrite E. clear E.
  rewrite batches_of_app, sink_after_app, length_app,
    (batches_of_full pages Hfull), page_urls_last, <- Hst, <- Hreq, <- Hsav.
  cbn [SHARK_github.paginating_loop].
  rewrite (SHARKFacts.send_ok S url g' w' _ Hp').
  destruct last as [| i0 last].
  - rewrite (SHARKFacts.receive_empty S checker _ x_last g' w' body (JList [])
               0 Hs Hc Hi eq_refl eq_refl).
    cbn [r_out r_rest r_events r_state fst snd].
    rewrite requests_app, saved_app. cbn.
    rewrite Nat.add_0_r. repeat split; assumption.
  - assert (Hsink : SHARK_github.save_mongo g' (JList (i0 :: last))
                      (SHARK_github.current_action g') (sink_state w')
                    = (Ok tt, snd (k (JList (i0 :: last)) a (sink_state w'))))
      by (rewrite Hk', Ha'; apply k_eq).
    rewrite (SHARKFacts.receive_items S checker _ x_last g' w' body
               (JList (i0 :: last)) _ _ _ Hs Hc Hi (py_len_list _) eq_refl
               Hsink Hp').
    rewrite Hpp'.
    replace (Z.of_nat (List.length (i0 :: last)) <? pp) with true
      by (symmetry; apply Z.ltb_lt; lia).
    cbn [r_out r_rest r_events r_state fst snd].
    rewrite requests_app, saved_app, Ha'. cbn.
    repeat split. f_equal. lia.
Qed.

(** Full pages and then a short one, in [src/actionshark]. *)
Lemma loop_pages_lc (pages : list (list json)) (xs : list exchange)
    (x_last : exchange) (last : list json) (rs : list exchange)
    (url : string) (g : shark_github.GitHub S) (w : world S) :
  Forall2 (page_of checker) xs pages ->
  Forall (full pp) pages ->
  page_of checker x_last last ->
  Z.of_nat (List.length last) < pp ->
  shark_github.save_mongo g = k ->
  shark_github.per_page g = pp ->
  shark_github.current_action g = a ->
  let r := shark_github.paginating_loop checker (xs ++ x_last :: rs) url
             (g, w) in
  r_out r = Returns tt
  /\ r_rest r = rs
  /\ requests (r_events r)
     = page_urls url (shark_github.page g) (Datatypes.S (List.length pages))
  /\ saved (r_events r) = batches_of a (pages ++ [last])
  /\ sink_state (snd (r_state r))
     = sink_after k (batches_of a (pages ++ [last])) (sink_state w)
  /\ shark_github.page (fst (r_state r))
     = shark_github.page g + Z.of_nat (List.length pages).
Proof.
  intros Hxs Hfull (Hs & body & Hc & Hi) Hshort Hk Hpp Ha.
  destruct (loop_full_pages_lc pages xs Hxs Hfull (x_last :: rs) url g w
              Hk Hpp Ha)
    as (g' & w' & ev1 & E & Hp' & Hk' & Hpp' & Ha' & Hh' & Hst & Hreq & Hsav).
  cbv zeta. rewrite E. clear E.
  rewrite batches_of_app, sink_after_app, page_urls_last,
    <- Hst, <- Hreq, <- Hsav, <- Hp'.
  cbn [shark_github.paginating_loop].
  rewrite (sharkFacts.send_ok_lc S url g' w').
  destruct last as [| i0 last].
  - rewrite (sharkFacts.receive_empty_lc S checker _ x_last g' w' body
               (JList []) 0 Hs Hc Hi eq_refl eq_refl).
    cbn [r_out r_rest r_events r_state fst snd].
    rewrite requests_app, saved_app. cbn.
    rewrite !app_nil_r. repeat split; assumption.
  - assert (Hsink : shark_github.save_mongo g' (JList (i0 :: last))
                      (shark_github.current_action g') (sink_state w')
                    = (Ok tt, snd (k (JList (i0 :: last)) a (sink_state w'))))
      by (rewrite Hk', Ha'; apply k_eq).
    rewrite (sharkFacts.receive_items_lc S checker _ x_last g' w' body
               (JList (i0 :: last)) _ _ Hs Hc Hi (py_len_list _) eq_refl
               Hsink).
    rewrite Hpp'.
    replace (Z.of_nat (List.length (i0 :: last)) <? pp) with true
      by (symmetry; apply Z.ltb_lt; lia).
    cbn [r_out r_rest r_events r_state fst snd].
    rewrite requests_app, saved_app, Ha'. cbn.
    repeat split.
Qed.

End Pages.

(** X10: a resource of several pages.  When the script holds full pages and
    then a page with fewer items than the page size, and the sink returns,
    [paginating] returns after that page and leaves the rest of the script.
    It has requested the pages [p], [p + 1], ... at the URL it was entered
    with, one request per page and in that order, and handed every page
    that is not empty to the sink, in that order, under the current action.
    The page number ends one past the last page handed over in
    [src/actionSHARK], at the last page requested in [src/actionshark]. *)
Theorem pages_are_fetched_in_order
    (S : Type) (checker : option string) (k : sink S) (pp : Z)
    (a : option string) (pages : list (list json)) (xs : list exchange)
    (x_last : exchange) (last : list json) (rs : list exchange)
    (url : string) (gA : SHARK_github.GitHub S)
    (gB : shark_github.GitHub S) (w : world S) (p : Z) :
  (forall items action s, fst (k items action s) = Ok tt) ->
  Forall2 (page_of checker) xs pages ->
  Forall (full pp) pages ->
  page_of checker x_last last ->
  Z.of_nat (List.length last) < pp ->
  SHARK_github.page gA = Some p /\ SHARK_github.save_mongo gA = k
  /\ SHARK_github.per_page gA = pp /\ SHARK_github.current_action gA = a ->
  shark_github.page gB = p /\ shark_github.save_mongo gB = k
  /\ shark_github.per_page gB = pp /\ shark_github.current_action gB = a ->
  let rA := SHARK_github.paginating url checker (xs ++ x_last :: rs) (gA, w) in
  let rB := shark_github.paginating url checker (xs ++ x_last :: rs) (gB, w) in
  (r_out rA = Returns tt
   /\ r_rest rA = rs
   /\ requests (r_events rA) = page_urls url p (Datatypes.S (List.length pages))
   /\ saved (r_events rA) = batches_of a (pages ++ [last])
   /\ sink_state (snd (r_state rA))
      = sink_after k (batches_of a (pages ++ [last])) (sink_state w)
   /\ SHARK_github.page (fst (r_state rA))
      = Some (p + Z.of_nat (List.length (batches_of a (pages ++ [last])))))
  /\ (r_out rB = Returns tt
      /\ r_rest rB = rs
      /\ requests (r_events rB)
         = page_urls url p (Datatypes.S (List.length pages))
      /\ saved (r_events rB) = batches_of a (pages ++ [last])
      /\ sink_state (snd (r_state rB))
         = sink_after k (batches_of a (pages ++ [last])) (sink_state w)
      /\ shark_github.page (fst (r_state rB))
         = p + Z.of_nat (List.length pages)).
Proof.
  intros Hk Hxs Hfull Hlast Hshort (HpA & HkA & HppA & HaA)
    (HpB & HkB & HppB & HaB).
  split.
  - apply (loop_pages S checker k pp a Hk pages xs x_last last rs url gA w p);
      assumption.
  - rewrite <- HpB.
    apply (loop_pages_lc S checker k pp a Hk pages xs x_last last rs url gB w);
      assumption.
Qed.


Lemma pages_are_fetched_in_order_witness :
  let rA := SHARK_github.paginating "u" (Some "workflows")
              ([ok_200 two_workflows 0] ++ ok_200 one_workflow 0 :: [])
              (github_A_by_2, world0) in
  let rB := shark_github.paginating "u" (Some "workflows")
              ([ok_200 two_workflows 0] ++ ok_200 one_workflow 0 :: [])
              (github_B_by_2, world0) in
  (r_out rA = Returns tt
   /\ requests (r_events rA) = ["u&page=1"; "u&page=2"]
   /\ saved (r_events rA)
      = [(JList [workflow_55; workflow_55], Some "workflow");
         (JList [workflow_55], Some "workflow")])
  /\ (r_out rB = Returns tt
      /\ requests (r_events rB) = ["u&page=1"; "u&page=2"]
      /\ saved (r_events rB)
         = [(JList [workflow_55; workflow_55], Some "workflow");
            (JList [workflow_55], Some "workflow")]).
Proof.
  destruct (pages_are_fetched_in_order batches (Some "workflows") keep 2
              (Some "workflow") [[workflow_55; workflow_55]]
              [ok_200 two_workflows 0] (ok_200 one_workflow 0) [workflow_55]
              [] "u" github_A_by_2 github_B_by_2 world0 1)
    as [(A1 & _ & A3 & A4 & _) (B1 & _ & B3 & B4 & _)].
  - reflexivity.
  - repeat constructor. eexists. split; reflexivity.
  - repeat constructor. discriminate. cbn. lia.
  - split; [reflexivity |]. eexists. split; reflexivity.
  - cbn. lia.
  - repeat split.
  - repeat split.
  - cbv zeta. rewrite A1, A3, A4, B1, B3, B4. repeat split.
Defined.

End PagingFacts.

(* ================================================================== *)
(** * The order of a whole run *)
(* ================================================================== *)

Module OrderRules.
Import Py Datetime Http Effects Traces TraceFacts Paging.

Lemma answers_split (checker : option string) (pp : Z)
    (xs : list exchange) (pages : list (list json)) :
  answers checker pp xs pages ->
  exists xs0 x_last front last,
    xs = xs0 ++ [x_last] /\ pages = front ++ [last]
    /\ Forall2 (page_of checker) xs0 front
    /\ Forall (full pp) front
    /\ page_of checker x_last last
    /\ Z.of_nat (List.length last) < pp.
Proof.
  induction 1 as [x items Hp Hs | x items xs pages Hp Hf _ IH].
  - exists [], x, [], items.
    split; [reflexivity |]. split; [reflexivity |].
    split; [constructor |]. split; [constructor |]. now split.
  - destruct IH as (xs0 & x_last & front & last & -> & -> & H2 & Hfull & Hl
                    & Hs).
    exists (x :: xs0), x_last, (items :: front), last.
    split; [reflexivity |]. split; [reflexivity |].
    split; [now constructor |]. split; [now constructor |]. now split.
Qed.

Section Rules.

Variables Self S : Type.
Variable inv : Self -> Prop.
Variable h : list (string * string).

(** The plan of [m ;; k] when the plan of [k] depends on the state [m]
    ends in. *)
Lemma in_order_bind {A B} (m : Req Self S A) (k : A -> Req Self S B)
    (p1 : list string) (p2 : A -> state Self S -> list string)
    (rs : list exchange) (st : state Self S) :
  ok_state inv h st ->
  sat inv h m (eq p1) ->
  (forall a rs1 st1,
      ok_state inv h st1 -> in_order (k a rs1 st1) (p2 a st1)) ->
  in_order (bind_req m k rs st)
    (p1 ++ match m rs st with
           | (Returns a, st1, _, _) => p2 a st1
           | _ => []
           end).
Proof.
  intros Hst Hm Hk.
  destruct (Hm rs st Hst) as (Hok & _ & done & plan & <- & Hpre & Hf & Hret).
  unfold bind_req.
  destruct (m rs st) as [[[[a | e | c |] st1] rs1] ev1];
    cbn [r_state r_events r_out fst snd] in *.
  2-4: exists done; cbn [r_out r_events fst snd];
    (split; [now apply is_prefix_app_r |]);
    (split; [assumption | discriminate]).
  destruct (Hk a rs1 st1 Hok) as (done2 & Hpre2 & Hf2 & Hret2).
  destruct (k a rs1 st1) as [[[o2 st2] rs2] ev2].
  cbn [r_state r_events r_out fst snd] in *.
  rewrite (Hret a eq_refl) in *.
  exists (p1 ++ done2). cbn [r_state r_events r_out fst snd].
  split; [now apply is_prefix_app_l |].
  split; [rewrite requests_app; now apply follows_app |].
  intros b Hb. f_equal. eauto.
Qed.

Lemma sat_in_order {A} (m : Req Self S A) (p : list string)
    (rs : list exchange) (st : state Self S) :
  ok_state inv h st -> sat inv h m (eq p) -> in_order (m rs st) p.
Proof.
  intros Hst Hm.
  destruct (Hm rs st Hst) as (_ & _ & done & plan & <- & Hpre & Hf & Hret).
  now exists done.
Qed.

End Rules.

Section PerformsRules.

Variables Self S : Type.
Variable good : Self -> Prop.
Variable k : sink S.

Lemma performs_eq (s0 : S) (m : Req Self S unit) xs xs' urls urls' bs bs' :
  performs good k s0 m xs urls bs ->
  xs' = xs -> urls' = urls -> bs' = bs ->
  performs good k s0 m xs' urls' bs'.
Proof. now intros H -> -> ->. Qed.

Lemma performs_bind (s0 : S) (m1 m2 : Req Self S unit) xs1 xs2 u1 u2 b1 b2 :
  performs good k s0 m1 xs1 u1 b1 ->
  performs good k (sink_after k b1 s0) m2 xs2 u2 b2 ->
  performs good k s0 (bind_req m1 (fun _ => m2)) (xs1 ++ xs2) (u1 ++ u2)
    (b1 ++ b2).
Proof.
  intros H1 H2 rest g w Hg Hs.
  destruct (H1 (xs2 ++ rest) g w Hg Hs)
    as (g1 & w1 & ev1 & E1 & Hg1 & Hs1 & Hu1 & Hb1).
  destruct (H2 rest g1 w1 Hg1 Hs1)
    as (g2 & w2 & ev2 & E2 & Hg2 & Hs2 & Hu2 & Hb2).
  exists g2, w2, (ev1 ++ ev2).
  unfold bind_req. rewrite <- app_assoc, E1, E2.
  split; [reflexivity |]. split; [assumption |].
  split; [now rewrite PagingFacts.sink_after_app |].
  now rewrite requests_app, saved_app, Hu1, Hu2, Hb1, Hb2.
Qed.

Lemma performs_quiet (s0 : S) (a : Act Self S unit) :
  (forall g w, good g ->
     exists ev, a (g, w) = (Returns tt, (g, w), ev)
                /\ requests ev = [] /\ saved ev = []) ->
  performs good k s0 (lift a) [] [] [].
Proof.
  intros Ha rest g w Hg Hs. destruct (Ha g w Hg) as (ev & E & Hu & Hb).
  exists g, w, ev. unfold lift. rewrite E. cbn. auto.
Qed.

Lemma performs_log (s0 : S) lvl msg args :
  performs good k s0 (lift (log lvl msg args)) [] [] [].
Proof.
  apply performs_quiet. intros g w _. eexists. split; [reflexivity |].
  split; reflexivity.
Qed.

Lemma performs_after_log (s0 : S) lvl msg args (m : Req Self S unit)
    xs urls bs :
  performs good k s0 m xs urls bs ->
  performs good k s0 (bind_req (lift (log lvl msg args)) (fun _ => m))
    xs urls bs.
Proof.
  intros H. apply (performs_bind s0 _ _ [] xs [] urls [] bs);
    [apply performs_log | exact H].
Qed.

Lemma performs_world (s0 : S) (kk : world S -> Req Self S unit) xs urls bs :
  (forall w, sink_state w = s0 -> performs good k s0 (kk w) xs urls bs) ->
  performs good k s0 (bind_req (lift get_world) kk) xs urls bs.
Proof.
  intros H rest g w Hg Hs.
  destruct (H w Hs rest g w Hg Hs) as (g' & w' & ev & E & R).
  exists g', w', ev. unfold bind_req, lift, get_world. cbn [fst snd].
  rewrite E. auto.
Qed.

Lemma performs_for_each {Id A : Type} (body : A -> Req Self S unit)
    (arg : Id -> A) (checker : option string) (pp : Z)
    (base : Id -> string) (action : option string) (ok : Id -> Prop) :
  (forall s id xs pages,
      ok id -> answers checker pp xs pages ->
      performs good k s (body (arg id)) xs
        (page_urls (base id) 1 (List.length pages))
        (batches_of action pages)) ->
  forall (js : fetches Id) s,
    Forall (fun j => ok (fst j)) js ->
    all_answer checker pp js ->
    performs good k s (for_each (map (fun j => arg (fst j)) js) body)
      (responses js) (urls_of base js) (batches_per_run action js).
Proof.
  intros Hb js. induction js as [| [id [xs pages]] js IH]; intros s Hok Hall.
  - intros rest g w Hg Hs. exists g, w, []. cbn. auto.
  - apply Forall_cons_iff in Hok. destruct Hok as [Hid Hok].
    apply Forall_cons_iff in Hall. destruct Hall as [Hj Hall].
    cbn [map for_each fst snd].
    apply (performs_bind s _ _ xs (responses js) _ (urls_of base js) _
             (batches_per_run action js)).
    + now apply Hb.
    + now apply IH.
Qed.

End PerformsRules.

End OrderRules.

(** ** [run] of [src/actionSHARK] *)

Module SHARKOrder.
Import Py Datetime Http Effects Traces TraceFacts Paging OrderRules.
Import SHARK_github SHARKFacts.

Section FetcherA.

Variable S : Type.
Variable k : sink S.
Hypothesis k_returns : forall items action s, fst (k items action s) = Ok tt.
Variables (ow rp : string) (pp : Z) (tok : option string).

(** The object of a run with the sink [k]. *)
Definition good (g : GitHub S) : Prop :=
  config S ow rp pp tok g /\ save_mongo g = k.

Lemma good_same (g g' : GitHub S) : same_config S g g' -> good g -> good g'.
Proof.
  intros Hs [Hc Hk]. split; [now apply (config_same S ow rp pp tok g) |].
  destruct Hs as (_ & _ & _ & _ & ->). exact Hk.
Qed.

(** [paginating] entered at page 1 on a script that answers its fetch. *)
Lemma paginating_answers (checker : option string) (xs : list exchange)
    (pages : list (list json)) (url : string) (rest : list exchange)
    (g : GitHub S) (w : world S) :
  answers checker pp xs pages ->
  good g -> page g = Some 1 ->
  exists g' w' ev,
    paginating url checker (xs ++ rest) (g, w)
    = (Returns tt, (g', w'), rest, ev)
    /\ good g'
    /\ sink_state w'
       = sink_after k (batches_of (current_action g) pages) (sink_state w)
    /\ requests ev = page_urls url 1 (List.length pages)
    /\ saved ev = batches_of (current_action g) pages.
Proof.
  intros Ha Hg Hp.
  destruct (answers_split _ _ _ _ Ha)
    as (xs0 & x_last & front & last & -> & -> & Hxs & Hfull & Hlast & Hshort).
  rewrite <- app_assoc. cbn [app].
  pose proof (PagingFacts.loop_pages S checker k pp (current_action g)
                k_returns front xs0 x_last last rest url g w 1
                Hxs Hfull Hlast Hshort Hp (proj2 Hg)
                (proj1 (proj2 (proj2 (proj1 Hg)))) eq_refl) as H.
  cbv zeta in H. unfold paginating.
  destruct (paginating_loop checker (xs0 ++ x_last :: rest) url (g, w))
    as [[[o [g' w']] rs'] ev] eqn:E.
  cbn [r_out r_rest r_events r_state fst snd] in H.
  destruct H as (-> & -> & Hreq & Hsav & Hst & _).
  destruct (loop_spec S checker url _ url g w 1 Hp (starts_with_refl url)
              _ _ _ _ _ E) as (Hsame & _).
  exists g', w', ev. split; [reflexivity |].
  split; [now apply (good_same g) |]. split; [assumption |].
  split; [| assumption].
  rewrite Hreq, length_app. cbn [List.length]. now rewrite Nat.add_1_r.
Qed.

Ltac fetch_performs Ha :=
  let rest := fresh "rest" in
  let g := fresh "g" in
  let w := fresh "w" in
  let Hg := fresh "Hg" in
  let Hs := fresh "Hs" in
  intros rest g w Hg Hs;
  cbv [bind_req lift modify_self get_self log emit];
  cbn [fst snd owner repo per_page set_page set_current_action];
  match goal with
  | |- context [paginating ?u ?c (?xs ++ rest) (?g1, w)] =>
      let g' := fresh "g'" in
      let w' := fresh "w'" in
      let ev := fresh "ev" in
      let E := fresh "E" in
      let Hg' := fresh "Hg'" in
      let Hst := fresh "Hst" in
      let Hreq := fresh "Hreq" in
      let Hsav := fresh "Hsav" in
      let Ho := fresh "Ho" in
      let Hr := fresh "Hr" in
      let Hp := fresh "Hp" in
      let Ht := fresh "Ht" in
      let Hk := fresh "Hk" in
      destruct (paginating_answers c xs _ u rest g1 w Ha Hg eq_refl)
        as (g' & w' & ev & E & Hg' & Hst & Hreq & Hsav);
      rewrite E;
      destruct Hg as [(Ho & Hr & Hp & Ht) Hk];
      eexists g', w', _; (split; [reflexivity |]);
      (split; [exact Hg' |]);
      (split; [rewrite <- Hs; exact Hst |]);
      cbn [app requests saved is_get]; rewrite ?requests_app, ?saved_app;
      cbn [app requests saved]; rewrite ?app_nil_r;
      rewrite Hreq, Hsav, <- ?Ho, <- ?Hr, <- ?Hp; split; reflexivity
  end.

Lemma performs_get_workflows (s0 : S) xs pages :
  answers (Some "workflows") pp xs pages ->
  performs good k s0 get_workflows xs
    (page_urls (String.append api_url (workflow_url ow rp pp)) 1
       (List.length pages))
    (batches_of (Some "workflow") pages).
Proof. intros Ha. unfold get_workflows. fetch_performs Ha. Qed.

Lemma performs_get_artifacts (s0 : S) xs pages :
  answers (Some "artifacts") pp xs pages ->
  performs good k s0 get_artifacts xs
    (page_urls (String.append api_url (artifact_url ow rp pp)) 1
       (List.length pages))
    (batches_of (Some "artifact") pages).
Proof. intros Ha. unfold get_artifacts. fetch_performs Ha. Qed.

Lemma performs_get_runs (s0 : S) xs pages :
  answers (Some "workflow_runs") pp xs pages ->
  performs good k s0 get_runs xs
    (page_urls (String.append api_url (run_url ow rp pp)) 1
       (List.length pages))
    (batches_of (Some "run") pages).
Proof. intros Ha. unfold get_runs. fetch_performs Ha. Qed.

Lemma performs_get_jobs (s0 : S) (r : Z) xs pages :
  r <> 0 ->
  answers (Some "jobs") pp xs pages ->
  performs good k s0 (get_jobs (Some r)) xs
    (page_urls (job_base ow rp pp (Some r)) 1 (List.length pages))
    (batches_of (Some "job") pages).
Proof.
  intros Hr0 Ha. unfold job_base, get_jobs.
  destruct (Z.eqb_spec r 0) as [| _]; [contradiction |].
  fetch_performs Ha.
Qed.


Lemma performs_finishing (s0 : S) :
  performs good k s0 (lift (__finishing_message S)) [] [] [].
Proof.
  apply performs_quiet. intros g w _. eexists. split; [reflexivity |].
  split; reflexivity.
Qed.

(** The responses to the token check: none without a token, one whose
    status is not 401 with a token. *)
Definition passes (auth : list exchange) : Prop :=
  match tok with
  | Some _ => exists xu, auth = [xu] /\ status_code (reply xu) <> 401
  | None => auth = []
  end.

Lemma performs_verify_token (s0 : S) (auth : list exchange) :
  passes auth ->
  performs good k s0 verify_token auth (verify_plan tok) [].
Proof.
  unfold passes, verify_plan. intros Ha rest g w Hg Hs.
  assert (Ht : nonempty (__token g) = tok) by apply Hg.
  destruct tok as [t |].
  - destruct Ha as (xu & -> & Hx). cbn [app].
    rewrite (verify_token_passes S xu rest g w t Ht Hx).
    eexists _, w, _. split; [reflexivity |]. split; [exact Hg |].
    split; [now rewrite Hs |]. split; reflexivity.
  - subst auth. cbn [app]. unfold verify_token.
    cbv [bind_req lift get_self log emit]. cbn [fst snd]. rewrite Ht.
    eexists g, w, _. split; [reflexivity |]. split; [exact Hg |].
    split; [now rewrite Hs |]. split; reflexivity.
Qed.

(** [run] with a run-id source, on a script that answers every fetch. *)
Lemma run_performs (objects : S -> list (option Z)) (s0 : S)
    (auth xw xa xr : list exchange) (pw pa pr : list (list json))
    (js : fetches Z) :
  passes auth ->
  answers (Some "workflows") pp xw pw ->
  answers (Some "artifacts") pp xa pa ->
  answers (Some "workflow_runs") pp xr pr ->
  objects (sink_after k (batches_of (Some "workflow") pw
                         ++ batches_of (Some "artifact") pa
                         ++ batches_of (Some "run") pr) s0)
  = map (fun j => Some (fst j)) js ->
  Forall (fun j => fst j <> 0) js ->
  all_answer (Some "jobs") pp js ->
  performs good k s0 (run (Some objects))
    (auth ++ xw ++ xa ++ xr ++ responses js)
    (verify_plan tok
     ++ page_urls (String.append api_url (workflow_url ow rp pp)) 1
          (List.length pw)
     ++ page_urls (String.append api_url (artifact_url ow rp pp)) 1
          (List.length pa)
     ++ page_urls (String.append api_url (run_url ow rp pp)) 1
          (List.length pr)
     ++ urls_of (fun r => job_base ow rp pp (Some r)) js)
    (batches_of (Some "workflow") pw
     ++ batches_of (Some "artifact") pa
     ++ batches_of (Some "run") pr
     ++ batches_per_run (Some "job") js).
Proof.
  intros Hauth Hw Ha Hr Hids Hnz Hjs. unfold run.
  apply (performs_bind _ _ good k s0 _ _ auth _ (verify_plan tok) _ [] _);
    [now apply performs_verify_token |].
  cbn [sink_after fold_left].
  apply performs_bind; [now apply performs_get_workflows |].
  apply performs_bind; [now apply performs_get_artifacts |].
  apply performs_bind; [now apply performs_get_runs |].
  rewrite <- !PagingFacts.sink_after_app.
  apply performs_after_log. apply performs_world. intros w Hsw.
  rewrite Hsw, Hids.
  apply performs_after_log.
  eapply performs_eq;
    [ apply performs_bind;
      [ apply (performs_for_each _ _ good k get_jobs (fun r => Some r)
                 (Some "jobs") pp (fun r => job_base ow rp pp (Some r))
                 (Some "job") (fun r => r <> 0));
        [ intros s id xs pages Hid Hans; now apply performs_get_jobs
        | exact Hnz | exact Hjs ]
      | apply performs_after_log; apply performs_finishing ]
    | now rewrite app_nil_r | now rewrite app_nil_r | now rewrite app_nil_r ].
Qed.

End FetcherA.


Section OrderA.

Variable S : Type.
Variables (ow rp : string) (pp : Z) (tok : option string).
Variable h : list (string * string).

Abbreviation config := (SHARKFacts.config S ow rp pp tok).

Ltac inhabited_plan :=
  unfold app_set; repeat first [ reflexivity | eexists | split ].

(** [run] up to the run fetch. *)
Definition front : Req (GitHub S) S unit :=
  (verify_token ;; get_workflows ;; get_artifacts ;; get_runs)%req.

Lemma sat_front : sat config h front (eq (front_plan ow rp pp tok)).
Proof.
  unfold front, front_plan.
  apply (sat_weaken _ _ _ _ _
           (app_set (eq (verify_plan tok))
              (app_set (eq [String.append api_url (workflow_url ow rp pp)])
                 (app_set
                    (eq [String.append api_url (artifact_url ow rp pp)])
                    (eq [String.append api_url (run_url ow rp pp)]))))).
  - apply sat_bind; [apply sat_verify_token | intros _ | inhabited_plan].
    apply sat_bind; [apply sat_get_workflows | intros _ | inhabited_plan].
    apply sat_bind; [apply sat_get_artifacts | intros _ | inhabited_plan].
    apply sat_get_runs.
  - now intros p (p1 & q1 & <- & (p2 & q2 & <- & (p3 & q3 & <- & <- & ->)
                   & ->) & ->).
Qed.

(** [run] after the run fetch, with the run ids [run_ids]. *)
Definition jobs_part (run_ids : list (option Z)) : Req (GitHub S) S unit :=
  (lift (log DEBUG "Collecting run ids" []) ;;
   lift (log DEBUG "Start fetching jobs" []) ;;
   for_each run_ids get_jobs ;;
   lift (log DEBUG "Finish fetching jobs" []) ;;
   lift (__finishing_message S))%req.

Lemma sat_jobs_part (run_ids : list (option Z)) :
  sat config h (jobs_part run_ids) (eq (map (job_base ow rp pp) run_ids)).
Proof.
  unfold jobs_part.
  apply sat_after; [apply silent_log | intros _ | inhabited_plan].
  apply sat_after; [apply silent_log | intros _ | inhabited_plan].
  apply (sat_weaken _ _ _ _ _
           (app_set (eq (map (job_base ow rp pp) run_ids)) (eq []))).
  - apply sat_bind; [| intros _ | inhabited_plan].
    + apply sat_for_each. apply sat_get_jobs.
    + apply sat_after; [apply silent_log | intros _ | inhabited_plan].
      apply sat_lift, silent_finishing.
  - intros p (p1 & p2 & <- & <- & ->). now rewrite app_nil_r.
Qed.

(** [run] with a run-id source is [front] and then the job fetches for
    the ids read from the sink's state as [front] leaves it. *)
Lemma run_front (objects : S -> list (option Z)) (rs : list exchange)
    (st : state (GitHub S) S) :
  run (Some objects) rs st
  = bind_req front
      (fun _ rs1 st1 => jobs_part (objects (sink_state (snd st1))) rs1 st1)
      rs st.
Proof.
  unfold run, front. cbv [bind_req].
  destruct (verify_token rs st) as [[[[[] | e | c |] st1] rs1] ev1];
    [| reflexivity ..].
  destruct (get_workflows rs1 st1) as [[[[[] | e | c |] st2] rs2] ev2];
    [| reflexivity ..].
  destruct (get_artifacts rs2 st2) as [[[[[] | e | c |] st3] rs3] ev3];
    [| reflexivity ..].
  destruct (get_runs rs3 st3) as [[[[[] | e | c |] st4] rs4] ev4];
    [| reflexivity ..].
  unfold jobs_part. cbv [bind_req lift log emit get_world]. cbn [fst snd app].
  destruct (for_each (objects (sink_state (snd st4))) get_jobs rs4 st4)
    as [[[[[] | e | c |] st5] rs5] ev5];
    [destruct (__finishing_message S st5) as [[o6 st6] ev6] | ..];
    cbn [app]; now rewrite <- ?app_assoc.
Qed.


Lemma run_in_order (objects : S -> list (option Z)) (rs : list exchange)
    (st : state (GitHub S) S) :
  ok_state config h st ->
  in_order (run (Some objects) rs st)
    (run_plan ow rp pp tok (ids_read front objects rs st)).
Proof.
  intros Hst. rewrite run_front.
  pose proof (in_order_bind _ _ config h front
                (fun _ rs1 st1 =>
                   jobs_part (objects (sink_state (snd st1))) rs1 st1)
                (front_plan ow rp pp tok)
                (fun _ st1 =>
                   map (job_base ow rp pp) (objects (sink_state (snd st1))))
                rs st Hst sat_front) as H.
  unfold run_plan, ids_read.
  replace (map (job_base ow rp pp)
             match front rs st with
             | (Returns _, st1, _, _) => objects (sink_state (snd st1))
             | _ => []
             end)
    with (match front rs st with
          | (Returns _, st1, _, _) =>
              map (job_base ow rp pp) (objects (sink_state (snd st1)))
          | _ => []
          end)
    by (destruct (front rs st) as [[[[[] | e | c |] st1] rs1] ev1];
        reflexivity).
  apply H. intros [] rs1 st1 Hst1.
  apply (sat_in_order _ _ config h); [assumption | apply sat_jobs_part].
Qed.

End OrderA.

End SHARKOrder.

(** ** [run] of [src/actionshark] *)

Module sharkOrder.
Import Py Datetime Http Effects Traces TraceFacts Paging OrderRules.
Import shark_github sharkFacts.

Section FetcherB.

Variable S : Type.
Variable k : sink S.
Hypothesis k_returns : forall items action s, fst (k items action s) = Ok tt.
Variables (ow rp : string) (pp : Z) (tok : option string).

(** The object of a run with the sink [k]. *)
Definition good_lc (g : GitHub S) : Prop :=
  config_lc S ow rp pp tok g /\ save_mongo g = k.

Lemma good_lc_same (g g' : GitHub S) :
  same_config_lc S g g' -> good_lc g -> good_lc g'.
Proof.
  intros Hs [Hc Hk]. split; [now apply (config_lc_same S ow rp pp tok g) |].
  destruct Hs as (_ & _ & _ & _ & ->). exact Hk.
Qed.

(** [paginating] entered at page 1 on a script that answers its fetch. *)
Lemma paginating_answers_lc (checker : option string) (xs : list exchange)
    (pages : list (list json)) (url : string) (rest : list exchange)
    (g : GitHub S) (w : world S) :
  answers checker pp xs pages ->
  good_lc g -> page g = 1 ->
  exists g' w' ev,
    paginating url checker (xs ++ rest) (g, w)
    = (Returns tt, (g', w'), rest, ev)
    /\ good_lc g'
    /\ sink_state w'
       = sink_after k (batches_of (current_action g) pages) (sink_state w)
    /\ requests ev = page_urls url 1 (List.length pages)
    /\ saved ev = batches_of (current_action g) pages.
Proof.
  intros Ha Hg Hp.
  destruct (answers_split _ _ _ _ Ha)
    as (xs0 & x_last & front & last & -> & -> & Hxs & Hfull & Hlast & Hshort).
  rewrite <- app_assoc. cbn [app].
  pose proof (PagingFacts.loop_pages_lc S checker k pp (current_action g)
                k_returns front xs0 x_last last rest url g w
                Hxs Hfull Hlast Hshort (proj2 Hg)
                (proj1 (proj2 (proj2 (proj1 Hg)))) eq_refl) as H.
  cbv zeta in H. unfold paginating.
  destruct (paginating_loop checker (xs0 ++ x_last :: rest) url (g, w))
    as [[[o [g' w']] rs'] ev] eqn:E.
  cbn [r_out r_rest r_events r_state fst snd] in H.
  destruct H as (-> & -> & Hreq & Hsav & Hst & _).
  destruct (loop_spec_lc S checker url _ url g w (starts_with_refl url)
              _ _ _ _ _ E) as (Hsame & _).
  exists g', w', ev. split; [reflexivity |].
  split; [now apply (good_lc_same g) |]. split; [assumption |].
  split; [| assumption].
  rewrite Hreq, Hp, length_app. cbn [List.length]. now rewrite Nat.add_1_r.
Qed.

Ltac fetch_performs_lc Ha :=
  let rest := fresh "rest" in
  let g := fresh "g" in
  let w := fresh "w" in
  let Hg := fresh "Hg" in
  let Hs := fresh "Hs" in
  intros rest g w Hg Hs;
  cbv [bind_req lift modify_self get_self log emit];
  cbn [fst snd owner repo per_page set_page set_current_action];
  match goal with
  | |- context [paginating ?u ?c (?xs ++ rest) (?g1, w)] =>
      let g' := fresh "g'" in
      let w' := fresh "w'" in
      let ev := fresh "ev" in
      let E := fresh "E" in
      let Hg' := fresh "Hg'" in
      let Hst := fresh "Hst" in
      let Hreq := fresh "Hreq" in
      let Hsav := fresh "Hsav" in
      let Ho := fresh "Ho" in
      let Hr := fresh "Hr" in
      let Hp := fresh "Hp" in
      let Ht := fresh "Ht" in
      let Hk := fresh "Hk" in
      destruct (paginating_answers_lc c xs _ u rest g1 w Ha Hg eq_refl)
        as (g' & w' & ev & E & Hg' & Hst & Hreq & Hsav);
      rewrite E;
      destruct Hg as [(Ho & Hr & Hp & Ht) Hk];
      eexists g', w', _; (split; [reflexivity |]);
      (split; [exact Hg' |]);
      (split; [rewrite <- Hs; exact Hst |]);
      cbn [app requests saved is_get]; rewrite ?requests_app, ?saved_app;
      cbn [app requests saved]; rewrite ?app_nil_r;
      rewrite Hreq, Hsav, <- ?Ho, <- ?Hr, <- ?Hp; split; reflexivity
  end.

Lemma performs_get_workflows_lc (s0 : S) xs pages :
  answers (Some "workflows") pp xs pages ->
  performs good_lc k s0 get_workflows xs
    (page_urls (workflows_base ow rp pp) 1 (List.length pages))
    (batches_of (Some "workflows") pages).
Proof.
  intros Ha. unfold get_workflows, workflows_base. fetch_performs_lc Ha.
Qed.

Lemma performs_get_runs_lc (s0 : S) xs pages :
  answers (Some "workflow_runs") pp xs pages ->
  performs good_lc k s0 get_runs xs
    (page_urls (runs_base ow rp pp) 1 (List.length pages))
    (batches_of (Some "runs") pages).
Proof. intros Ha. unfold get_runs, runs_base. fetch_performs_lc Ha. Qed.

Lemma performs_get_jobs_lc (s0 : S) (id : string) xs pages :
  answers (Some "jobs") pp xs pages ->
  performs good_lc k s0 (get_jobs (RefObjectId id)) xs
    (page_urls (jobs_base ow rp pp (RefObjectId id)) 1 (List.length pages))
    (batches_of (Some "jobs") pages).
Proof.
  intros Ha. unfold get_jobs, jobs_base. cbn [ref_truthy negb].
  fetch_performs_lc Ha.
Qed.

Lemma performs_get_artifacts_lc (s0 : S) (id : string) xs pages :
  answers (Some "artifacts") pp xs pages ->
  performs good_lc k s0 (get_artifacts (RefObjectId id)) xs
    (page_urls (artifacts_base ow rp pp (RefObjectId id)) 1
       (List.length pages))
    (batches_of (Some "artifacts") pages).
Proof.
  intros Ha. unfold get_artifacts, artifacts_base. cbn [ref_truthy negb].
  fetch_performs_lc Ha.
Qed.

Lemma performs_verify_token_lc (s0 : S) :
  tok = None ->
  performs good_lc k s0 verify_token [] [] [].
Proof.
  intros Htok rest g w Hg Hs.
  assert (Ht : nonempty (__token g) = None)
    by (rewrite <- Htok; apply Hg).
  cbn [app]. unfold verify_token.
  cbv [bind_req lift get_self log emit]. cbn [fst snd]. rewrite Ht.
  eexists g, w, _. split; [reflexivity |]. split; [exact Hg |].
  split; [now rewrite Hs |]. split; reflexivity.
Qed.

(** [run] with a run-id source, on a script that answers every fetch. *)
Lemma run_performs_lc (objects : S -> list string) (s0 : S)
    (xw xr : list exchange) (pw pr : list (list json))
    (js arts : fetches string) :
  tok = None ->
  answers (Some "workflows") pp xw pw ->
  answers (Some "workflow_runs") pp xr pr ->
  objects (sink_after k (batches_of (Some "workflows") pw
                         ++ batches_of (Some "runs") pr) s0)
  = map fst js ->
  map fst arts = map fst js ->
  all_answer (Some "jobs") pp js ->
  all_answer (Some "artifacts") pp arts ->
  performs good_lc k s0 (run (Some objects))
    (xw ++ xr ++ responses js ++ responses arts)
    (page_urls (workflows_base ow rp pp) 1 (List.length pw)
     ++ page_urls (runs_base ow rp pp) 1 (List.length pr)
     ++ urls_of (fun id => jobs_base ow rp pp (RefObjectId id)) js
     ++ urls_of (fun id => artifacts_base ow rp pp (RefObjectId id)) arts)
    (batches_of (Some "workflows") pw
     ++ batches_of (Some "runs") pr
     ++ batches_per_run (Some "jobs") js
     ++ batches_per_run (Some "artifacts") arts).
Proof.
  intros Htok Hw Hr Hids Harts Hjs Has. unfold run.
  apply (performs_bind _ _ good_lc k s0 _ _ [] _ [] _ [] _);
    [now apply performs_verify_token_lc |].
  cbn [sink_after fold_left].
  apply performs_bind; [now apply performs_get_workflows_lc |].
  apply performs_bind; [now apply performs_get_runs_lc |].
  rewrite <- !PagingFacts.sink_after_app.
  apply performs_after_log. apply performs_world. intros w Hsw.
  rewrite Hsw, Hids.
  apply performs_after_log.
  apply performs_bind.
  { rewrite map_map.
    apply (performs_for_each _ _ good_lc k get_jobs RefObjectId
             (Some "jobs") pp (fun id => jobs_base ow rp pp (RefObjectId id))
             (Some "jobs") (fun _ => True));
      [ intros s id xs pages _ Hans; now apply performs_get_jobs_lc
      | now apply Forall_forall | exact Hjs ]. }
  apply performs_after_log. apply performs_after_log.
  rewrite <- Harts, map_map.
  eapply performs_eq;
    [ apply performs_bind;
      [ apply (performs_for_each _ _ good_lc k get_artifacts RefObjectId
                 (Some "artifacts") pp
                 (fun id => artifacts_base ow rp pp (RefObjectId id))
                 (Some "artifacts") (fun _ => True));
        [ intros s id xs pages _ Hans; now apply performs_get_artifacts_lc
        | now apply Forall_forall | exact Has ]
      | apply performs_log ]
    | now rewrite app_nil_r | now rewrite app_nil_r | now rewrite app_nil_r ].
Qed.

End FetcherB.

Section OrderB.

Variable S : Type.
Variables (ow rp : string) (pp : Z) (tok : option string).
Variable h : list (string * string).

Abbreviation config_lc := (sharkFacts.config_lc S ow rp pp tok).

Ltac inhabited_plan :=
  unfold app_set; repeat first [ reflexivity | eexists | split ].

(** [run] up to the run fetch. *)
Definition front_lc : Req (GitHub S) S unit :=
  (verify_token ;; get_workflows ;; get_runs)%req.

Lemma sat_front_lc : sat config_lc h front_lc (eq (front_plan_lc ow rp pp)).
Proof.
  unfold front_lc, front_plan_lc.
  apply (sat_weaken _ _ _ _ _
           (app_set (eq [])
              (app_set (eq [workflows_base ow rp pp])
                 (eq [runs_base ow rp pp])))).
  - apply sat_bind; [apply sat_verify_token_lc | intros _ | inhabited_plan].
    apply sat_bind; [apply sat_get_workflows_lc | intros _ | inhabited_plan].
    apply sat_get_runs_lc.
  - now intros p (p1 & q1 & <- & (p2 & q2 & <- & <- & ->) & ->).
Qed.

(** [run] after the run fetch, with the ids [ids] of the stored runs. *)
Definition per_run_part (ids : list string) : Req (GitHub S) S unit :=
  (lift (log DEBUG "Collecting run ids" []) ;;
   lift (log DEBUG "Start fetching jobs" []) ;;
   for_each (map RefObjectId ids) get_jobs ;;
   lift (log DEBUG "Finish fetching jobs" []) ;;
   lift (log DEBUG "Start fetching artifacts" []) ;;
   for_each (map RefObjectId ids) get_artifacts ;;
   lift (log DEBUG "Finish fetching artifacts" []))%req.

Lemma sat_per_run_part (ids : list string) :
  sat config_lc h (per_run_part ids)
    (eq (map (jobs_base ow rp pp) (map RefObjectId ids)
         ++ map (artifacts_base ow rp pp) (map RefObjectId ids))).
Proof.
  unfold per_run_part.
  apply sat_after; [apply silent_log | intros _ | inhabited_plan].
  apply sat_after; [apply silent_log | intros _ | inhabited_plan].
  apply (sat_weaken _ _ _ _ _
           (app_set
              (eq (map (jobs_base ow rp pp) (map RefObjectId ids)))
              (eq (map (artifacts_base ow rp pp) (map RefObjectId ids))))).
  - apply sat_bind; [| intros _ | inhabited_plan].
    + apply sat_for_each. apply sat_get_jobs_lc.
    + apply sat_after; [apply silent_log | intros _ | inhabited_plan].
      apply sat_after; [apply silent_log | intros _ | inhabited_plan].
      apply sat_before; [| intros _; apply silent_log].
      apply sat_for_each. apply sat_get_artifacts_lc.
  - now intros p (p1 & p2 & <- & <- & ->).
Qed.

(** [run] with a run-id source is [front_lc] and then the fetches for the
    ids read from the sink's state as [front_lc] leaves it. *)
Lemma run_front_lc (objects : S -> list string) (rs : list exchange)
    (st : state (GitHub S) S) :
  run (Some objects) rs st
  = bind_req front_lc
      (fun _ rs1 st1 => per_run_part (objects (sink_state (snd st1))) rs1 st1)
      rs st.
Proof.
  unfold run, front_lc. cbv [bind_req].
  destruct (verify_token rs st) as [[[[[] | e | c |] st1] rs1] ev1];
    [| reflexivity ..].
  destruct (get_workflows rs1 st1) as [[[[[] | e | c |] st2] rs2] ev2];
    [| reflexivity ..].
  destruct (get_runs rs2 st2) as [[[[[] | e | c |] st3] rs3] ev3];
    [| reflexivity ..].
  unfold per_run_part. cbv [bind_req lift log emit get_world].
  cbn [fst snd app].
  destruct (for_each (map RefObjectId (objects (sink_state (snd st3))))
              get_jobs rs3 st3)
    as [[[[[] | e | c |] st4] rs4] ev4];
    [destruct (for_each (map RefObjectId (objects (sink_state (snd st3))))
                 get_artifacts rs4 st4)
       as [[[[[] | e | c |] st5] rs5] ev5] | ..];
    cbn [app]; now rewrite <- ?app_assoc.
Qed.

Lemma run_in_order_lc (objects : S -> list string) (rs : list exchange)
    (st : state (GitHub S) S) :
  ok_state config_lc h st ->
  in_order (run (Some objects) rs st)
    (run_plan_lc ow rp pp (ids_read front_lc objects rs st)).
Proof.
  intros Hst. rewrite run_front_lc.
  set (tail := fun ids : list string =>
                 map (jobs_base ow rp pp) (map RefObjectId ids)
                 ++ map (artifacts_base ow rp pp) (map RefObjectId ids)).
  pose proof (in_order_bind _ _ config_lc h front_lc
                (fun _ rs1 st1 =>
                   per_run_part (objects (sink_state (snd st1))) rs1 st1)
                (front_plan_lc ow rp pp)
                (fun _ st1 => tail (objects (sink_state (snd st1))))
                rs st Hst sat_front_lc) as H.
  unfold run_plan_lc, ids_read. fold (tail (ids_read front_lc objects rs st)).
  replace (map (jobs_base ow rp pp)
             (map RefObjectId
                match front_lc rs st with
                | (Returns _, st1, _, _) => objects (sink_state (snd st1))
                | _ => []
                end)
           ++ map (artifacts_base ow rp pp)
                (map RefObjectId
                   match front_lc rs st with
                   | (Returns _, st1, _, _) => objects (sink_state (snd st1))
                   | _ => []
                   end))
    with (match front_lc rs st with
          | (Returns _, st1, _, _) => tail (objects (sink_state (snd st1)))
          | _ => []
          end)
    by (destruct (front_lc rs st) as [[[[[] | e | c |] st1] rs1] ev1];
        reflexivity).
  apply H. intros [] rs1 st1 Hst1.
  apply (sat_in_order _ _ config_lc h); [assumption | apply sat_per_run_part].
Qed.

End OrderB.

End sharkOrder.

Module OrderFacts.
Import Py Datetime Http Effects Traces TraceFacts Inputs Paging.
Import SHARKOrder sharkOrder.




End OrderFacts.

(* ================================================================== *)
(** * Counters, and the mapper as the sink *)
(* ================================================================== *)

Module TrackingFacts.
Import Py Datetime Http Effects Traces TraceFacts Inputs Tracking.
Import PagingFacts.

Lemma bind_req_assoc {Self S A B C} (m : Req Self S A)
    (k : A -> Req Self S B) (k' : B -> Req Self S C) rs st :
  bind_req (bind_req m k) k' rs st
  = bind_req m (fun a => bind_req (k a) k') rs st.
Proof.
  unfold bind_req. destruct (m rs st) as [[[[a | e | c |] st1] rs1] ev1];
    try reflexivity.
  destruct (k a rs1 st1) as [[[[b | e | c |] st2] rs2] ev2]; try reflexivity.
  destruct (k' b rs2 st2) as [[[o3 st3] rs3] ev3].
  now rewrite app_assoc.
Qed.

Lemma bind_req_ext {Self S A B} (m : Req Self S A)
    (k k' : A -> Req Self S B) rs st :
  (forall a rs st, k a rs st = k' a rs st) ->
  bind_req m k rs st = bind_req m k' rs st.
Proof.
  intros H. unfold bind_req.
  destruct (m rs st) as [[[[a | e | c |] st1] rs1] ev1]; try reflexivity.
  now rewrite H.
Qed.

Section Rules.

Variables Self S : Type.
Variable R : state Self S -> list event -> state Self S -> Prop.
Variable always : bool.
Hypothesis R_nil : forall st, R st [] st.
Hypothesis R_app : forall st ev1 st1 ev2 st2,
  R st ev1 st1 -> R st1 ev2 st2 -> R st (ev1 ++ ev2) st2.

Lemma tracks_ret {A} (a : A) : tracks R always (ret_req a).
Proof. intros rs st _. apply R_nil. Qed.

Lemma tracks_lift {A} (a : Act Self S A) :
  tracks_act R always a -> tracks R always (lift a).
Proof.
  intros Ha rs st. specialize (Ha st). unfold lift.
  destruct (a st) as [[o st'] ev]. exact Ha.
Qed.

Lemma tracks_bind {A B} (m : Req Self S A) (k : A -> Req Self S B) :
  tracks R always m -> (forall a, tracks R always (k a)) ->
  tracks R always (bind_req m k).
Proof.
  intros Hm Hk rs st. specialize (Hm rs st). unfold bind_req.
  destruct (m rs st) as [[[[a | e | c |] st1] rs1] ev1];
    cbn [r_out r_events r_state fst snd] in *; try exact Hm.
  specialize (Hk a rs1 st1).
  destruct (k a rs1 st1) as [[[o2 st2] rs2] ev2].
  cbn [r_out r_events r_state fst snd] in *.
  intros H. apply (R_app _ _ st1).
  - apply Hm. now rewrite orb_true_r.
  - now apply Hk.
Qed.

Lemma tracks_for_each {A} (body : A -> Req Self S unit) (l : list A) :
  (forall x, tracks R always (body x)) -> tracks R always (for_each l body).
Proof.
  intros Hb. induction l as [| x l IH]; cbn.
  - apply tracks_ret.
  - apply tracks_bind; auto.
Qed.

Lemma tracks_act_bind {A B} (a : Act Self S A) (k : A -> Act Self S B) :
  tracks_act R always a -> (forall x, tracks_act R always (k x)) ->
  tracks_act R always (bind_act a k).
Proof.
  intros Ha Hk st. specialize (Ha st). unfold bind_act.
  destruct (a st) as [[[x | e | c |] st1] ev1]; cbn [fst snd] in *;
    try exact Ha.
  specialize (Hk x st1). destruct (k x st1) as [[o2 st2] ev2].
  cbn [fst snd] in *.
  intros H. apply (R_app _ _ st1).
  - apply Ha. now rewrite orb_true_r.
  - now apply Hk.
Qed.

Lemma tracks_get_self : tracks_act R always get_self.
Proof. intros st _. apply R_nil. Qed.

Lemma tracks_get_world : tracks_act R always get_world.
Proof. intros st _. apply R_nil. Qed.

Lemma tracks_exit {A} (c : Z) : tracks_act R always (@sys_exit Self S A c).
Proof. intros st _. apply R_nil. Qed.

Lemma tracks_raise {A} (e : exn) : tracks_act R always (@raise Self S A e).
Proof. intros st _. apply R_nil. Qed.

End Rules.


(** ** The counters of [src/actionSHARK] *)

Section CountersA.

Import SHARK_github.

Variable S : Type.

Abbreviation counts := (tracks (@counted S) false).
Abbreviation counts_act := (tracks_act (@counted S) false).

Lemma counted_nil (st : state (GitHub S) S) : counted st [] st.
Proof. split; cbn; lia. Qed.

Lemma counted_app (st : state (GitHub S) S) ev1 st1 ev2 st2 :
  counted st ev1 st1 -> counted st1 ev2 st2 -> counted st (ev1 ++ ev2) st2.
Proof.
  intros [A1 A2] [B1 B2]. unfold counted.
  rewrite requests_app, saved_app, sleeps_app, !length_app. lia.
Qed.

Lemma counts_log lvl msg args : counts_act (log lvl msg args).
Proof. intros st _. apply counted_nil. Qed.

Lemma counts_modify (f : GitHub S -> GitHub S) :
  (forall g, total_requests (f g) = total_requests g) ->
  (forall g, limit_handler_counter (f g) = limit_handler_counter g) ->
  counts_act (modify_self f).
Proof.
  intros H1 H2 st _. split; cbn; rewrite ?H1, ?H2; lia.
Qed.

Ltac counted_leaf :=
  intros [= <- <- <- <-]; cbn; try exact I; repeat split; lia.

Lemma receive_counted (checker : option string) (url : string)
    (x : exchange) (g : GitHub S) (w : world S) :
  forall o g' w' ev,
    paginating_receive checker url x (g, w) = (o, (g', w'), ev) ->
    if settled o
    then total_requests g'
         = total_requests g + 1 + Z.of_nat (List.length (saved ev))
         /\ requests ev = []
         /\ limit_handler_counter g'
            = limit_handler_counter g + Z.of_nat (List.length (sleeps ev))
    else True.
Proof.
  intros o g' w' ev. unfold paginating_receive.
  cbv [bind_act modify_self]. cbn [fst snd].
  destruct (negb ((status_code (reply x) =? 200)
                  || (status_code (reply x) =? 403))) eqn:Hbad.
  { cbn. counted_leaf. }
  destruct (status_code (reply x) =? 403) eqn:H403.
  { cbv [bind_act eval]. destruct (rate_limit_reset (reply x)) as [reset |];
      cbn; [| counted_leaf].
    destruct (localtime w reset); cbn; [| counted_leaf].
    destruct (localtime w (clock x)); cbn; counted_leaf. }
  cbv [bind_act eval]. destruct (response_json (reply x)) as [body |]; cbn;
    [| counted_leaf].
  destruct (items_of checker body) as [items |]; cbn; [| counted_leaf].
  destruct (py_len items) as [n |]; cbn; [| counted_leaf].
  destruct (truthy items); cbn; [| counted_leaf].
  cbv [call_sink]. cbn [fst snd].
  destruct (save_mongo g items (current_action g) (sink_state w))
    as [[[] | e] s']; cbn; [| counted_leaf].
  destruct (page g) as [p |]; cbn; [| counted_leaf].
  destruct (n <? per_page g); cbn; counted_leaf.
Qed.

Lemma send_none (url : string) (g : GitHub S) (w : world S) :
  page g = None ->
  paginating_send url (g, w) = (Raises AttributeError, (g, w), []).
Proof.
  intros Hp. unfold paginating_send. cbv [bind_act get_self]. cbn [fst snd].
  now rewrite Hp.
Qed.

Lemma loop_counted (checker : option string) :
  forall rs url (st : state (GitHub S) S),
    settled (r_out (paginating_loop checker rs url st)) = true ->
    counted st (r_events (paginating_loop checker rs url st))
      (r_state (paginating_loop checker rs url st)).
Proof.
  induction rs as [| x rs IH]; intros url [g w]; cbn [paginating_loop];
    (destruct (page g) as [p |] eqn:Hp;
     [rewrite (SHARKFacts.send_ok S url g w p Hp)
     | rewrite (send_none url g w Hp); discriminate]).
  - discriminate.
  - destruct (paginating_receive checker (String.append url (page_suffix p))
                x (g, w)) as [[o2 [g2 w2]] ev2] eqn:E2.
    pose proof (receive_counted _ _ _ _ _ _ _ _ _ E2) as H2.
    destruct o2 as [[u |] | e | c |]; cbn [settled] in H2;
      try discriminate.
    + specialize (IH u (g2, w2)).
      destruct (paginating_loop checker rs u (g2, w2))
        as [[[o3 [g3 w3]] rs3] ev3].
      cbn [r_out r_events r_state fst snd] in IH |- *.
      intros Hs. destruct (IH Hs) as [I1 I2].
      destruct H2 as (T & Rq & L). cbn [fst snd] in I1, I2.
      unfold counted. cbn [fst snd app requests saved sleeps List.length].
      rewrite requests_app, saved_app, sleeps_app, !length_app, Rq.
      cbn [List.length]. lia.
    + intros _. destruct H2 as (T & Rq & L). unfold counted.
      cbn [r_out r_events r_state fst snd app requests saved sleeps
             List.length].
      rewrite Rq. cbn [List.length]. lia.
    + intros _. destruct H2 as (T & Rq & L). unfold counted.
      cbn [r_out r_events r_state fst snd app requests saved sleeps
             List.length stops].
      rewrite Rq. cbn [List.length]. lia.
Qed.

Lemma counts_paginating url checker : counts (paginating url checker).
Proof. intros rs st H. now apply loop_counted. Qed.

Lemma counts_authenticate_user : counts authenticate_user.
Proof.
  intros [| x rs] [g w]; unfold authenticate_user;
    cbv [bind_req lift modify_self get_world requests_get log emit ret_req];
    cbn [fst snd]; [discriminate |].
  destruct (status_code (reply x) =? 401); cbn; intros _; split; cbn; lia.
Qed.

Lemma counts_ret {A} (a : A) : counts (ret_req a).
Proof. apply tracks_ret. exact counted_nil. Qed.

Lemma counts_bind {A B} (m : Req (GitHub S) S A)
    (k : A -> Req (GitHub S) S B) :
  counts m -> (forall a, counts (k a)) -> counts (bind_req m k).
Proof. apply tracks_bind. exact counted_app. Qed.

Lemma counts_for_each {A} (body : A -> Req (GitHub S) S unit) (l : list A) :
  (forall x, counts (body x)) -> counts (for_each l body).
Proof. apply tracks_for_each; [exact counted_nil | exact counted_app]. Qed.

Lemma counts_get_self : counts_act get_self.
Proof. apply tracks_get_self. exact counted_nil. Qed.

Lemma counts_get_world : counts_act get_world.
Proof. apply tracks_get_world. exact counted_nil. Qed.

Lemma counts_exit {A} (c : Z) : counts_act (@sys_exit (GitHub S) S A c).
Proof. apply tracks_exit. exact counted_nil. Qed.

Ltac count :=
  repeat first
    [ apply counts_ret
    | apply counts_paginating
    | apply counts_authenticate_user
    | apply tracks_lift
    | apply counts_log
    | apply counts_get_self
    | apply counts_get_world
    | apply counts_exit
    | apply counts_modify; reflexivity
    | apply counts_bind; [| intros ?] ].

Lemma counts_get_workflows : counts get_workflows.
Proof. unfold get_workflows. count. Qed.

Lemma counts_get_artifacts : counts get_artifacts.
Proof. unfold get_artifacts. count. Qed.

Lemma counts_get_runs : counts get_runs.
Proof. unfold get_runs. count. Qed.

Lemma counts_get_jobs run_id : counts (get_jobs run_id).
Proof.
  unfold get_jobs. destruct run_id as [r |]; [destruct (r =? 0) |]; count.
Qed.

Lemma counts_verify_token : counts verify_token.
Proof.
  unfold verify_token. apply counts_bind; [count | intros g].
  destruct (nonempty (__token g)); [| count].
  apply counts_bind; [count |].
  intros ok. destruct ok; cbn; count.
Qed.

Lemma counts_run_body objects : counts (run_body objects).
Proof.
  unfold run_body.
  repeat first
    [ apply counts_verify_token | apply counts_get_workflows
    | apply counts_get_artifacts | apply counts_get_runs
    | apply counts_for_each; apply counts_get_jobs
    | apply tracks_lift; first [apply counts_log | apply counts_get_world]
    | apply counts_bind; [| intros ?] ].
Qed.

Lemma run_split objects rs st :
  run (Some objects) rs st
  = bind_req (run_body objects) (fun _ => lift (__finishing_message S)) rs st.
Proof.
  unfold run, run_body. symmetry.
  repeat (rewrite bind_req_assoc; apply bind_req_ext; intros ? ? ?).
  reflexivity.
Qed.

End CountersA.

(** X11: the numbers [run] of [src/actionSHARK] logs when it returns.  The
    trace ends with the lines of [__finishing_message]; the number of
    requests it reports is the count the object started with, plus the
    requests sent, plus the batches the sink was handed: every page
    that was saved counts twice.  The number of stops is the count the
    object started with plus the sleeps. *)
Theorem finishing_message_counts
    (S : Type) (objects : S -> list (option Z)) (rs : list exchange)
    (g : SHARK_github.GitHub S) (w : world S) :
  r_out (SHARK_github.run (Some objects) rs (g, w)) = Returns tt ->
  exists ev,
    r_events (SHARK_github.run (Some objects) rs (g, w))
    = ev
      ++ [Log DEBUG "Number of requests: {}"
            [JInt (SHARK_github.total_requests g
                   + Z.of_nat (List.length (requests ev))
                   + Z.of_nat (List.length (saved ev)))];
          Log DEBUG "Number of stopping: {}"
            [JInt (SHARK_github.limit_handler_counter g
                   + Z.of_nat (List.length (sleeps ev)))];
          Log DEBUG "Finished fetching actions." []].
Proof.
  rewrite run_split. unfold bind_req.
  pose proof (counts_run_body S objects rs (g, w)) as H.
  destruct (run_body objects rs (g, w)) as [[[[[] | e | c |] [g1 w1]] rs1] ev1];
    cbn; try discriminate.
  intros _. destruct (H eq_refl) as [H1 H2]. cbn in H1, H2.
  exists ev1. now rewrite H1, H2.
Qed.


Lemma finishing_message_counts_witness :
  exists ev,
    r_events (SHARK_github.run (Some (fun _ => [])) script_two_workflows
                (github_A, world0))
    = ev
      ++ [Log DEBUG "Number of requests: {}"
            [JInt (0 + Z.of_nat (List.length (requests ev))
                   + Z.of_nat (List.length (saved ev)))];
          Log DEBUG "Number of stopping: {}"
            [JInt (0 + Z.of_nat (List.length (sleeps ev)))];
          Log DEBUG "Finished fetching actions." []].
Proof.
  apply (finishing_message_counts batches (fun _ => []) script_two_workflows
           github_A world0).
  vm_compute. reflexivity.
Defined.

(** On that run: three requests were sent and four are reported. *)
Example finishing_message_two_workflows :
  let ev := r_events (SHARK_github.run (Some (fun _ => []))
                        script_two_workflows (github_A, world0)) in
  List.length (requests ev) = 3%nat
  /\ In (Log DEBUG "Number of requests: {}" [JInt 4]) ev.
Proof. vm_compute. split; [reflexivity |]. tauto. Qed.

(** ** [src/actionshark]'s fetcher with [Mongo.save_documents] as its sink *)

Section Wired.

Import shark_mongo shark_github.

Variable validate : document -> bool.
Variable self : Mongo.

Abbreviation db := (store * list shark_mongo.log)%type.
Abbreviation kept := (tracks (database_kept validate self) true).
Abbreviation kept_act := (tracks_act (database_kept validate self) true).

Lemma kept_nil st : database_kept validate self st [] st.
Proof. intros H. now split. Qed.

Lemma kept_app st ev1 st1 ev2 st2 :
  database_kept validate self st ev1 st1 ->
  database_kept validate self st1 ev2 st2 ->
  database_kept validate self st (ev1 ++ ev2) st2.
Proof.
  intros H1 H2 H. destruct (H1 H) as [A1 A2]. destruct (H2 A1) as [B1 B2].
  split; [assumption | congruence].
Qed.

(** An action with no converter: the database is as it was. *)
Lemma save_documents_no_converter (documents : json) (action : string)
    (st : store) :
  __operations self action = None ->
  fst (save_documents validate self documents (Some action) st)
  = (Ok tt, st).
Proof.
  intros H. unfold save_documents. rewrite H.
  now destruct (negb (truthy documents) || String.eqb action "").
Qed.

Lemma mongo_sink_no_converter (items : json) (action : string) (s : db) :
  __operations self action = None ->
  exists logs,
    mongo_sink validate self items (Some action) s = (Ok tt, (fst s, logs)).
Proof.
  intros H. unfold mongo_sink.
  pose proof (save_documents_no_converter items action (fst s) H) as E.
  destruct (save_documents validate self items (Some action) (fst s))
    as [[r st'] logs]. cbn in E. injection E as -> ->. now eexists.
Qed.

Ltac kept_leaf :=
  intros [= <- <- <- <-]; cbn; repeat split; assumption.

Lemma receive_kept (checker : option string) (url : string) (x : exchange)
    (g : GitHub db) (w : world db) (a : string) :
  save_mongo g = mongo_sink validate self ->
  current_action g = Some a ->
  __operations self a = None ->
  forall o g' w' ev,
    paginating_receive checker url x (g, w) = (o, (g', w'), ev) ->
    save_mongo g' = mongo_sink validate self
    /\ current_action g' = Some a
    /\ fst (sink_state w') = fst (sink_state w).
Proof.
  intros Hk Ha Hop o g' w' ev. unfold paginating_receive.
  cbv [bind_act modify_self]. cbn [fst snd].
  destruct (negb (status_code (reply x) =? 200)
            && negb (status_code (reply x) =? 403)) eqn:Hbad.
  { cbn. kept_leaf. }
  destruct (status_code (reply x) =? 403) eqn:H403.
  { cbv [bind_act eval]. destruct (rate_limit_reset (reply x)) as [reset |];
      cbn; [| kept_leaf].
    destruct (localtime w reset) as [reset_time |]; cbn; [| kept_leaf].
    destruct (match header_get "Date" (headers (reply x)) with
              | Some v => strptime v "%a, %d %b %Y %H:%M:%S %Z"
              | None => Err TypeError
              end); cbn; [| kept_leaf].
    destruct (plus_one_hour reset_time); cbn; kept_leaf. }
  cbv [bind_act eval]. destruct (response_json (reply x)) as [body |]; cbn;
    [| kept_leaf].
  destruct (items_of checker body) as [items |]; cbn; [| kept_leaf].
  destruct (py_len items) as [n |]; cbn; [| kept_leaf].
  destruct (truthy items); cbn; [| kept_leaf].
  cbv [call_sink]. cbn [fst snd]. rewrite Hk, Ha.
  destruct (mongo_sink_no_converter items a (sink_state w) Hop) as [logs ->].
  cbn. destruct (n <? per_page g); cbn; kept_leaf.
Qed.

Lemma loop_kept (checker : option string) (a : string) :
  __operations self a = None ->
  forall rs url (g : GitHub db) (w : world db),
    save_mongo g = mongo_sink validate self ->
    current_action g = Some a ->
    forall o g' w' rs' ev,
      paginating_loop checker rs url (g, w) = (o, (g', w'), rs', ev) ->
      save_mongo g' = mongo_sink validate self
      /\ fst (sink_state w') = fst (sink_state w).
Proof.
  intros Hop. induction rs as [| x rs IH]; intros url g w Hk Ha o g' w' rs' ev;
    cbn [paginating_loop]; rewrite (sharkFacts.send_ok_lc db url g w).
  - intros [= <- <- <- <- <-]. now split.
  - destruct (paginating_receive checker _ x (g, w))
      as [[o2 [g2 w2]] ev2] eqn:E2.
    destruct (receive_kept _ _ _ _ _ a Hk Ha Hop _ _ _ _ E2)
      as (Hk2 & Ha2 & Hs2).
    destruct o2 as [[u |] | e | c |].
    1: { destruct (paginating_loop checker rs u (g2, w2))
           as [[[o3 [g3 w3]] rs3] ev3] eqn:E3.
         intros [= <- <- <- <- <-].
         destruct (IH u g2 w2 Hk2 Ha2 _ _ _ _ _ E3) as [I1 I2].
         split; [assumption | congruence]. }
    all: intros [= <- <- <- <- <-]; now split.
Qed.

Ltac fetch a :=
  intros rs [g w] _ Hk; cbn [fst snd] in Hk;
  cbv [bind_req lift modify_self get_self Effects.log emit paginating];
  cbn [fst snd];
  match goal with
  | |- context [paginating_loop ?c rs ?u (?g1, w)] =>
      let E := fresh "E" in
      destruct (paginating_loop c rs u (g1, w))
        as [[[o [g' w']] rs'] ev] eqn:E;
      destruct (loop_kept c a eq_refl rs u g1 w Hk eq_refl _ _ _ _ _ E);
      destruct o; now split
  end.

Lemma kept_get_workflows : kept get_workflows.
Proof. unfold get_workflows. fetch "workflows". Qed.

Lemma kept_get_runs : kept get_runs.
Proof. unfold get_runs. fetch "runs". Qed.

Lemma kept_stop (rs : list exchange) (g : GitHub db) (w : world db) msg :
  database_kept validate self (g, w)
    (r_events (bind_req (lift (Effects.log ERROR msg []))
                 (fun _ => lift (@sys_exit _ _ unit 1)) rs (g, w)))
    (r_state (bind_req (lift (Effects.log ERROR msg []))
                (fun _ => lift (@sys_exit _ _ unit 1)) rs (g, w))).
Proof. intros Hk. now split. Qed.

Lemma kept_get_jobs run_id : kept (get_jobs run_id).
Proof.
  unfold get_jobs. destruct (negb (ref_truthy run_id)).
  - intros rs [g w] _. apply kept_stop.
  - fetch "jobs".
Qed.

Lemma kept_get_artifacts run_id : kept (get_artifacts run_id).
Proof.
  unfold get_artifacts. destruct (negb (ref_truthy run_id)).
  - intros rs [g w] _. apply kept_stop.
  - fetch "artifacts".
Qed.

Lemma kept_bind {A B} (m : Req (GitHub db) db A)
    (k : A -> Req (GitHub db) db B) :
  kept m -> (forall a, kept (k a)) -> kept (bind_req m k).
Proof. apply tracks_bind. exact kept_app. Qed.

Lemma kept_quiet {A} (a : Act (GitHub db) db A) :
  (forall st, snd (fst (a st)) = st) -> kept (lift a).
Proof.
  intros H. apply tracks_lift. intros st _. rewrite H. apply kept_nil.
Qed.

Lemma kept_run runs_object : kept (run runs_object).
Proof.
  unfold run, verify_token.
  apply kept_bind.
  { apply kept_bind; [now apply kept_quiet | intros g].
    destruct (nonempty (__token g)); now apply kept_quiet. }
  intros _. apply kept_bind; [apply kept_get_workflows | intros _].
  apply kept_bind; [apply kept_get_runs | intros _].
  destruct runs_object as [objects |].
  - apply kept_bind; [now apply kept_quiet | intros _].
    apply kept_bind; [now apply kept_quiet | intros w].
    apply kept_bind; [now apply kept_quiet | intros _].
    apply kept_bind.
    { apply tracks_for_each;
        [exact kept_nil | exact kept_app | apply kept_get_jobs]. }
    intros _. apply kept_bind; [now apply kept_quiet | intros _].
    apply kept_bind; [now apply kept_quiet | intros _].
    apply kept_bind.
    { apply tracks_for_each;
        [exact kept_nil | exact kept_app | apply kept_get_artifacts]. }
    intros _. now apply kept_quiet.
  - apply tracks_ret. exact kept_nil.
Qed.

End Wired.

(** X12: the fetcher of [src/actionshark] with [Mongo.save_documents] of
    the same package as its sink stores nothing.  The fetcher hands its
    batches over under the actions [workflows], [runs], [jobs] and
    [artifacts]; the mapper has converters for [workflow], [run], [job] and
    [artifact] only, so every batch is dropped: whatever the server
    answers and however [run] ends, the database is as it was. *)
Theorem lowercase_fetcher_stores_nothing
    (validate : shark_mongo.document -> bool) (self : shark_mongo.Mongo)
    (runs_object :
       option (shark_mongo.store * list shark_mongo.log -> list string))
    (rs : list exchange)
    (g : shark_github.GitHub (shark_mongo.store * list shark_mongo.log))
    (w : world (shark_mongo.store * list shark_mongo.log)) :
  shark_github.save_mongo g = mongo_sink validate self ->
  fst (sink_state (snd (r_state (shark_github.run runs_object rs (g, w)))))
  = fst (sink_state w).
Proof.
  intros Hk.
  now destruct (kept_run validate self runs_object rs (g, w) eq_refl Hk).
Qed.

Lemma lowercase_fetcher_stores_nothing_witness :
  fst (sink_state (snd (r_state (shark_github.run (Some (fun _ => []))
                                   script_two_workflows
                                   (github_B_mongo, world_mongo)))))
  = empty_store.
Proof.
  apply (lowercase_fetcher_stores_nothing accept_all mongo_o_r
           (Some (fun _ => [])) script_two_workflows github_B_mongo
           world_mongo).
  reflexivity.
Defined.

(** On that run the two workflows were handed to the mapper, which logged
    that it has no such action. *)
Example lowercase_fetcher_two_workflows :
  let r := shark_github.run (Some (fun _ => [])) script_two_workflows
             (github_B_mongo, world_mongo) in
  saved (r_events r) = [(JList [workflow_55; workflow_55], Some "workflows")]
  /\ snd (sink_state (snd (r_state r)))
     = [shark_mongo.ActionNotFound "workflows"].
Proof. vm_compute. split; reflexivity. Qed.

End TrackingFacts.

(* ================================================================== *)
(** * [src/actionSHARK]'s fetcher with [Mongo.save_documents] as its sink *)
(* ================================================================== *)

Module WiringFacts.
Import Py Datetime Http Effects Traces TraceFacts Inputs Invariants Tracking.
Import StoreFacts PagingFacts TrackingFacts.

Section WiredA.

Import shark_mongo SHARK_github.

Variable validate : document -> bool.
Variable self : Mongo.

Abbreviation db := (store * list shark_mongo.log)%type.
Abbreviation grows := (tracks (database_grows validate self) true).
Abbreviation grows_act := (tracks_act (database_grows validate self) true).

Lemma grows_nil st : database_grows validate self st [] st.
Proof. intros H. split; [assumption |]. split; [apply extends_refl | auto]. Qed.

Lemma grows_app st ev1 st1 ev2 st2 :
  database_grows validate self st ev1 st1 ->
  database_grows validate self st1 ev2 st2 ->
  database_grows validate self st (ev1 ++ ev2) st2.
Proof.
  intros H1 H2 H. destruct (H1 H) as (A1 & A2 & A3).
  destruct (H2 A1) as (B1 & B2 & B3).
  split; [assumption |]. split; [eapply extends_trans; eauto | auto].
Qed.

Lemma mongo_sink_grows (items : json) (action : option string) (s : db) :
  extends (fst s) (fst (snd (mongo_sink validate self items action s)))
  /\ (references_resolve (fst s) ->
      references_resolve
        (fst (snd (mongo_sink validate self items action s)))).
Proof.
  unfold mongo_sink.
  pose proof (save_documents_extends validate self items action (fst s))
    as H1.
  pose proof (save_documents_references validate self items action
                (fst s)) as H2.
  destruct (save_documents validate self items action (fst s))
    as [[r st'] logs]. cbn in *. now split.
Qed.


Ltac grows_leaf :=
  intros [= <- <- <- <-]; cbn;
  (split; [assumption |]); (split; [apply extends_refl | auto]).

Lemma receive_grows (checker : option string) (url : string) (x : exchange)
    (g : GitHub db) (w : world db) :
  save_mongo g = mongo_sink validate self ->
  forall o g' w' ev,
    paginating_receive checker url x (g, w) = (o, (g', w'), ev) ->
    save_mongo g' = mongo_sink validate self
    /\ extends (fst (sink_state w)) (fst (sink_state w'))
    /\ (references_resolve (fst (sink_state w)) ->
        references_resolve (fst (sink_state w'))).
Proof.
  intros Hk o g' w' ev. unfold paginating_receive.
  cbv [bind_act modify_self]. cbn [fst snd].
  destruct (negb ((status_code (reply x) =? 200)
                  || (status_code (reply x) =? 403))) eqn:Hbad.
  { cbn. grows_leaf. }
  destruct (status_code (reply x) =? 403) eqn:H403.
  { cbv [bind_act eval]. destruct (rate_limit_reset (reply x)) as [reset |];
      cbn; [| grows_leaf].
    destruct (localtime w reset); cbn; [| grows_leaf].
    destruct (localtime w (clock x)); cbn; grows_leaf. }
  cbv [bind_act eval]. destruct (response_json (reply x)) as [body |]; cbn;
    [| grows_leaf].
  destruct (items_of checker body) as [items |]; cbn; [| grows_leaf].
  destruct (py_len items) as [n |]; cbn; [| grows_leaf].
  destruct (truthy items); cbn; [| grows_leaf].
  cbv [call_sink]. cbn [fst snd]. rewrite Hk.
  destruct (mongo_sink_grows items (current_action g) (sink_state w))
    as [G1 G2].
  destruct (mongo_sink validate self items (current_action g) (sink_state w))
    as [[[] | e] s']; cbn in G1, G2 |- *.
  2: { intros [= <- <- <- <-]. cbn. auto. }
  destruct (page g) as [p |]; cbn.
  2: { intros [= <- <- <- <-]. cbn. auto. }
  destruct (n <? per_page g); cbn; intros [= <- <- <- <-]; cbn; auto.
Qed.

Lemma loop_grows (checker : option string) :
  forall rs url (g : GitHub db) (w : world db),
    save_mongo g = mongo_sink validate self ->
    forall o g' w' rs' ev,
      paginating_loop checker rs url (g, w) = (o, (g', w'), rs', ev) ->
      save_mongo g' = mongo_sink validate self
      /\ extends (fst (sink_state w)) (fst (sink_state w'))
      /\ (references_resolve (fst (sink_state w)) ->
          references_resolve (fst (sink_state w'))).
Proof.
  induction rs as [| x rs IH]; intros url g w Hk o g' w' rs' ev;
    cbn [paginating_loop];
    (destruct (page g) as [p |] eqn:Hp;
     [rewrite (SHARKFacts.send_ok db url g w p Hp)
     | rewrite (send_none db url g w Hp); intros [= <- <- <- <- <-];
       split; [assumption |]; split; [apply extends_refl | auto]]).
  - intros [= <- <- <- <- <-].
    split; [assumption |]. split; [apply extends_refl | auto].
  - destruct (paginating_receive checker _ x (g, w))
      as [[o2 [g2 w2]] ev2] eqn:E2.
    destruct (receive_grows _ _ _ _ _ Hk _ _ _ _ E2) as (Hk2 & He2 & Hr2).
    destruct o2 as [[u |] | e | c |].
    1: { destruct (paginating_loop checker rs u (g2, w2))
           as [[[o3 [g3 w3]] rs3] ev3] eqn:E3.
         intros [= <- <- <- <- <-].
         destruct (IH u g2 w2 Hk2 _ _ _ _ _ E3) as (I1 & I2 & I3).
         split; [assumption |].
         split; [eapply extends_trans; eauto | auto]. }
    all: intros [= <- <- <- <- <-]; auto.
Qed.

Lemma grows_paginating url checker : grows (paginating url checker).
Proof.
  intros rs [g w] _ Hk. cbn [fst snd] in Hk. unfold paginating.
  destruct (paginating_loop checker rs url (g, w))
    as [[[o [g' w']] rs'] ev] eqn:E.
  exact (loop_grows checker rs url g w Hk _ _ _ _ _ E).
Qed.

Lemma grows_bind {A B} (m : Req (GitHub db) db A)
    (k : A -> Req (GitHub db) db B) :
  grows m -> (forall a, grows (k a)) -> grows (bind_req m k).
Proof. apply tracks_bind. exact grows_app. Qed.

(** A step that keeps the sink and the world. *)
Lemma grows_quiet {A} (a : Act (GitHub db) db A) :
  (forall st, save_mongo (fst (snd (fst (a st)))) = save_mongo (fst st)
              /\ snd (snd (fst (a st))) = snd st) ->
  grows (lift a).
Proof.
  intros H. apply tracks_lift. intros st _ Hk. destruct (H st) as [H1 H2].
  rewrite H1, H2. split; [assumption |].
  split; [apply extends_refl | auto].
Qed.

Lemma grows_authenticate_user : grows authenticate_user.
Proof.
  intros [| x rs] [g w] _ Hk; unfold authenticate_user;
    cbv [bind_req lift modify_self get_world requests_get Effects.log emit
           ret_req];
    cbn [fst snd]; [| destruct (status_code (reply x) =? 401)]; cbn;
    (split; [assumption |]); (split; [apply extends_refl | auto]).
Qed.

Ltac grow :=
  repeat first
    [ apply grows_paginating
    | apply grows_authenticate_user
    | apply grows_quiet; intros [? ?]; now split
    | apply tracks_ret; exact grows_nil
    | apply grows_bind; [| intros ?] ].

Lemma grows_get_workflows : grows get_workflows.
Proof. unfold get_workflows. grow. Qed.

Lemma grows_get_artifacts : grows get_artifacts.
Proof. unfold get_artifacts. grow. Qed.

Lemma grows_get_runs : grows get_runs.
Proof. unfold get_runs. grow. Qed.

Lemma grows_get_jobs run_id : grows (get_jobs run_id).
Proof.
  unfold get_jobs. destruct run_id as [r |]; [destruct (r =? 0) |]; grow.
Qed.

Lemma grows_verify_token : grows verify_token.
Proof.
  unfold verify_token. apply grows_bind; [grow | intros g].
  destruct (nonempty (__token g)); [| grow].
  apply grows_bind; [grow |].
  intros ok. destruct ok; cbn; grow.
Qed.

Lemma grows_run runs_object : grows (run runs_object).
Proof.
  unfold run, __finishing_message.
  apply grows_bind; [apply grows_verify_token | intros _].
  apply grows_bind; [apply grows_get_workflows | intros _].
  apply grows_bind; [apply grows_get_artifacts | intros _].
  apply grows_bind; [apply grows_get_runs | intros _].
  destruct runs_object as [objects |].
  - apply grows_bind; [grow | intros _].
    apply grows_bind; [grow | intros w].
    apply grows_bind; [grow | intros _].
    apply grows_bind.
    { apply tracks_for_each;
        [exact grows_nil | exact grows_app | apply grows_get_jobs]. }
    intros _. grow.
  - grow.
Qed.

End WiredA.

(** X13: a run of [src/actionSHARK] with [Mongo.save_documents] as its
    sink only adds to the database.  Whatever the database held, whatever
    the server answers, whatever the source of run ids, and however [run]
    ends, every document the database held is still there under its key;
    and when every stored run referred to a stored workflow and every
    stored job to a stored run, they still do, the new ones included. *)
Theorem run_with_mongo_only_adds
    (validate : shark_mongo.document -> bool) (self : shark_mongo.Mongo)
    (runs_object :
       option (shark_mongo.store * list shark_mongo.log -> list (option Z)))
    (rs : list exchange)
    (g : SHARK_github.GitHub (shark_mongo.store * list shark_mongo.log))
    (w : world (shark_mongo.store * list shark_mongo.log)) :
  SHARK_github.save_mongo g = mongo_sink validate self ->
  let after :=
    fst (sink_state (snd (r_state (SHARK_github.run runs_object rs (g, w)))))
  in
  extends (fst (sink_state w)) after
  /\ (references_resolve (fst (sink_state w)) -> references_resolve after).
Proof.
  intros Hk.
  destruct (grows_run validate self runs_object rs (g, w) eq_refl Hk)
    as (_ & H1 & H2).
  split; [exact H1 | exact H2].
Qed.

Lemma run_with_mongo_only_adds_witness :
  let after :=
    fst (sink_state
           (snd (r_state (SHARK_github.run (Some stored_run_ids)
                            script_workflow_run_job
                            (github_A_mongo, world_mongo))))) in
  extends empty_store after /\ references_resolve after.
Proof.
  destruct (run_with_mongo_only_adds accept_all mongo_o_r
              (Some stored_run_ids) script_workflow_run_job github_A_mongo
              world_mongo eq_refl) as [H1 H2].
  split; [exact H1 |]. apply H2.
  split; intros k x H; contradiction.
Defined.

(** On that run the workflow, its run and the run's job are stored, the
    job fetched at the URL of the stored run. *)
Example run_with_mongo_stores_all :
  let r := SHARK_github.run (Some stored_run_ids) script_workflow_run_job
             (github_A_mongo, world_mongo) in
  let after := fst (sink_state (snd (r_state r))) in
  r_out r = Returns tt
  /\ map (fun d => shark_mongo.workflow_id (snd d)) (shark_mongo.workflows after)
     = [55]
  /\ map (fun d => shark_mongo.run_id (snd d)) (shark_mongo.runs after) = [7]
  /\ map (fun d => shark_mongo.job_id (snd d)) (shark_mongo.jobs after) = [9]
  /\ snd (sink_state (snd (r_state r))) = []
  /\ last (requests (r_events r)) ""
     = "https://api.github.com/repos/o/r/actions/runs/7/jobs?per_page=100&page=1".
Proof. vm_compute. repeat split. Qed.

End WiringFacts.

(* ================================================================== *)
(** * Constructors, missing arguments and other edges *)
(* ================================================================== *)

Module EdgeFacts.
Import Py Datetime Http Effects Traces TraceFacts Inputs Invariants Tracking.
Import Paging StoreFacts PagingFacts TrackingFacts MongoFacts.

(** X14: a [GitHub] is not made without an owner, a repository and a sink.
    When one of them is missing or false (an empty name counts), both
    constructors log one error and exit with status 1; the headers of the
    class are left as they were, also when a token was passed. *)
Theorem init_needs_owner_repo_and_sink
    (S : Type) (ow rp : option string) (pp : Z) (token : option string)
    (k : option (sink S)) (interval : Z) (w : world S) :
  nonempty ow = None \/ nonempty rp = None \/ k = None ->
  SHARK_github.__init__ ow rp pp token k w
  = (Exits 1, w,
     [Log ERROR
        "Please make to sure to pass owner and repo names and save_mongo function."
        []])
  /\ shark_github.__init__ ow rp pp token k interval w
     = (Exits 1, w,
        [Log ERROR
           "Please make to sure to pass owner and repo names and save_mongo function."
           []]).
Proof.
  unfold SHARK_github.__init__, shark_github.__init__.
  intros [H | [H | H]]; rewrite H.
  - split; reflexivity.
  - destruct (nonempty ow); split; reflexivity.
  - destruct (nonempty ow); destruct (nonempty rp); split; reflexivity.
Qed.

Lemma init_needs_owner_repo_and_sink_witness :
  fst (fst (SHARK_github.__init__ (Some "o") (Some "") 100 (Some "t")
              (Some keep) world0))
  = Exits 1
  /\ snd (fst (shark_github.__init__ (Some "o") (Some "") 100 (Some "t")
                 (Some keep) 2 world0))
     = world0.
Proof.
  destruct (init_needs_owner_repo_and_sink batches (Some "o") (Some "") 100
              (Some "t") (Some keep) 2 world0) as [HA HB].
  - right. left. reflexivity.
  - rewrite HA, HB. split; reflexivity.
Defined.

(** X15: a fetcher of [src/actionshark] made with a token cannot run.
    [run] calls [authenticate_user] with an argument the method does not
    take: the call raises a [TypeError] before any request is sent, and
    nothing is fetched or handed to the sink. *)
Theorem lowercase_run_with_token_raises
    (S : Type) (ow rp : option string) (pp : Z) (token : option string)
    (k : option (sink S)) (interval : Z) (w0 w : world S)
    (g : shark_github.GitHub S) (ev : list event) (t : string)
    (runs_object : option (S -> list string)) (rs : list exchange) :
  shark_github.__init__ ow rp pp token k interval w0 = (Returns g, w, ev) ->
  nonempty token = Some t ->
  shark_github.run runs_object rs (g, w) = (Raises TypeError, (g, w), rs, []).
Proof.
  intros Hi Ht.
  destruct (FetchFacts.init_returns_lc S ow rp pp token k interval w0 w g ev
              Hi) as [Hg _].
  unfold shark_github.run, shark_github.verify_token.
  cbv [bind_req lift get_self]. cbn [fst snd].
  now rewrite Hg, FetchFacts.nonempty_idem, Ht.
Qed.

Lemma lowercase_run_with_token_raises_witness :
  match shark_github.__init__ (Some "o") (Some "r") 100 (Some "t")
          (Some keep) 2 world0 with
  | (Returns g, w, _) =>
      shark_github.run None script_two_workflows (g, w)
      = (Raises TypeError, (g, w), script_two_workflows, [])
  | _ => False
  end.
Proof.
  destruct (shark_github.__init__ (Some "o") (Some "r") 100 (Some "t")
              (Some keep) 2 world0) as [[[g | e | c |] w] ev] eqn:E;
    try (cbn in E; discriminate).
  exact (lowercase_run_with_token_raises batches (Some "o") (Some "r") 100
           (Some "t") (Some keep) 2 world0 w g ev "t" None
           script_two_workflows E eq_refl).
Defined.

(** X16: [paginating] on an object [run] or a fetch has not prepared.
    [__init__] of [src/actionSHARK] sets no page: [paginating] on the new
    object raises an [AttributeError] at the first use of [self.page],
    before any request.  [__init__] of [src/actionshark] sets the page to
    1: the first request is for page 1. *)
Theorem paginating_on_a_new_object
    (S : Type) (ow rp : option string) (pp : Z) (token : option string)
    (k : option (sink S)) (interval : Z) (w0 wA wB : world S)
    (gA : SHARK_github.GitHub S) (gB : shark_github.GitHub S)
    (evA evB : list event) (url : string) (checker : option string)
    (rs : list exchange) :
  SHARK_github.__init__ ow rp pp token k w0 = (Returns gA, wA, evA) ->
  shark_github.__init__ ow rp pp token k interval w0 = (Returns gB, wB, evB) ->
  SHARK_github.paginating url checker rs (gA, wA)
  = (Raises AttributeError, (gA, wA), rs, [])
  /\ exists o st' rs' ev',
       shark_github.paginating url checker rs (gB, wB)
       = (o, st', rs',
          Get (String.append url (page_suffix 1)) (__headers wB) :: ev').
Proof.
  unfold SHARK_github.__init__, shark_github.__init__.
  destruct (nonempty ow); [| discriminate].
  destruct (nonempty rp); [| discriminate].
  destruct k; [| discriminate].
  intros [= <- <- <-] [= <- <- <-]. split.
  - unfold SHARK_github.paginating. destruct rs; reflexivity.
  - apply (sharkFacts.loop_starts_lc S checker rs url).
Qed.

Lemma paginating_on_a_new_object_witness :
  match SHARK_github.__init__ (Some "o") (Some "r") 100 None (Some keep)
          world0 with
  | (Returns g, w, _) =>
      SHARK_github.paginating "u" None script_two_workflows (g, w)
      = (Raises AttributeError, (g, w), script_two_workflows, [])
  | _ => False
  end.
Proof.
  destruct (SHARK_github.__init__ (Some "o") (Some "r") 100 None (Some keep)
              world0) as [[[g | e | c |] w] ev] eqn:EA;
    try (cbn in EA; discriminate).
  destruct (shark_github.__init__ (Some "o") (Some "r") 100 None (Some keep)
              2 world0) as [[[g' | e | c |] w'] ev'] eqn:EB;
    try (cbn in EB; discriminate).
  exact (proj1 (paginating_on_a_new_object batches (Some "o") (Some "r") 100
                  None (Some keep) 2 world0 w w' g g' ev ev' "u" None
                  script_two_workflows EA EB)).
Defined.

(** X17: how long [src/actionSHARK] sleeps on a rate-limit response.  It
    is the local datetime of the reset minus the local datetime of the
    clock, as the platform converts them, modulo one day: never negative
    and under a day.  When the same offset from UTC is in force at both
    instants, it is the reset time minus the clock modulo one day; and when
    the local reset time is before the local clock by less than a day, the
    sleep is not 0 but a day less that time. *)
Theorem rate_limit_sleep_is_modulo_a_day
    (S : Type) (checker : option string) (url : string) (x : exchange)
    (rs : list exchange) (g : SHARK_github.GitHub S) (w : world S)
    (p reset reset_time current_time : Z) :
  SHARK_github.page g = Some p ->
  status_code (reply x) = 403 ->
  rate_limit_reset (reply x) = Ok reset ->
  localtime w reset = Ok reset_time ->
  localtime w (clock x) = Ok current_time ->
  exists s rest,
    sleeps (r_events (SHARK_github.paginating url checker (x :: rs) (g, w)))
    = s :: rest
    /\ s = (reset_time - current_time) mod 86400
    /\ 0 <= s < 86400
    /\ (reset_time - reset = current_time - clock x ->
        s = (reset - clock x) mod 86400)
    /\ (current_time - 86400 < reset_time < current_time ->
        s = 86400 - (current_time - reset_time)).
Proof.
  intros Hp Hs Hr Hl Hc. unfold SHARK_github.paginating.
  cbn [SHARK_github.paginating_loop].
  rewrite (SHARKFacts.send_ok S url g w p Hp).
  rewrite (SHARKFacts.receive_403 S checker _ x g w reset reset_time
             current_time Hs Hr Hl Hc).
  destruct (SHARK_github.paginating_loop checker rs _ _)
    as [[[o3 st3] rs3] ev3].
  cbn [r_events snd app sleeps].
  eexists _, _. split; [reflexivity |].
  unfold timedelta_seconds.
  split; [reflexivity |]. split; [apply Z.mod_pos_bound; lia |].
  split.
  - intros H. f_equal. lia.
  - intros [H1 H2].
    replace (reset_time - current_time)
      with ((86400 - (current_time - reset_time)) + (-1) * 86400) by lia.
    rewrite Z.mod_add by lia. apply Z.mod_small. lia.
Qed.

Lemma rate_limit_sleep_is_modulo_a_day_witness :
  exists s rest,
    sleeps (r_events (SHARK_github.paginating "u" None
                        (limited 1000070 :: [])
                        (SHARK_github.set_page 1 github_A, world0)))
    = s :: rest
    /\ s = (1000060 - 1000070) mod 86400
    /\ 0 <= s < 86400
    /\ (1000060 - 1000060 = 1000070 - clock (limited 1000070) ->
        s = (1000060 - clock (limited 1000070)) mod 86400)
    /\ (1000070 - 86400 < 1000060 < 1000070 ->
        s = 86400 - (1000070 - 1000060)).
Proof.
  apply (rate_limit_sleep_is_modulo_a_day batches None "u" (limited 1000070)
           [] (SHARK_github.set_page 1 github_A) world0 1 1000060 1000060
           1000070);
    reflexivity.
Defined.

(** The sleep is not the time to the reset when the offset from UTC
    changes in between.  In the zone Europe/Berlin a reset 120 seconds
    ahead is slept 3720 seconds when the clocks go forward before it and
    82920 seconds when they go back, and a reset one hour ahead across the
    change back is not slept at all. *)
Lemma rate_limit_sleep_across_a_clock_change :
  sleeps (r_events (SHARK_github.paginating "u" None
                      [limited_until "1648342860" 1648342740]
                      (SHARK_github.set_page 1 github_A, world_berlin)))
  = [3720]
  /\ sleeps (r_events (SHARK_github.paginating "u" None
                         [limited_until "1667091660" 1667091540]
                         (SHARK_github.set_page 1 github_A, world_berlin)))
     = [82920]
  /\ sleeps (r_events (SHARK_github.paginating "u" None
                         [limited_until "1667093400" 1667089800]
                         (SHARK_github.set_page 1 github_A, world_berlin)))
     = [0].
Proof. vm_compute. repeat split. Qed.

(** A reset time past the year 9999 is not slept on: [fromtimestamp]
    raises, and the fetch with it. *)
Lemma rate_limit_reset_out_of_range :
  let r := SHARK_github.paginating "u" None
             [limited_until "253402300800" 1000000]
             (SHARK_github.set_page 1 github_A, world0) in
  r_out r = Raises ValueError /\ sleeps (r_events r) = [].
Proof. vm_compute. split; reflexivity. Qed.

(** X18: the batches [save_documents] drops whole.  A batch that is false
    (empty, or [None]) and a call without an action (none, or the empty
    string) log the line that no documents or action got passed; a true
    batch under an action with no converter logs the line that names the
    action.  In each case that one line is all: the database is as it was
    and nothing is raised. *)
Theorem save_documents_drops_the_batch
    (validate : shark_mongo.document -> bool) (self : shark_mongo.Mongo)
    (documents : json) (action : option string) (st : shark_mongo.store) :
  (truthy documents = false \/ nonempty action = None ->
   shark_mongo.save_documents validate self documents action st
   = (Ok tt, st, [shark_mongo.NoDocumentsOrAction]))
  /\ (forall a,
         truthy documents = true -> action = Some a -> a <> "" ->
         shark_mongo.__operations self a = None ->
         shark_mongo.save_documents validate self documents action st
         = (Ok tt, st, [shark_mongo.ActionNotFound a])).
Proof.
  unfold shark_mongo.save_documents. split.
  - intros [H | H].
    + rewrite H. now destruct action.
    + destruct action as [a |]; [| reflexivity].
      cbn in H. destruct (String.eqb a ""); [| discriminate].
      now rewrite orb_true_r.
  - intros a Hd -> Ha Hop. rewrite Hd, Hop.
    destruct (String.eqb_spec a ""); [contradiction | reflexivity].
Qed.

Lemma save_documents_drops_the_batch_witness :
  shark_mongo.save_documents accept_all mongo_o_r (JList [])
    (Some "workflow") empty_store
  = (Ok tt, empty_store, [shark_mongo.NoDocumentsOrAction])
  /\ shark_mongo.save_documents accept_all mongo_o_r (JList [workflow_55])
       (Some "workflows") empty_store
     = (Ok tt, empty_store, [shark_mongo.ActionNotFound "workflows"]).
Proof.
  split.
  - apply (proj1 (save_documents_drops_the_batch accept_all mongo_o_r
                    (JList []) (Some "workflow") empty_store)).
    left. reflexivity.
  - apply (proj2 (save_documents_drops_the_batch accept_all mongo_o_r
                    (JList [workflow_55]) (Some "workflows") empty_store)
             "workflows"); try reflexivity.
    discriminate.
Defined.



(** X20: a 403 response without the header [X-RateLimit-Reset] is not
    retried.  Both fetchers read the header before anything else in the
    branch: [int(None)] raises a [TypeError] out of [paginating].  The
    request was counted; there is no sleep, nothing is handed to the sink
    and the rest of the script is not asked for. *)
Theorem forbidden_without_reset_header_raises
    (S : Type) (checker : option string) (url : string) (x : exchange)
    (rs : list exchange) (gA : SHARK_github.GitHub S)
    (gB : shark_github.GitHub S) (w : world S) (p : Z) :
  status_code (reply x) = 403 ->
  header_get "X-RateLimit-Reset" (headers (reply x)) = None ->
  SHARK_github.page gA = Some p ->
  shark_github.page gB = p ->
  SHARK_github.paginating url checker (x :: rs) (gA, w)
  = (Raises TypeError,
     (SHARK_github.set_total_requests (SHARK_github.total_requests gA + 1) gA,
      w),
     rs, [Get (String.append url (page_suffix p)) (__headers w)])
  /\ shark_github.paginating url checker (x :: rs) (gB, w)
     = (Raises TypeError,
        (shark_github.set_total_requests (shark_github.total_requests gB + 1)
           gB, w),
        rs, [Get (String.append url (page_suffix p)) (__headers w)]).
Proof.
  intros Hs Hh HpA HpB. split.
  - unfold SHARK_github.paginating. cbn [SHARK_github.paginating_loop].
    rewrite (SHARKFacts.send_ok S url gA w p HpA).
    unfold SHARK_github.paginating_receive.
    cbv [bind_act modify_self]. cbn [fst snd]. rewrite Hs.
    cbn [Z.eqb Pos.eqb negb orb]. cbv [bind_act eval].
    unfold rate_limit_reset. rewrite Hh. reflexivity.
  - unfold shark_github.paginating. cbn [shark_github.paginating_loop].
    rewrite (sharkFacts.send_ok_lc S url gB w).
    unfold shark_github.paginating_receive.
    cbv [bind_act modify_self]. cbn [fst snd]. rewrite Hs.
    cbn [Z.eqb Pos.eqb negb andb]. cbv [bind_act eval].
    unfold rate_limit_reset. rewrite Hh, HpB. reflexivity.
Qed.

Lemma forbidden_without_reset_header_raises_witness :
  r_out (SHARK_github.paginating "u" (Some "workflows")
           [mk_exchange (mk_response 403 "Forbidden" [] None) 0;
            ok_200 two_workflows 0]
           (SHARK_github.set_page 1 github_A, world0))
  = Raises TypeError
  /\ r_out (shark_github.paginating "u" (Some "workflows")
              [mk_exchange (mk_response 403 "Forbidden" [] None) 0;
               ok_200 two_workflows 0]
              (github_B, world0))
     = Raises TypeError.
Proof.
  destruct (forbidden_without_reset_header_raises batches (Some "workflows")
              "u" (mk_exchange (mk_response 403 "Forbidden" [] None) 0)
              [ok_200 two_workflows 0]
              (SHARK_github.set_page 1 github_A) github_B world0 1)
    as [HA HB]; try reflexivity.
  rewrite HA, HB. split; reflexivity.
Defined.

(** X21: a 200 response whose body is a dict without the checker's key.
    [body.get(checker)] is [None] and [len(None)] raises a [TypeError] out
    of [paginating] in both fetchers: the response does not count as an
    empty page.  Nothing is handed to the sink and the rest of the script
    is not asked for. *)
Theorem page_without_the_item_list_raises
    (S : Type) (c : string) (url : string) (x : exchange)
    (rs : list exchange) (kv : list (string * json))
    (gA : SHARK_github.GitHub S) (gB : shark_github.GitHub S)
    (w : world S) (p : Z) :
  status_code (reply x) = 200 ->
  content (reply x) = Some (JObj kv) ->
  c <> "" ->
  assoc c kv = None ->
  SHARK_github.page gA = Some p ->
  shark_github.page gB = p ->
  SHARK_github.paginating url (Some c) (x :: rs) (gA, w)
  = (Raises TypeError,
     (SHARK_github.set_total_requests (SHARK_github.total_requests gA + 1) gA,
      w),
     rs, [Get (String.append url (page_suffix p)) (__headers w)])
  /\ shark_github.paginating url (Some c) (x :: rs) (gB, w)
     = (Raises TypeError,
        (shark_github.set_total_requests (shark_github.total_requests gB + 1)
           gB, w),
        rs, [Get (String.append url (page_suffix p)) (__headers w)]).
Proof.
  intros Hs Hc Hne Hk HpA HpB.
  assert (Hi : items_of (Some c) (JObj kv) = Ok JNull).
  { unfold items_of. rewrite (FetchFacts.nonempty_some c Hne). cbn.
    now rewrite Hk. }
  split.
  - unfold SHARK_github.paginating. cbn [SHARK_github.paginating_loop].
    rewrite (SHARKFacts.send_ok S url gA w p HpA).
    unfold SHARK_github.paginating_receive.
    cbv [bind_act modify_self]. cbn [fst snd]. rewrite Hs.
    cbn [Z.eqb Pos.eqb negb orb]. unfold response_json. rewrite Hc.
    cbv [bind_act eval ret_act]. rewrite Hi. reflexivity.
  - unfold shark_github.paginating. cbn [shark_github.paginating_loop].
    rewrite (sharkFacts.send_ok_lc S url gB w).
    unfold shark_github.paginating_receive.
    cbv [bind_act modify_self]. cbn [fst snd]. rewrite Hs.
    cbn [Z.eqb Pos.eqb negb andb]. unfold response_json. rewrite Hc.
    cbv [bind_act eval ret_act]. rewrite Hi, HpB. reflexivity.
Qed.

Lemma page_without_the_item_list_raises_witness :
  r_out (SHARK_github.paginating "u" (Some "workflow_runs")
           [ok_200 two_workflows 0; ok_200 no_items 0]
           (SHARK_github.set_page 1 github_A, world0))
  = Raises TypeError
  /\ r_out (shark_github.paginating "u" (Some "workflow_runs")
              [ok_200 two_workflows 0; ok_200 no_items 0]
              (github_B, world0))
     = Raises TypeError.
Proof.
  destruct (page_without_the_item_list_raises batches "workflow_runs" "u"
              (ok_200 two_workflows 0) [ok_200 no_items 0]
              [("total_count", JInt 2);
               ("workflows", JList [workflow_55; workflow_55])]
              (SHARK_github.set_page 1 github_A) github_B world0 1)
    as [HA HB]; try reflexivity.
  - discriminate.
  - rewrite HA, HB. split; reflexivity.
Defined.

End EdgeFacts.
